(** * The repository analysis pipeline of [supabase/functions/analyze-repo/index.ts]

    A shallow embedding of the edge function that scores a GitHub repository:
    the retrying fetcher, the URL parser, the three metadata fetchers, the
    prompt builder, the block that interprets the completion, and the request
    handler that chains them.

    Conventions of the embedding.
    - A JavaScript value that comes out of [JSON.parse] is a [JsValue]; an
      object is a finite map from property names to values.
    - A JavaScript number is a [JsNum]: the rational a finite double denotes,
      the two infinities, or NaN.  Negative zero is identified with zero (both
      are falsy and [Math.max(0, -0)] is [0]).  Comparison, [Math.min] and
      [Math.max] are exact on doubles.  The waits of the retrying fetcher are
      the real numbers that the doubles of the code round: the theorems on
      them state their order and their bounds; the examples draw one half,
      where the doubles of the code are these numbers exactly.
    - A JavaScript string is held as the bytes of its UTF-8 encoding;
      [substring] and the index of a string count UTF-16 code units.
    - A statement that can throw is a [Completion]; an [async] function that
      talks to the network returns a computation [M] that also records the
      calls to [fetch] and the timers it awaited.
    - What the engine and the libraries provide ([JSON.parse], the conversion
      of strings and objects to numbers and to strings, base64 decoding) is a
      [Host]; every theorem holds for every host.
    - The submission page that invokes the function is embedded in
      [SubmitPage], with the state of the page it sets passed explicitly; its
      products by [0.6] and [0.3] are rounded as those of the doubles are. *)

From Stdlib Require Import Ascii String QArith Qabs Qround Lia Lqa.
From stdpp Require Import gmap strings list fin_maps pretty.

Set Warnings "-register-all".
#[local] Open Scope string_scope.

(** ** Text

    A JavaScript string is a sequence of UTF-16 code units.  The embedding
    holds it as the bytes of its UTF-8 encoding, and a surrogate that stands
    alone (which only a cut through a pair leaves) as the three bytes this
    encoding gives a code point of its value.  Comparison, concatenation and
    the patterns of the program, which name ASCII characters only, read the
    same on the bytes as on the code units; [substring] counts code units. *)

(** The sequence that the byte [lead] starts: its number of bytes and the
    number of code units of its character (two for the four bytes of a
    character outside the basic plane).  A byte that starts no sequence
    counts for itself. *)
Definition utf8_sequence (lead : ascii) : nat * nat :=
  let n := nat_of_ascii lead in
  if (n <? 192)%nat then (1, 1)%nat
  else if (n <? 224)%nat then (2, 1)%nat
  else if (n <? 240)%nat then (3, 1)%nat
  else if (n <? 248)%nat then (4, 2)%nat
  else (1, 1)%nat.

(** The first of the two surrogates of the character whose four bytes start
    with [b0], [b1] and [b2]: [0xD800 + ((code point - 0x10000) >> 10)], as
    three bytes. *)
Definition high_surrogate (b0 b1 b2 : ascii) : string :=
  let top := (nat_of_ascii b0 mod 8 * 256 + nat_of_ascii b1 mod 64 * 4
              + nat_of_ascii b2 mod 64 / 16 - 64)%nat in
  String (ascii_of_nat 237)
    (String (ascii_of_nat (160 + top / 64))
       (String (ascii_of_nat (128 + top mod 64)) EmptyString)).

(** The first [n] code units of [s], [pending] bytes of a character already
    counted being still to copy. *)
Fixpoint take_units (n pending : nat) (s : string) : string :=
  match s with
  | EmptyString => EmptyString
  | String c s' =>
      match pending with
      | S p => String c (take_units n p s')
      | O =>
          let (bytes, units) := utf8_sequence c in
          if (units <=? n)%nat then String c (take_units (n - units) (bytes - 1) s')
          else
            match n, s' with
            | 1%nat, String b1 (String b2 _) => high_surrogate c b1 b2
            | _, _ => EmptyString
            end
      end
  end.

(** [s.substring(0, n)] *)
Definition substring_to (n : nat) (s : string) : string := take_units n 0 s.

(** [s.length] *)
Fixpoint code_units (pending : nat) (s : string) : nat :=
  match s with
  | EmptyString => 0
  | String c s' =>
      match pending with
      | S p => code_units p s'
      | O => let (bytes, units) := utf8_sequence c in (units + code_units (bytes - 1) s')%nat
      end
  end.

(** ** JavaScript values *)

Module Js.

Inductive JsNum :=
| NaN
| PosInf
| NegInf
| Fin (q : Q).

Inductive JsValue :=
| JUndefined
| JNull
| JBool (b : bool)
| JNum (n : JsNum)
| JStr (s : string)
| JArr (elems : list JsValue) (expando : gmap string JsValue)
| JObj (props : gmap string JsValue).

(** A thrown [Error]: its [name] and its [message]. *)
Record JsError := MkError { err_name : string; err_message : string }.

Inductive Completion (A : Type) :=
| Normal (a : A)
| Throw (e : JsError).
Arguments Normal {A} a.
Arguments Throw {A} e.

#[global] Instance completion_ret : MRet Completion := fun A a => Normal a.
#[global] Instance completion_bind : MBind Completion := fun A B f m =>
  match m with
  | Normal a => f a
  | Throw e => Throw e
  end.

Definition TypeError (msg : string) : JsError := MkError "TypeError" msg.
Definition SyntaxError (msg : string) : JsError := MkError "SyntaxError" msg.
Definition Error (msg : string) : JsError := MkError "Error" msg.

(** [n] written as a number literal. *)
Definition num (n : Z) : JsNum := Fin (inject_Z n).

(** The order of the numbers that are not NaN. *)
Definition num_leb (a b : JsNum) : bool :=
  match a, b with
  | NaN, _ | _, NaN => false
  | NegInf, _ => true
  | _, PosInf => true
  | Fin p, Fin q => Qle_bool p q
  | _, _ => false
  end.

(** [Math.min(a, b)] and [Math.max(a, b)] on numbers: NaN if either is NaN. *)
Definition Math_min (a b : JsNum) : JsNum :=
  match a, b with
  | NaN, _ | _, NaN => NaN
  | _, _ => if num_leb a b then a else b
  end.

Definition Math_max (a b : JsNum) : JsNum :=
  match a, b with
  | NaN, _ | _, NaN => NaN
  | _, _ => if num_leb a b then b else a
  end.

(** ToBoolean: [undefined], [null], [false], [0], [NaN] and the empty string
    are falsy, everything else (every array and object included) is truthy. *)
Definition truthy (v : JsValue) : bool :=
  match v with
  | JUndefined | JNull => false
  | JBool b => b
  | JNum NaN => false
  | JNum (Fin q) => negb (Qeq_bool q 0)
  | JNum _ => true
  | JStr s => negb (String.eqb s "")
  | JArr _ _ | JObj _ => true
  end.

(** [a || b] *)
Definition or_else (a b : JsValue) : JsValue := if truthy a then a else b.

(** [v === 'literal'] *)
Definition strict_eq_str (v : JsValue) (lit : string) : bool :=
  match v with
  | JStr s => String.eqb s lit
  | _ => false
  end.

(** [v[k]] for the property names this program reads (none of them is defined
    on a built-in prototype): reading from [null] or [undefined] throws, a
    primitive has no such property, a string or an array answers the index
    [0], an array also keeps the properties assigned to it, an object is
    looked up. *)
Definition getProp (v : JsValue) (k : string) : Completion JsValue :=
  match v with
  | JUndefined | JNull => Throw (TypeError "Cannot read properties of null or undefined")
  | JBool _ | JNum _ => Normal JUndefined
  | JStr s =>
      match s with
      | String _ _ => if String.eqb k "0" then Normal (JStr (substring_to 1 s)) else Normal JUndefined
      | EmptyString => Normal JUndefined
      end
  | JArr elems expando =>
      if String.eqb k "0" then Normal (default JUndefined (head elems))
      else Normal (default JUndefined (expando !! k))
  | JObj props => Normal (default JUndefined (props !! k))
  end.

(** [v?.[k]]: short-circuits to [undefined] on [null] and [undefined]. *)
Definition getPropOpt (v : JsValue) (k : string) : Completion JsValue :=
  match v with
  | JUndefined | JNull => Normal JUndefined
  | _ => getProp v k
  end.

(** [v[k] = x] in strict mode (the file is an ES module), for a name [k] that
    is not an array index: assigning to a property of [null], [undefined] or
    a primitive throws; arrays and objects take the property. *)
Definition setProp (v : JsValue) (k : string) (x : JsValue) : Completion JsValue :=
  match v with
  | JUndefined | JNull => Throw (TypeError "Cannot set properties of null or undefined")
  | JBool _ | JNum _ | JStr _ => Throw (TypeError "Cannot create property on a primitive")
  | JArr elems expando => Normal (JArr elems (<[k:=x]> expando))
  | JObj props => Normal (JObj (<[k:=x]> props))
  end.

(** What the engine and the imported libraries provide. *)
Record Host := {
  (** [JSON.parse(text)]; [None] when it throws a SyntaxError. *)
  JSON_parse : string -> option JsValue;
  (** ToNumber on a string, an array or an object. *)
  ToNumber_host : JsValue -> Completion JsNum;
  (** ToString on a number, an array or an object. *)
  ToString_host : JsValue -> Completion string;
  (** [new TextDecoder().decode(decode(b64))], [decode] being the base64
      decoder of the Deno standard library. *)
  decode_base64_text : string -> Completion string
}.

(** ToNumber. *)
Definition ToNumber (host : Host) (v : JsValue) : Completion JsNum :=
  match v with
  | JUndefined => Normal NaN
  | JNull => Normal (num 0)
  | JBool b => Normal (if b then num 1 else num 0)
  | JNum n => Normal n
  | JStr _ | JArr _ _ | JObj _ => ToNumber_host host v
  end.

(** ToString, as a template literal applies it. *)
Definition ToString (host : Host) (v : JsValue) : Completion string :=
  match v with
  | JUndefined => Normal "undefined"
  | JNull => Normal "null"
  | JBool b => Normal (if b then "true" else "false")
  | JStr s => Normal s
  | JNum _ | JArr _ _ | JObj _ => ToString_host host v
  end.

End Js.
Export Js.

(** ** Regular expressions

    The two patterns of [parseGitHubUrl] need literal characters, the
    negated class under [+], [?], capture groups and [$].  The matcher is
    the backtracking one of the language: greedy quantifiers, the
    continuation decides whether a shorter match is tried. *)

Module Regex.

Inductive Regex :=
| Chr (c : ascii)          (* a literal character *)
| NoneOfPlus (c : ascii)   (* [^c]+ *)
| Opt (r : Regex)          (* r? *)
| Group (r : Regex)        (* (r) *)
| Seq (r1 r2 : Regex)
| Eos.                     (* $, without the m flag *)

(** The literal string [s] as a pattern followed by [r]. *)
Fixpoint lit (s : string) (r : Regex) : Regex :=
  match s with
  | EmptyString => r
  | String c s' => Seq (Chr c) (lit s' r)
  end.

Section Matcher.
Context {R : Type}.

(** [[^c]*] then [k]: the longest run first, then shorter ones. *)
Fixpoint star_none_of (c : ascii) (s : string) (k : string -> option R) : option R :=
  match s with
  | String a s' =>
      if Ascii.eqb a c then k s
      else match star_none_of c s' k with
           | Some x => Some x
           | None => k s
           end
  | EmptyString => k s
  end.

Definition plus_none_of (c : ascii) (s : string) (k : string -> option R) : option R :=
  match s with
  | String a s' => if Ascii.eqb a c then None else star_none_of c s' k
  | EmptyString => None
  end.

(** The text between the start [s] of a match and what is left, [rest]. *)
Definition consumed (s rest : string) : string :=
  String.substring 0 (String.length s - String.length rest) s.

(** [run r s caps k]: match [r] at the start of [s], then continue with
    [k] on the rest of the input and the groups captured so far. *)
Fixpoint run (r : Regex) (s : string) (caps : list string)
    (k : string -> list string -> option R) : option R :=
  match r with
  | Chr c =>
      match s with
      | String a s' => if Ascii.eqb a c then k s' caps else None
      | EmptyString => None
      end
  | NoneOfPlus c => plus_none_of c s (fun rest => k rest caps)
  | Opt r1 =>
      match run r1 s caps k with
      | Some x => Some x
      | None => k s caps
      end
  | Group r1 => run r1 s caps (fun rest caps' => k rest (caps' ++ [consumed s rest])%list)
  | Seq r1 r2 => run r1 s caps (fun rest caps' => run r2 rest caps' k)
  | Eos =>
      match s with
      | EmptyString => k s caps
      | String _ _ => None
      end
  end.
End Matcher.

(** [s.match(/^r/)] for a pattern without the g flag: the captured groups,
    or [None] for [null]. *)
Definition match_anchored (r : Regex) (s : string) : option (list string) :=
  run r s [] (fun _ caps => Some caps).

(** The leftmost match of [r] in [s]: the text before it and the text after. *)
Fixpoint search (r : Regex) (s : string) : option (string * string) :=
  match run r s [] (fun rest _ => Some rest) with
  | Some rest => Some (EmptyString, rest)
  | None =>
      match s with
      | String a s' =>
          match search r s' with
          | Some (before, rest) => Some (String a before, rest)
          | None => None
          end
      | EmptyString => None
      end
  end.

(** [s.replace(/r/, repl)], [repl] without [$] patterns. *)
Definition replace (r : Regex) (repl : string) (s : string) : string :=
  match search r s with
  | Some (before, rest) => before +:+ repl +:+ rest
  | None => s
  end.

End Regex.

(** ** The locator parser *)

Record GitHubRepo := { owner : string; repo : string }.

(** [/^https:\/\/github\.com\/([^\/]+)\/([^\/]+)\/?$/] *)
Definition githubRegex : Regex.Regex :=
  Regex.lit "https://github.com/"
    (Regex.Seq (Regex.Group (Regex.NoneOfPlus "/"))
    (Regex.Seq (Regex.Chr "/")
    (Regex.Seq (Regex.Group (Regex.NoneOfPlus "/"))
    (Regex.Seq (Regex.Opt (Regex.Chr "/")) Regex.Eos)))).

(** [/\.git$/] *)
Definition dotGitRegex : Regex.Regex := Regex.lit ".git" Regex.Eos.

(** [parseGitHubUrl(url)]; [None] is [null].  Calling [url.match] on a value
    that is not a string throws a TypeError, which the function catches. *)
Definition parseGitHubUrl (url : JsValue) : option GitHubRepo :=
  match url with
  | JStr s =>
      match Regex.match_anchored githubRegex s with
      | Some [g1; g2] =>
          Some {| owner := g1; repo := Regex.replace dotGitRegex EmptyString g2 |}
      | _ => None
      end
  | _ => None
  end.

(** ** Computations that use the network

    An [async] function is a computation that returns or throws, and leaves
    the list of the calls to [fetch] it made and of the timers it awaited, in
    order.  The console is not modelled. *)

Record Response := { status : nat; body : string }.

(** [response.ok] *)
Definition ok (r : Response) : bool :=
  (200 <=? status r)%nat && (status r <=? 299)%nat.

(** What [await fetch(url, options)] does: resolve to a response, or reject. *)
Inductive FetchResult :=
| Responded (r : Response)
| Rejected (e : JsError).

(** The options of a call to [fetch] that vary: the Authorization header and,
    for the inference call, the prompt sent as the user message. *)
Record RequestInit := { authorization : string; user_content : option string }.

(** The world outside one invocation: [net url k] is what the attempt number
    [k] (from 0) at [url] meets, [random url k] is what [Math.random()]
    returns after that attempt failed. *)
Record World := {
  net : string -> nat -> FetchResult;
  random : string -> nat -> Q
}.

Inductive Event :=
| EvFetch (url : string) (init : RequestInit)
| EvSleep (ms : Q).

Record M (A : Type) := MkM { trace : list Event; outcome : Completion A }.
Arguments MkM {A} trace outcome.
Arguments trace {A} m.
Arguments outcome {A} m.

#[global] Instance M_ret : MRet M := fun A a => MkM [] (Normal a).
#[global] Instance M_bind : MBind M := fun A B f m =>
  match outcome m with
  | Normal a => MkM (trace m ++ trace (f a)) (outcome (f a))
  | Throw e => MkM (trace m) (Throw e)
  end.

Definition emit (ev : Event) : M unit := MkM [ev] (Normal tt).
Definition throw {A} (e : JsError) : M A := MkM [] (Throw e).
Definition lift {A} (c : Completion A) : M A := MkM [] c.

(** [try { body } catch (error) { handler }] *)
Definition try_catch {A} (body : M A) (handler : JsError -> M A) : M A :=
  match outcome body with
  | Normal _ => body
  | Throw e => MkM (trace body ++ trace (handler e)) (outcome (handler e))
  end.

(** [await fetch(url, options)] as attempt number [k]. *)
Definition fetch (w : World) (url : string) (init : RequestInit) (k : nat) : M Response :=
  MkM [EvFetch url init]
      match net w url k with
      | Responded r => Normal r
      | Rejected e => Throw e
      end.

(** [await new Promise(resolve => setTimeout(resolve, ms))] *)
Definition sleep (ms : Q) : M unit := emit (EvSleep ms).

(** The number of calls to [fetch] in a trace, and the timers in order. *)
Fixpoint attempts (tr : list Event) : nat :=
  match tr with
  | [] => 0
  | EvFetch _ _ :: tr' => S (attempts tr')
  | EvSleep _ :: tr' => attempts tr'
  end.

Fixpoint waits (tr : list Event) : list Q :=
  match tr with
  | [] => []
  | EvSleep ms :: tr' => ms :: waits tr'
  | EvFetch _ _ :: tr' => waits tr'
  end.

(** ** The retrying fetcher *)

(** [Math.pow(2, attempt)] *)
Definition pow2 (attempt : nat) : Q := inject_Z (2 ^ Z.of_nat attempt).

Section Backoff.
Variable w : World.
Variable url : string.
Variable options : RequestInit.
Variable maxRetries : nat.
Variable initialDelay : Q.

(** The three numbers of a wait, as reals: the code computes each product and
    the sum in doubles, with the double nearest to 0.1, so the timer it sets
    is a rounding of [totalDelay]. *)

(** [const delay = initialDelay * Math.pow(2, attempt)] *)
Definition delay (attempt : nat) : Q := initialDelay * pow2 attempt.
(** [const jitter = Math.random() * 0.1 * delay] *)
Definition jitter (attempt : nat) (rnd : Q) : Q := rnd * (1 # 10) * delay attempt.
(** [const totalDelay = delay + jitter] *)
Definition totalDelay (attempt : nat) (rnd : Q) : Q := delay attempt + jitter attempt rnd.

(** The [for] loop, [remaining] iterations before [attempt <= maxRetries]
    fails: it starts with [attempt = 0] and [remaining = maxRetries + 1]. *)
Fixpoint backoff_loop (remaining attempt : nat) (lastError : option JsError)
    : M Response :=
  match remaining with
  | O =>
      (* throw lastError || new Error('Max retries exceeded') *)
      throw (default (Error "Max retries exceeded") lastError)
  | S remaining' =>
      try_catch
        (response ← fetch w url options attempt;
         if ok response
            || ((400 <=? status response)%nat && (status response <? 500)%nat
                && negb (status response =? 429)%nat)
         then mret (inl response)
         else if (status response =? 429)%nat || (500 <=? status response)%nat
         then
           if (attempt =? maxRetries)%nat then mret (inl response)
           else
             sleep (totalDelay attempt (random w url attempt));;
             mret (inr lastError)
         else mret (inl response))
        (fun error =>
           if (attempt =? maxRetries)%nat then throw error
           else
             sleep (totalDelay attempt (random w url attempt));;
             mret (inr (Some error)))
      ≫= fun step =>
        match step with
        | inl response => mret response
        | inr lastError' => backoff_loop remaining' (S attempt) lastError'
        end
  end.

Definition fetchWithExponentialBackoff : M Response :=
  backoff_loop (S maxRetries) 0 None.
End Backoff.

(** ** The metadata fetchers *)

(** [await response.json()], the body having arrived whole. *)
Definition response_json (host : Host) (r : Response) : Completion JsValue :=
  match JSON_parse host (body r) with
  | Some v => Normal v
  | None => Throw (SyntaxError "Unexpected token in JSON")
  end.

(** [s.replace(/\n/g, '')] *)
Fixpoint remove_newlines (s : string) : string :=
  match s with
  | EmptyString => EmptyString
  | String c s' =>
      if Ascii.eqb c (ascii_of_nat 10) then remove_newlines s'
      else String c (remove_newlines s')
  end.

(** [new TextDecoder().decode(decode(content.replace(/\n/g, '')))]; a
    [content] that is not a string has no [replace] method to call. *)
Definition decode_content (host : Host) (content : JsValue) : Completion string :=
  match content with
  | JStr s => decode_base64_text host (remove_newlines s)
  | _ => Throw (TypeError "data.content.replace is not a function")
  end.

Definition github_options (token : string) : RequestInit :=
  {| authorization := "token " +:+ token; user_content := None |}.

(** The part the README and the file fetchers share, after the request. *)
Definition read_github_content (host : Host) (response : Response) : M (option string) :=
  if (status response =? 404)%nat then mret None
  else if negb (ok response) then mret None
  else
    data ← lift (response_json host response);
    content ← lift (getProp data "content");
    if truthy content then
      encoding ← lift (getProp data "encoding");
      if strict_eq_str encoding "base64" then
        text ← lift (decode_content host content);
        mret (Some text)
      else mret None
    else mret None.

Definition file_url (owner repo path : string) : string :=
  "https://api.github.com/repos/" +:+ owner +:+ "/" +:+ repo +:+ "/contents/" +:+ path.

Definition readme_url (owner repo : string) : string :=
  "https://api.github.com/repos/" +:+ owner +:+ "/" +:+ repo +:+ "/readme".

Definition commits_url (owner repo : string) : string :=
  "https://api.github.com/repos/" +:+ owner +:+ "/" +:+ repo +:+ "/commits?per_page=20".

Definition fetchGitHubFile (host : Host) (w : World)
    (owner repo path token : string) : M (option string) :=
  try_catch
    (response ← fetchWithExponentialBackoff w (file_url owner repo path)
                  (github_options token) 2 500;
     read_github_content host response)
    (fun _ => mret None).

Definition fetchGitHubReadme (host : Host) (w : World)
    (owner repo token : string) : M (option string) :=
  try_catch
    (response ← fetchWithExponentialBackoff w (readme_url owner repo)
                  (github_options token) 2 500;
     read_github_content host response)
    (fun _ => mret None).

Record Commit := { message : JsValue; author : JsValue; date : JsValue }.

(** The callback of [commits.map]. *)
Definition commit_of_json (commit : JsValue) : Completion Commit :=
  c1 ← getProp commit "commit";
  msg ← getProp c1 "message";
  c2 ← getProp commit "commit";
  a2 ← getProp c2 "author";
  name ← getProp a2 "name";
  c3 ← getProp commit "commit";
  a3 ← getProp c3 "author";
  d ← getProp a3 "date";
  mret {| message := msg; author := name; date := d |}.

(** [commits.map(...)]: only an array has the method. *)
Definition map_commits (commits : JsValue) : Completion (list Commit) :=
  match commits with
  | JArr elems _ => mapM commit_of_json elems
  | _ => Throw (TypeError "commits.map is not a function")
  end.

Definition fetchGitHubCommits (host : Host) (w : World)
    (owner repo token : string) : M (list Commit) :=
  try_catch
    (response ← fetchWithExponentialBackoff w (commits_url owner repo)
                  (github_options token) 2 500;
     if negb (ok response) then mret []
     else
       commits ← lift (response_json host response);
       lift (map_commits commits))
    (fun _ => mret []).

(** ** The prompt builder *)

Record File := { name : string; content : string; path : string }.

Record RepoData := {
  readme : option string;
  files : list File;
  commits : list Commit
}.

Definition nl : string := String (ascii_of_nat 10) EmptyString.
Definition dquote : string := String (ascii_of_nat 34) EmptyString.

(** The fixed closing block of the prompt. *)
Definition rubric : string :=
"Based on the above repository data, analyze for AI assistance patterns:

Code Patterns to look for:
- Consistent formatting and style across all files
- Perfect documentation coverage and formatting
- Systematic error handling patterns
- Generic variable names and function structures
- Boilerplate-heavy code structure
- Overly comprehensive type definitions
- Perfect code organization

Commit Patterns to analyze:
- Templated or overly formal commit messages
- Large, infrequent commits vs. small iterative ones
- Perfect commit message formatting and grammar
- Lack of " +:+ dquote +:+ "work in progress" +:+ dquote +:+ " or experimental commits
- Commits that add complete features at once

Documentation Patterns:
- Overly comprehensive README with perfect formatting
- Perfect grammar and professional language throughout
- Generic project descriptions
- Complete API documentation from the start
- Lack of personal voice or informal language

Provide a detailed JSON response with:
- vciScore: 0-100 (likelihood of AI assistance)
- analysis: Clear explanation of your assessment
- confidence: How certain you are (0-100)
- indicators: Specific patterns found in each category

Be thorough but concise in your analysis.".

(** [if (readme) ... else ...] *)
Definition readme_section (readme : option string) : string :=
  match readme with
  | Some text =>
      if String.eqb text "" then "No README file found." +:+ nl +:+ nl
      else "README Content (first 2000 chars):" +:+ nl
           +:+ substring_to 2000 text +:+ nl +:+ nl
  | None => "No README file found." +:+ nl +:+ nl
  end.

Definition file_entry (file : File) : string :=
  "File: " +:+ path file +:+ nl +:+ substring_to 1000 (content file) +:+ nl +:+ nl.

(** [if (files && files.length > 0) ... else ...] *)
Definition files_section (files : list File) : string :=
  match files with
  | [] => "No package.json or key files found." +:+ nl +:+ nl
  | _ =>
      "Code Files Analysis:" +:+ nl
      +:+ foldl (fun prompt file => prompt +:+ file_entry file) EmptyString (take 5 files)
  end.

(** One line per commit; the three fields go through ToString. *)
Definition commit_entry (host : Host) (commit : Commit) : Completion string :=
  m ← ToString host (message commit);
  a ← ToString host (author commit);
  d ← ToString host (date commit);
  mret ("- " +:+ dquote +:+ m +:+ dquote +:+ " by " +:+ a +:+ " on " +:+ d +:+ nl).

Fixpoint commit_entries (host : Host) (prompt : string) (commits : list Commit)
    : Completion string :=
  match commits with
  | [] => Normal prompt
  | commit :: commits' =>
      line ← commit_entry host commit;
      commit_entries host (prompt +:+ line) commits'
  end.

(** [if (commits && commits.length > 0) ... else ...] *)
Definition commits_section (host : Host) (commits : list Commit) : Completion string :=
  match commits with
  | [] => Normal ("No commit history available." +:+ nl +:+ nl)
  | _ =>
      lines ← commit_entries host
                ("Recent Commit Messages (last " +:+ pretty (length commits)
                 +:+ " commits):" +:+ nl)
                (take 15 commits);
      mret (lines +:+ nl)
  end.

Definition createDetailedAnalysisPrompt (host : Host) (githubUrl : string)
    (repoData : RepoData) : Completion string :=
  let prompt :=
    "Analyze this GitHub repository for AI development patterns: "
    +:+ githubUrl +:+ nl +:+ nl in
  let prompt := prompt +:+ readme_section (readme repoData) in
  let prompt := prompt +:+ files_section (files repoData) in
  history ← commits_section host (commits repoData);
  let prompt := prompt +:+ history in
  mret (prompt +:+ rubric).

(** ** The interpretation of the completion *)

(** The object the [catch] of [JSON.parse] builds. *)
Definition fallbackResult : JsValue :=
  JObj {[ "vciScore" := JNum (num 50);
          "analysis" := JStr "Unable to perform detailed analysis. This appears to be a standard repository.";
          "confidence" := JNum (num 30);
          "indicators" := JObj {[ "codePatterns" := JArr [] ∅;
                                   "commitPatterns" := JArr [] ∅;
                                   "documentationPatterns" := JArr [] ∅ ]} ]}.

(** [try { JSON.parse(aiResponse) }]: the argument goes through ToString;
    [None] when the [catch] is entered. *)
Definition parse_completion (host : Host) (aiResponse : JsValue) : option JsValue :=
  match ToString host aiResponse with
  | Normal text => JSON_parse host text
  | Throw _ => None
  end.

(** [Math.max(0, Math.min(100, x || 50))] *)
Definition clamp_or_50 (host : Host) (x : JsValue) : Completion JsNum :=
  n ← ToNumber host (or_else x (JNum (num 50)));
  mret (Math_max (num 0) (Math_min (num 100) n)).

(** [analysisResult.k = Math.max(0, Math.min(100, analysisResult.k || 50))] *)
Definition sanitize_field (host : Host) (analysisResult : JsValue) (k : string)
    : Completion JsValue :=
  x ← getProp analysisResult k;
  n ← clamp_or_50 host x;
  setProp analysisResult k (JNum n).

(** The interpret stage, from the outcome of [JSON.parse] on: the fallback
    when it threw, then the two sanitizing assignments. *)
Definition interpret (host : Host) (parsed : option JsValue) : Completion JsValue :=
  let analysisResult := default fallbackResult parsed in
  r ← sanitize_field host analysisResult "vciScore";
  sanitize_field host r "confidence".

(** ** The request handler *)

Record Request := { method : string; request_body : string }.

(** [Deno.env.get]: [None] is [undefined]. *)
Record Env := { OPENAI_API_KEY : option string; GITHUB_PAT : option string }.

Inductive Body :=
| BodyText (text : string)
| BodyJson (value : JsValue).   (* JSON.stringify(value) *)

(** [new Response(body, { status, headers })]; the headers are the CORS
    headers in every case. *)
Record HttpResponse := { http_status : nat; http_body : Body }.

(** [!value] for an environment variable. *)
Definition unset (value : option string) : bool :=
  match value with
  | Some text => String.eqb text ""
  | None => true
  end.

Definition error_400 (msg : string) : HttpResponse :=
  {| http_status := 400; http_body := BodyJson (JObj {[ "error" := JStr msg ]}) |}.

Definition error_500 (error : JsError) : HttpResponse :=
  {| http_status := 500;
     http_body := BodyJson (JObj {[ "error" := JStr "Internal server error";
                                    "details" := JStr (err_message error) ]}) |}.

Definition openai_url : string := "https://api.openai.com/v1/chat/completions".

Definition openai_options (openaiApiKey analysisPrompt : string) : RequestInit :=
  {| authorization := "Bearer " +:+ openaiApiKey; user_content := Some analysisPrompt |}.

(** The three fetches of [Promise.all]; none of them rejects.  Their calls
    are listed one fetcher after the other. *)
Definition gather (host : Host) (w : World) (repoInfo : GitHubRepo) (githubPat : string)
    : M (option string * option string * list Commit) :=
  readmeContent ← fetchGitHubReadme host w (owner repoInfo) (repo repoInfo) githubPat;
  packageJsonContent ← fetchGitHubFile host w (owner repoInfo) (repo repoInfo)
                         "package.json" githubPat;
  commitsData ← fetchGitHubCommits host w (owner repoInfo) (repo repoInfo) githubPat;
  mret (readmeContent, packageJsonContent, commitsData).

(** [const repoData = { readme, files: packageJsonContent ? [...] : [], commits }] *)
Definition make_repoData (readmeContent packageJsonContent : option string)
    (commitsData : list Commit) : RepoData :=
  {| readme := readmeContent;
     files := match packageJsonContent with
              | Some text =>
                  if String.eqb text "" then []
                  else [ {| name := "package.json"; content := text; path := "package.json" |} ]
              | None => []
              end;
     commits := commitsData |}.

(** From the call to the inference endpoint to the response. *)
Definition infer_and_interpret (host : Host) (w : World)
    (openaiApiKey analysisPrompt : string) : M HttpResponse :=
  openaiResponse ← fetchWithExponentialBackoff w openai_url
                     (openai_options openaiApiKey analysisPrompt) 3 1000;
  if negb (ok openaiResponse) then
    throw (Error ("OpenAI API error: " +:+ pretty (status openaiResponse)
                  +:+ " - " +:+ body openaiResponse))
  else
    openaiData ← lift (response_json host openaiResponse);
    choices ← lift (getProp openaiData "choices");
    choice ← lift (getProp choices "0");
    msg ← lift (getPropOpt choice "message");
    aiResponse ← lift (getPropOpt msg "content");
    if negb (truthy aiResponse) then throw (Error "No response from OpenAI")
    else
      analysisResult ← lift (interpret host (parse_completion host aiResponse));
      mret {| http_status := 200; http_body := BodyJson analysisResult |}.

(** The body of the outer [try]. *)
Definition handle (host : Host) (w : World) (env : Env) (req : Request) : M HttpResponse :=
  if unset (OPENAI_API_KEY env) then throw (Error "OpenAI API key not configured")
  else if unset (GITHUB_PAT env) then throw (Error "GitHub PAT not configured")
  else
    let openaiApiKey := default EmptyString (OPENAI_API_KEY env) in
    let githubPat := default EmptyString (GITHUB_PAT env) in
    json ← lift (match JSON_parse host (request_body req) with
                 | Some v => Normal v
                 | None => Throw (SyntaxError "Unexpected end of JSON input")
                 end);
    githubUrl ← lift (getProp json "githubUrl");
    if negb (truthy githubUrl) then mret (error_400 "GitHub URL is required")
    else
      match parseGitHubUrl githubUrl, githubUrl with
      | Some repoInfo, JStr url =>
          '(readmeContent, packageJsonContent, commitsData) ← gather host w repoInfo githubPat;
          let repoData := make_repoData readmeContent packageJsonContent commitsData in
          analysisPrompt ← lift (createDetailedAnalysisPrompt host url repoData);
          infer_and_interpret host w openaiApiKey analysisPrompt
      | _, _ => mret (error_400 "Invalid GitHub URL format")
      end.

(** The function given to [serve]. *)
Definition handler (host : Host) (w : World) (env : Env) (req : Request) : M HttpResponse :=
  if String.eqb (method req) "OPTIONS" then
    mret {| http_status := 200; http_body := BodyText "ok" |}
  else
    try_catch (handle host w env req) (fun error => mret (error_500 error)).

(** The [githubUrl] the handler reads from the body of a request, when the
    body parses and is not [null]. *)
Definition requested_url (host : Host) (req : Request) : option JsValue :=
  match JSON_parse host (request_body req) with
  | Some json =>
      match getProp json "githubUrl" with
      | Normal githubUrl => Some githubUrl
      | Throw _ => None
      end
  | None => None
  end.

(** ** The submission page

    [SubmitPage] is the caller of the edge function: it validates the URL of
    the form, invokes [analyze-repo], sanitizes what comes back, and derives
    from the score the figures it stores with the project. *)

Module SubmitPage.

(** *** Patterns with a character class

    The pattern of [isValidGitHubUrl] repeats a class of characters rather
    than the complement of one character.  It is only tested, so the matcher
    answers a boolean. *)

Inductive Pattern :=
| Chr (c : ascii)
| ClassPlus (cls : ascii -> bool)   (* [...]+ *)
| Opt (r : Pattern)
| Seq (r1 r2 : Pattern)
| Eos.

Fixpoint lit (s : string) (r : Pattern) : Pattern :=
  match s with
  | EmptyString => r
  | String c s' => Seq (Chr c) (lit s' r)
  end.

(** [[...]*] then [k]: the longest run first, then shorter ones. *)
Fixpoint star_class (cls : ascii -> bool) (s : string) (k : string -> bool) : bool :=
  match s with
  | String a s' => if cls a then star_class cls s' k || k s else k s
  | EmptyString => k s
  end.

Definition plus_class (cls : ascii -> bool) (s : string) (k : string -> bool) : bool :=
  match s with
  | String a s' => if cls a then star_class cls s' k else false
  | EmptyString => false
  end.

Fixpoint accepts (r : Pattern) (s : string) (k : string -> bool) : bool :=
  match r with
  | Chr c =>
      match s with
      | String a s' => Ascii.eqb a c && k s'
      | EmptyString => false
      end
  | ClassPlus cls => plus_class cls s k
  | Opt r1 => accepts r1 s k || k s
  | Seq r1 r2 => accepts r1 s (fun rest => accepts r2 rest k)
  | Eos =>
      match s with
      | EmptyString => k s
      | String _ _ => false
      end
  end.

(** [/^r/.test(s)] *)
Definition test (r : Pattern) (s : string) : bool := accepts r s (fun _ => true).

(** [[a-zA-Z0-9_.-]] *)
Definition name_char (c : ascii) : bool :=
  let n := nat_of_ascii c in
  ((97 <=? n) && (n <=? 122))%nat || ((65 <=? n) && (n <=? 90))%nat
  || ((48 <=? n) && (n <=? 57))%nat
  || Ascii.eqb c "_" || Ascii.eqb c "." || Ascii.eqb c "-".

(** [/^https:\/\/github\.com\/[a-zA-Z0-9_.-]+\/[a-zA-Z0-9_.-]+\/?$/] *)
Definition githubRegex : Pattern :=
  lit "https://github.com/"
    (Seq (ClassPlus name_char)
    (Seq (Chr "/")
    (Seq (ClassPlus name_char)
    (Seq (Opt (Chr "/")) Eos)))).

Definition isValidGitHubUrl (url : string) : bool := test githubRegex url.

(** [s.match(/r/)] for a pattern without the g flag: the groups of the
    leftmost match, or [None] for [null]. *)
Fixpoint match_first (r : Regex.Regex) (s : string) : option (list string) :=
  match Regex.match_anchored r s with
  | Some caps => Some caps
  | None =>
      match s with
      | String _ s' => match_first r s'
      | EmptyString => None
      end
  end.

(** [/github\.com\/[^\/]+\/([^\/]+)/] *)
Definition repoNameRegex : Regex.Regex :=
  Regex.lit "github.com/"
    (Regex.Seq (Regex.NoneOfPlus "/")
    (Regex.Seq (Regex.Chr "/") (Regex.Group (Regex.NoneOfPlus "/")))).

Definition extractRepoName (githubUrl : string) : string :=
  match match_first repoNameRegex githubUrl with
  | Some [g1] => Regex.replace dotGitRegex EmptyString g1
  | _ => EmptyString
  end.

(** *** The figures derived from the score *)

Definition calculateFallbackVCIScore (aiTools : list string) : JsNum :=
  match length aiTools with
  | 0 => num 10
  | 1 => num 30
  | 2 => num 50
  | 3 => num 70
  | _ => num 85
  end%nat.

Record CodeBreakdown := {
  aiGenerated : JsNum;
  aiModified : JsNum;
  humanWritten : JsNum
}.

(** The literals [0.6] and [0.3] are the doubles nearest to them. *)
Definition double_0_6 : Q := 5404319552844595 # 9007199254740992.
Definition double_0_3 : Q := 5404319552844595 # 18014398509481984.

(** [Math.round(x)]: the integer nearest to [x], the upper one of two. *)
Definition Math_round (x : JsNum) : JsNum :=
  match x with
  | Fin q => Fin (inject_Z (Qfloor (q + (1 # 2))))
  | _ => x
  end.

Section Arithmetic.

(** The multiplication by [0.6] and the subtraction from [100] are those of
    the doubles: the exact result rounded to the nearest double by [fl].  No
    product or difference of this program overflows. *)
Variable fl : Q -> Q.

(** [x * c] for a positive literal [c]. *)
Definition times (x : JsNum) (c : Q) : JsNum :=
  match x with
  | Fin q => Fin (fl (q * c))
  | _ => x
  end.

(** [x - y] *)
Definition minus (x y : JsNum) : JsNum :=
  match x, y with
  | NaN, _ | _, NaN => NaN
  | PosInf, PosInf | NegInf, NegInf => NaN
  | PosInf, _ | _, NegInf => PosInf
  | NegInf, _ | _, PosInf => NegInf
  | Fin p, Fin q => Fin (fl (p - q))
  end.

Definition calculateCodeBreakdown (vciScore : JsNum) : CodeBreakdown :=
  let aiGenerated := Math_round (times vciScore double_0_6) in
  let aiModified := Math_round (times vciScore double_0_3) in
  let humanWritten :=
    Math_max (num 0) (minus (minus (num 100) aiGenerated) aiModified) in
  {| aiGenerated := aiGenerated; aiModified := aiModified; humanWritten := humanWritten |}.

End Arithmetic.

(** *** The analysis fetched from the edge function *)

Record Indicators := {
  codePatterns : JsValue;
  commitPatterns : JsValue;
  documentationPatterns : JsValue
}.

Record AIAnalysisResult := {
  vciScore : JsNum;
  analysis : JsValue;
  confidence : JsNum;
  indicators : Indicators
}.

(** What a [throw] or a rejected promise carries: an instance of [Error], or
    any other value. *)
Inductive Thrown :=
| ThrownError (e : JsError)
| ThrownValue (v : JsValue).

(** What [supabase.functions.invoke] settles with: the object
    [{ data, error }], or a rejection. *)
Inductive Invoked :=
| Resolved (data error : JsValue)
| RejectedWith (reason : Thrown).

(** The state of the page that the fetch of the analysis sets. *)
Record PageState := { analyzingRepo : bool; error : option string }.

(** An [async] function of the page takes the state it finds to the state it
    leaves, the invocations of edge functions it made (the function and the
    [githubUrl] of the body), and what it returned or threw.  The console is
    not modelled. *)
Record Ran (A : Type) := MkRan {
  page : PageState;
  invoked : list (string * string);
  result : A + Thrown
}.
Arguments MkRan {A} page invoked result.
Arguments page {A} r.
Arguments invoked {A} r.
Arguments result {A} r.

Definition Page (A : Type) : Type := PageState -> Ran A.

Definition ret {A} (a : A) : Page A := fun s => MkRan s [] (inl a).

Definition bind {A B} (m : Page A) (f : A -> Page B) : Page B := fun s =>
  let r := m s in
  match result r with
  | inl a => let r' := f a (page r) in
             MkRan (page r') (invoked r ++ invoked r') (result r')
  | inr e => MkRan (page r) (invoked r) (inr e)
  end.

Definition throw {A} (e : Thrown) : Page A := fun s => MkRan s [] (inr e).

Definition lift {A} (c : Completion A) : Page A :=
  match c with
  | Normal a => ret a
  | Throw e => throw (ThrownError e)
  end.

(** [try { body } catch (err) { handler }] *)
Definition try_catch {A} (body : Page A) (handler : Thrown -> Page A) : Page A := fun s =>
  let r := body s in
  match result r with
  | inl _ => r
  | inr e => let r' := handler e (page r) in
             MkRan (page r') (invoked r ++ invoked r') (result r')
  end.

(** [try { body } finally { finalizer }]: the finalizer runs however the body
    ends, and the body's completion stands unless the finalizer throws. *)
Definition try_finally {A} (body : Page A) (finalizer : Page unit) : Page A := fun s =>
  let r := body s in
  let r' := finalizer (page r) in
  MkRan (page r') (invoked r ++ invoked r')
        match result r' with
        | inl _ => result r
        | inr e => inr e
        end.

Definition setAnalyzingRepo (b : bool) : Page unit := fun s =>
  MkRan {| analyzingRepo := b; error := error s |} [] (inl tt).

Definition setError (e : option string) : Page unit := fun s =>
  MkRan {| analyzingRepo := analyzingRepo s; error := e |} [] (inl tt).

(** [await supabase.functions.invoke(fn, { body: { githubUrl } })] *)
Definition functions_invoke (backend : string -> string -> Invoked)
    (fn githubUrl : string) : Page (JsValue * JsValue) := fun s =>
  MkRan s [(fn, githubUrl)]
        match backend fn githubUrl with
        | Resolved data err => inl (data, err)
        | RejectedWith reason => inr reason
        end.

(** [data.indicators?.k || []] *)
Definition indicator (data : JsValue) (k : string) : Completion JsValue :=
  i ← getProp data "indicators";
  p ← getPropOpt i k;
  mret (or_else p (JArr [] ∅)).

(** The object literal that validates the response. *)
Definition validate (host : Host) (data : JsValue) : Completion AIAnalysisResult :=
  v ← getProp data "vciScore";
  score ← clamp_or_50 host v;
  a ← getProp data "analysis";
  c ← getProp data "confidence";
  conf ← clamp_or_50 host c;
  code ← indicator data "codePatterns";
  commit ← indicator data "commitPatterns";
  documentation ← indicator data "documentationPatterns";
  mret {| vciScore := score;
          analysis := or_else a (JStr "Analysis completed successfully.");
          confidence := conf;
          indicators := {| codePatterns := code; commitPatterns := commit;
                           documentationPatterns := documentation |} |}.

(** [err instanceof Error ? err.message : 'Failed to analyze repository'] *)
Definition message_of (err : Thrown) : string :=
  match err with
  | ThrownError e => err_message e
  | ThrownValue _ => "Failed to analyze repository"
  end.

Definition fetchAiAnalysis (host : Host) (backend : string -> string -> Invoked)
    (githubUrl : string) : Page AIAnalysisResult :=
  try_finally
    (try_catch
       (bind (setAnalyzingRepo true) (fun _ =>
        bind (setError None) (fun _ =>
        bind (functions_invoke backend "analyze-repo" githubUrl) (fun '(data, err) =>
        if truthy err then
          bind (lift (m ← getProp err "message";
                      ToString host (or_else m (JStr "Failed to analyze repository"))))
               (fun msg => throw (ThrownError (Error msg)))
        else if negb (truthy data) then
          throw (ThrownError (Error "No analysis data received"))
        else lift (validate host data)))))
       (fun err => throw (ThrownError (Error (message_of err)))))
    (setAnalyzingRepo false).

End SubmitPage.

(** ** A host for the examples

    It parses the few texts the examples use the way [JSON.parse] does and
    rejects every other text; strings and objects convert to NaN and to a
    fixed text, and base64 decoding is the identity. *)

Definition sample_request_body : string :=
  "{" +:+ dquote +:+ "githubUrl" +:+ dquote +:+ ":" +:+ dquote
  +:+ "https://github.com/acme/widgets" +:+ dquote +:+ "}".

Definition sample_bad_request_body : string :=
  "{" +:+ dquote +:+ "githubUrl" +:+ dquote +:+ ":" +:+ dquote
  +:+ "not-a-url" +:+ dquote +:+ "}".

(** A string as a JSON string literal. *)
Fixpoint json_escape (s : string) : string :=
  match s with
  | EmptyString => EmptyString
  | String c s' =>
      if Ascii.eqb c (ascii_of_nat 34) || Ascii.eqb c (ascii_of_nat 92)
      then String (ascii_of_nat 92) (String c (json_escape s'))
      else String c (json_escape s')
  end.

Definition json_string (s : string) : string := dquote +:+ json_escape s +:+ dquote.

(** The completion of the end-to-end scenario of the specification. *)
Definition sample_completion : string :=
  "{" +:+ json_string "vciScore" +:+ ": 72, "
  +:+ json_string "analysis" +:+ ": " +:+ json_string "..." +:+ ", "
  +:+ json_string "confidence" +:+ ": 65, "
  +:+ json_string "indicators" +:+ ": {"
  +:+ json_string "codePatterns" +:+ ": [" +:+ json_string "consistent formatting" +:+ "], "
  +:+ json_string "commitPatterns" +:+ ": [], "
  +:+ json_string "documentationPatterns" +:+ ": []}}".

Definition sample_analysis : JsValue :=
  JObj {[ "vciScore" := JNum (num 72);
          "analysis" := JStr "...";
          "confidence" := JNum (num 65);
          "indicators" := JObj {[ "codePatterns" := JArr [JStr "consistent formatting"] ∅;
                                   "commitPatterns" := JArr [] ∅;
                                   "documentationPatterns" := JArr [] ∅ ]} ]}.

(** An inference response that carries that completion. *)
Definition sample_openai_body : string :=
  "{" +:+ json_string "choices" +:+ ":[{" +:+ json_string "message" +:+ ":{"
  +:+ json_string "content" +:+ ":" +:+ json_string sample_completion +:+ "}}]}".

Definition sample_host : Host := {|
  JSON_parse := fun text =>
    if String.eqb text "{}" then Some (JObj ∅)
    else if String.eqb text "[]" then Some (JArr [] ∅)
    else if String.eqb text "null" then Some JNull
    else if String.eqb text "0" then Some (JNum (num 0))
    else if String.eqb text sample_request_body
    then Some (JObj {[ "githubUrl" := JStr "https://github.com/acme/widgets" ]})
    else if String.eqb text sample_bad_request_body
    then Some (JObj {[ "githubUrl" := JStr "not-a-url" ]})
    else if String.eqb text sample_completion then Some sample_analysis
    else if String.eqb text sample_openai_body
    then Some (JObj {[ "choices" :=
           JArr [JObj {[ "message" := JObj {[ "content" := JStr sample_completion ]} ]}] ∅ ]})
    else None;
  ToNumber_host := fun _ => Normal NaN;
  ToString_host := fun _ => Normal "[object Object]";
  decode_base64_text := fun text => Normal text
|}.

Definition sample_env : Env :=
  {| OPENAI_API_KEY := Some "sk-sample"; GITHUB_PAT := Some "ghp-sample" |}.

Definition sample_request : Request :=
  {| method := "POST"; request_body := sample_request_body |}.

(** A repository with neither README nor manifest and no commit, and an
    inference endpoint that answers at the first attempt. *)
Definition bare_repository : World :=
  {| net := fun url _ =>
       if String.eqb url (commits_url "acme" "widgets")
       then Responded {| status := 200; body := "[]" |}
       else if String.eqb url openai_url
       then Responded {| status := 200; body := sample_openai_body |}
       else Responded {| status := 404; body := "Not Found" |};
     random := fun _ _ => 1 # 2 |}.

(** An endpoint that answers 503 to every attempt, and one that has no such
    resource; [Math.random()] returns one half. *)
Definition response_503 : Response := {| status := 503; body := "Service Unavailable" |}.
Definition response_404 : Response := {| status := 404; body := "Not Found" |}.

Definition always_503 : World :=
  {| net := fun _ _ => Responded response_503; random := fun _ _ => 1 # 2 |}.

Definition always_404 : World :=
  {| net := fun _ _ => Responded response_404; random := fun _ _ => 1 # 2 |}.

Definition sample_options : RequestInit := github_options "secret".

(** The same repository behind a network that falters: the README is
    answered 503 before it is answered 404, and the inference endpoint
    rejects the first attempt. *)
Definition flaky_repository : World :=
  {| net := fun url k =>
       if String.eqb url (commits_url "acme" "widgets")
       then Responded {| status := 200; body := "[]" |}
       else if String.eqb url openai_url
       then match k with
            | O => Rejected (TypeError "error sending request")
            | S _ => Responded {| status := 200; body := sample_openai_body |}
            end
       else if String.eqb url (readme_url "acme" "widgets")
       then match k with
            | O => Responded response_503
            | S _ => Responded response_404
            end
       else Responded response_404;
     random := fun _ k => 1 # (Pos.of_nat (k + 2)) |}.

(** The same repository when the completion is the empty object, and a
    host that also parses that answer of the inference endpoint. *)
Definition terse_openai_body : string :=
  "{" +:+ json_string "choices" +:+ ":[{" +:+ json_string "message" +:+ ":{"
  +:+ json_string "content" +:+ ":" +:+ json_string "{}" +:+ "}}]}".

Definition terse_host : Host := {|
  JSON_parse := fun text =>
    if String.eqb text terse_openai_body
    then Some (JObj {[ "choices" :=
           JArr [JObj {[ "message" := JObj {[ "content" := JStr "{}" ]} ]}] ∅ ]})
    else JSON_parse sample_host text;
  ToNumber_host := ToNumber_host sample_host;
  ToString_host := ToString_host sample_host;
  decode_base64_text := decode_base64_text sample_host
|}.

Definition terse_inference : World :=
  {| net := fun url k =>
       if String.eqb url openai_url
       then Responded {| status := 200; body := terse_openai_body |}
       else net bare_repository url k;
     random := random bare_repository |}.

(** ** The vocabulary of the properties *)

#[local] Open Scope Q_scope.

(** The property [k] of an object, [undefined] when it has none. *)
Definition field (m : gmap string JsValue) (k : string) : JsValue :=
  default JUndefined (m !! k).

(** A finite number between 0 and 100. *)
Definition in_range (n : JsNum) : Prop :=
  exists q, n = Fin q /\ 0 <= q <= 100.

(** A finite number that is an integer. *)
Definition is_integer (n : JsNum) : Prop :=
  exists (q : Q) (z : Z), n = Fin q /\ q == inject_Z z.

Definition is_array (v : JsValue) : Prop :=
  match v with
  | JArr _ _ => True
  | _ => False
  end.

(** A property that is absent, [null], a boolean or a number. *)
Definition numeric_or_missing (v : JsValue) : Prop :=
  match v with
  | JUndefined | JNull | JBool _ | JNum _ => True
  | _ => False
  end.

(** A property that is absent or a number equal to zero. *)
Definition zero_or_absent (v : JsValue) : Prop :=
  match v with
  | JUndefined => True
  | JNum (Fin q) => q == 0
  | _ => False
  end.

(** The three indicator arrays of a result are present arrays. *)
Definition indicators_present (r : JsValue) : Prop :=
  exists ind, getProp r "indicators" = Normal ind
    /\ forall k, k = "codePatterns" \/ k = "commitPatterns" \/ k = "documentationPatterns" ->
         exists a, getProp ind k = Normal a /\ is_array a.

(** The three indicator arrays of a result are empty arrays. *)
Definition indicators_empty (r : JsValue) : Prop :=
  exists ind, getProp r "indicators" = Normal ind
    /\ forall k, k = "codePatterns" \/ k = "commitPatterns" \/ k = "documentationPatterns" ->
         getProp ind k = Normal (JArr [] ∅).

(** The score and the confidence of a result are integers in [0, 100] and
    its indicator arrays are present: the bounds invariant as the
    specification words it. *)
Definition bounded_result (r : JsValue) : Prop :=
  (exists s, getProp r "vciScore" = Normal (JNum s) /\ in_range s /\ is_integer s)
  /\ (exists c, getProp r "confidence" = Normal (JNum c) /\ in_range c /\ is_integer c)
  /\ indicators_present r.

(** The statuses the loop retries: 429 and 500 and above. *)
Definition retryable_status (s : nat) : bool := (s =? 429)%nat || (500 <=? s)%nat.

(** The outcomes of an attempt the loop retries. *)
Definition retryable (res : FetchResult) : bool :=
  match res with
  | Responded r => retryable_status (status r)
  | Rejected _ => true
  end.

(** What an attempt that ends the loop makes the fetcher do. *)
Definition settle (res : FetchResult) : Completion Response :=
  match res with
  | Responded r => Normal r
  | Rejected e => Throw e
  end.

(** The error the loop remembers after an attempt. *)
Definition remember (res : FetchResult) (lastError : option JsError) : option JsError :=
  match res with
  | Responded _ => lastError
  | Rejected e => Some e
  end.

Section Runs.
Variable w : World.
Variable url : string.
Variable options : RequestInit.
Variable maxRetries : nat.
Variable initialDelay : Q.

(** The number of retryable failures in a row from attempt [attempt] on,
    among the next [budget] attempts. *)
Fixpoint retries_from (budget attempt : nat) : nat :=
  match budget with
  | O => O
  | S budget' =>
      if retryable (net w url attempt) then S (retries_from budget' (S attempt)) else O
  end.

(** A retry: the timer, then the call. *)
Definition retry_events (k : nat) : list Event :=
  [EvSleep (totalDelay initialDelay k (random w url k)); EvFetch url options].

Definition run : M Response := fetchWithExponentialBackoff w url options maxRetries initialDelay.

(** The retries of the whole run. *)
Definition retries : nat := retries_from maxRetries 0.
End Runs.

(** [s] without the prefix [p], when it starts with it. *)
Fixpoint strip_prefix (p s : string) : option string :=
  match p, s with
  | EmptyString, _ => Some s
  | String a p', String b s' => if Ascii.eqb b a then strip_prefix p' s' else None
  | String _ _, EmptyString => None
  end.

(** The longest prefix of [s] without the character [c], and the rest. *)
Fixpoint span_none_of (c : ascii) (s : string) : string * string :=
  match s with
  | String a s' =>
      if Ascii.eqb a c then (EmptyString, s)
      else let (p, r) := span_none_of c s' in (String a p, r)
  | EmptyString => (EmptyString, EmptyString)
  end.

(** No character of [s] is [c]. *)
Fixpoint free_of (c : ascii) (s : string) : bool :=
  match s with
  | String a s' => negb (Ascii.eqb a c) && free_of c s'
  | EmptyString => true
  end.

(** [s] is empty or starts with [c]. *)
Definition stops_at (c : ascii) (s : string) : Prop :=
  match s with
  | String a _ => a = c
  | EmptyString => True
  end.

(** The owner and the name in a URL of the accepted form. *)
Definition split_url (url : string) : option (string * string) :=
  match strip_prefix "https://github.com/" url with
  | None => None
  | Some t =>
      match span_none_of "/" t with
      | (String _ _ as o, String _ t2) =>
          match span_none_of "/" t2 with
          | (String _ _ as n, EmptyString) => Some (o, n)
          | (String _ _ as n, String _ EmptyString) => Some (o, n)
          | _ => None
          end
      | _ => None
      end
  end.

(** [s] without a final [.git], when it ends with it. *)
Fixpoint strip_dot_git (s : string) : option string :=
  if String.eqb s ".git" then Some EmptyString
  else match s with
       | String a s' =>
           match strip_dot_git s' with
           | Some b => Some (String a b)
           | None => None
           end
       | EmptyString => None
       end.

(** An outcome of the retrying fetcher that is not a 2xx response: a 404, any
    other response it gave up on, or a rejection. *)
Definition not_ok (c : Completion Response) : Prop :=
  match c with
  | Normal r => ok r = false
  | Throw _ => True
  end.

(** The handler once the URL is parsed: gather, build the prompt, infer. *)
Definition analyse (host : Host) (w : World) (openaiApiKey githubPat url : string)
    (repoInfo : GitHubRepo) : M HttpResponse :=
  '(readmeContent, packageJsonContent, commitsData) ← gather host w repoInfo githubPat;
  let repoData := make_repoData readmeContent packageJsonContent commitsData in
  analysisPrompt ← lift (createDetailedAnalysisPrompt host url repoData);
  infer_and_interpret host w openaiApiKey analysisPrompt.

(** [openaiData.choices[0]?.message?.content] *)
Definition completion_of (host : Host) (r : Response) : Completion JsValue :=
  openaiData ← response_json host r;
  choices ← getProp openaiData "choices";
  choice ← getProp choices "0";
  msg ← getPropOpt choice "message";
  getPropOpt msg "content".

(** An attempt that does not bring a 2xx response. *)
Definition failed (res : FetchResult) : Prop :=
  match res with
  | Responded r => ok r = false
  | Rejected _ => True
  end.

(** A commit whose three fields are strings, as the hosting API sends them. *)
Definition textual (commit : Commit) : Prop :=
  exists m a d, message commit = JStr m /\ author commit = JStr a /\ date commit = JStr d.

(** The prompts a run sent to the inference endpoint, one per call. *)
Fixpoint prompts_sent (tr : list Event) : list string :=
  match tr with
  | [] => []
  | EvFetch _ init :: tr' =>
      match user_content init with
      | Some prompt => prompt :: prompts_sent tr'
      | None => prompts_sent tr'
      end
  | EvSleep _ :: tr' => prompts_sent tr'
  end.

(** The time a trace spends waiting. *)
Definition total_wait (tr : list Event) : Q := fold_right Qplus 0 (waits tr).

(** Every call to [fetch] of a trace satisfies [P]. *)
Definition calls_satisfy (P : string -> RequestInit -> Prop) (tr : list Event) : Prop :=
  Forall (fun ev => match ev with
                    | EvFetch url init => P url init
                    | EvSleep _ => True
                    end) tr.

(** A number below zero. *)
Definition negative (n : JsNum) : Prop :=
  match n with
  | NegInf => True
  | Fin q => q < 0
  | _ => False
  end.




Definition e_acute : string := String (ascii_of_nat 195) (String (ascii_of_nat 169) EmptyString).


(** U+1F600 and U+1F601, the surrogates D83D DE00 and D83D DE01. *)
Definition grinning_face : string :=
  String (ascii_of_nat 240) (String (ascii_of_nat 159)
    (String (ascii_of_nat 152) (String (ascii_of_nat 128) EmptyString))).
Definition beaming_face : string :=
  String (ascii_of_nat 240) (String (ascii_of_nat 159)
    (String (ascii_of_nat 152) (String (ascii_of_nat 129) EmptyString))).



(** A repository with one commit and an empty manifest, and a host that
    also parses what GitHub answers about them. *)
Definition sample_commits_body : string :=
  "[{" +:+ json_string "commit" +:+ ":{" +:+ json_string "message" +:+ ":"
  +:+ json_string "Initial commit" +:+ "," +:+ json_string "author" +:+ ":{"
  +:+ json_string "name" +:+ ":" +:+ json_string "Ada" +:+ ","
  +:+ json_string "date" +:+ ":" +:+ json_string "2025-06-08T12:00:00Z" +:+ "}}}]".

Definition sample_commit_json : JsValue :=
  JObj {[ "commit" :=
    JObj {[ "message" := JStr "Initial commit";
            "author" := JObj {[ "name" := JStr "Ada";
                                 "date" := JStr "2025-06-08T12:00:00Z" ]} ]} ]}.

(** Its manifest, [{}], as the contents endpoint wraps it. *)
Definition sample_file_body : string :=
  "{" +:+ json_string "content" +:+ ":" +:+ dquote +:+ "e30\n=" +:+ dquote +:+ ","
  +:+ json_string "encoding" +:+ ":" +:+ json_string "base64" +:+ "}".

Definition commits_host : Host := {|
  JSON_parse := fun text =>
    if String.eqb text sample_commits_body then Some (JArr [sample_commit_json] ∅)
    else if String.eqb text sample_file_body
    then Some (JObj {[ "content" := JStr ("e30" +:+ String (ascii_of_nat 10) "=");
                       "encoding" := JStr "base64" ]})
    else JSON_parse sample_host text;
  ToNumber_host := ToNumber_host sample_host;
  ToString_host := ToString_host sample_host;
  decode_base64_text := fun text =>
    if String.eqb text "e30=" then Normal "{}"
    else Throw (TypeError "Failed to decode base64")
|}.

Definition committed_repository : World :=
  {| net := fun url k =>
       if String.eqb url (commits_url "acme" "widgets")
       then Responded {| status := 200; body := sample_commits_body |}
       else if String.eqb url (file_url "acme" "widgets" "package.json")
       then Responded {| status := 200; body := sample_file_body |}
       else net bare_repository url k;
     random := random bare_repository |}.

(** The line feed. *)
Definition newline : ascii := ascii_of_nat 10.

(** Every character of [s] is in the class [cls]. *)
Fixpoint all_in (cls : ascii -> bool) (s : string) : bool :=
  match s with
  | String a s' => cls a && all_in cls s'
  | EmptyString => true
  end.

(** The longest prefix of [s] made of characters of [cls], and the rest. *)
Fixpoint span_class (cls : ascii -> bool) (s : string) : string * string :=
  match s with
  | String a s' =>
      if cls a then let (p, r) := span_class cls s' in (String a p, r)
      else (EmptyString, s)
  | EmptyString => (EmptyString, EmptyString)
  end.

(** Every byte of [s] is an ASCII character. *)
Definition ascii_only (s : string) : bool :=
  all_in (fun c => (nat_of_ascii c <? 128)%nat) s.

(** [s] is empty or starts with a character outside [cls]. *)
Definition leaves (cls : ascii -> bool) (s : string) : Prop :=
  match s with
  | String a _ => cls a = false
  | EmptyString => True
  end.

(** The three figures of a breakdown are the integers [a], [b] and [h]. *)
Definition breakdown_is (c : SubmitPage.CodeBreakdown) (a b h : Z) : Prop :=
  SubmitPage.aiGenerated c = Fin (inject_Z a)
  /\ SubmitPage.aiModified c = Fin (inject_Z b)
  /\ exists q, SubmitPage.humanWritten c = Fin q /\ q == inject_Z h.

(** The shares of a breakdown are percentages that add up to 100. *)
Definition shares (c : SubmitPage.CodeBreakdown) : Prop :=
  exists a b h : Z,
    breakdown_is c a b h
    /\ (0 <= a <= 60)%Z /\ (0 <= b <= 30)%Z /\ (10 <= h <= 100)%Z
    /\ (a + b + h = 100)%Z.

(** A score the page has sanitized: NaN, or a number between 0 and 100. *)
Definition sanitized (n : JsNum) : Prop := n = NaN \/ in_range n.

(** A URL of the form [https://github.com/o/n], with or without a final
    slash, whose owner and name are made of the characters of the form. *)
Definition form_url (url o n tail : string) : Prop :=
  url = "https://github.com/" +:+ o +:+ "/" +:+ n +:+ tail
  /\ (tail = EmptyString \/ tail = "/")
  /\ o <> EmptyString /\ n <> EmptyString
  /\ all_in SubmitPage.name_char o = true /\ all_in SubmitPage.name_char n = true.

(** * Properties *)

(** ** The interpretation of the completion *)

Lemma Qle_bool_false (p q : Q) : Qle_bool p q = false -> q < p.
Proof.
  intros H. apply Qnot_le_lt. intros Hle.
  apply Qle_bool_iff in Hle. congruence.
Qed.

(** [Math.max(0, Math.min(100, n))] on a number that is not NaN. *)
Lemma clamp_in_range (n : JsNum) :
  n <> NaN -> in_range (Math_max (num 0) (Math_min (num 100) n)).
Proof.
  intros Hn. destruct n as [| | |q]; [congruence | | |].
  - exists 100. split; [reflexivity | split; discriminate].
  - exists 0. split; [reflexivity | split; discriminate].
  - unfold Math_min, num, num_leb.
    destruct (Qle_bool (inject_Z 100) q) eqn:E100.
    + exists 100. split; [reflexivity | split; discriminate].
    + apply Qle_bool_false in E100.
      unfold Math_max, num_leb.
      destruct (Qle_bool (inject_Z 0) q) eqn:E0.
      * apply Qle_bool_iff in E0. exists q.
        split; [reflexivity | split; [exact E0 | apply Qlt_le_weak; exact E100]].
      * exists 0. split; [reflexivity | split; discriminate].
Qed.

(** The clamp returns one of its bounds or its argument. *)
Lemma clamp_integer (n : JsNum) :
  is_integer n -> is_integer (Math_max (num 0) (Math_min (num 100) n)).
Proof.
  intros (q & z & -> & Hz).
  unfold Math_min, Math_max, num, num_leb.
  destruct (Qle_bool (inject_Z 100) q).
  - exists (inject_Z 100), 100%Z. split; reflexivity.
  - destruct (Qle_bool (inject_Z 0) q).
    + exists q, z. split; [reflexivity | exact Hz].
    + exists (inject_Z 0), 0%Z. split; reflexivity.
Qed.

(** What [x || 50] converts to when [x] is absent, [null], a boolean or a
    number: never NaN, and no call to the host. *)
Lemma or_50_number (host : Host) (x : JsValue) :
  numeric_or_missing x ->
  exists n, ToNumber host (or_else x (JNum (num 50))) = Normal n /\ n <> NaN
            /\ ((x = JNum n /\ truthy x = true) \/ n = num 50 \/ n = num 1).
Proof.
  intros Hx. unfold or_else.
  destruct x as [| |b|n|s|l p|m]; simpl in Hx; try contradiction; simpl.
  - exists (num 50). repeat split; [discriminate | auto].
  - exists (num 50). repeat split; [discriminate | auto].
  - destruct b; simpl.
    + exists (num 1). repeat split; [discriminate | auto].
    + exists (num 50). repeat split; [discriminate | auto].
  - destruct n as [| | |q]; simpl.
    + exists (num 50). repeat split; [discriminate | auto].
    + exists PosInf. repeat split; [discriminate | auto].
    + exists NegInf. repeat split; [discriminate | auto].
    + destruct (Qeq_bool q 0) eqn:E; simpl.
      * exists (num 50). repeat split; [discriminate | auto].
      * exists (Fin q). repeat split; [discriminate |].
        left. split; reflexivity.
Qed.

Lemma clamp_or_50_number (host : Host) (x : JsValue) :
  numeric_or_missing x ->
  exists n, clamp_or_50 host x = Normal n /\ in_range n
            /\ ((forall m, x = JNum m -> truthy x = true -> is_integer m) -> is_integer n).
Proof.
  intros Hx. destruct (or_50_number host x Hx) as (n & Hn & Hnan & Hsrc).
  exists (Math_max (num 0) (Math_min (num 100) n)).
  unfold clamp_or_50. rewrite Hn. split; [reflexivity |].
  split; [apply clamp_in_range; exact Hnan |].
  intros Hint. apply clamp_integer.
  destruct Hsrc as [[-> Ht] | [-> | ->]].
  - apply (Hint n); [reflexivity | exact Ht].
  - exists (inject_Z 50), 50%Z. split; reflexivity.
  - exists (inject_Z 1), 1%Z. split; reflexivity.
Qed.

Lemma clamp_or_50_zero_or_absent (host : Host) (x : JsValue) :
  zero_or_absent x -> clamp_or_50 host x = Normal (num 50).
Proof.
  intros Hx. destruct x as [| |b|n|s|l p|m]; simpl in Hx; try contradiction.
  - reflexivity.
  - destruct n as [| | |q]; try contradiction.
    unfold clamp_or_50, or_else, truthy.
    apply Qeq_bool_iff in Hx. rewrite Hx. reflexivity.
Qed.

Lemma sanitize_field_object (host : Host) (m : gmap string JsValue) (k : string) :
  sanitize_field host (JObj m) k
  = n ← clamp_or_50 host (field m k); Normal (JObj (<[k := JNum n]> m)).
Proof. reflexivity. Qed.

Lemma interpret_object (host : Host) (m : gmap string JsValue) :
  interpret host (Some (JObj m))
  = s ← clamp_or_50 host (field m "vciScore");
    c ← clamp_or_50 host (field m "confidence");
    Normal (JObj (<["confidence" := JNum c]> (<["vciScore" := JNum s]> m))).
Proof.
  unfold interpret. simpl default. rewrite sanitize_field_object.
  destruct (clamp_or_50 host (field m "vciScore")) as [s|e]; [| reflexivity].
  simpl. rewrite sanitize_field_object. unfold field.
  rewrite lookup_insert_ne by discriminate. reflexivity.
Qed.

Lemma interpret_fallback (host : Host) : interpret host None = Normal fallbackResult.
Proof. vm_compute. reflexivity. Qed.

(** The three indicator arrays of the fallback are empty arrays. *)
Lemma fallback_indicators_empty : indicators_empty fallbackResult.
Proof.
  eexists. split; [vm_compute; reflexivity |].
  intros k [-> | [-> | ->]]; vm_compute; reflexivity.
Qed.

(** C1, as stated, fails on the completion [{}]: it parses to an object with
    no property, the two assignments give it a score and a confidence of 50,
    and nothing gives it indicator arrays. *)
Lemma interpret_empty_object_unbounded :
  interpret sample_host (parse_completion sample_host (JStr "{}"))
    = Normal (JObj {[ "vciScore" := JNum (num 50); "confidence" := JNum (num 50) ]})
  /\ getProp (JObj {[ "vciScore" := JNum (num 50); "confidence" := JNum (num 50) ]})
       "indicators" = Normal JUndefined
  /\ ~ bounded_result (JObj {[ "vciScore" := JNum (num 50); "confidence" := JNum (num 50) ]}).
Proof.
  split; [vm_compute; reflexivity |].
  split; [vm_compute; reflexivity |].
  intros (_ & _ & ind & Hind & Harr).
  vm_compute in Hind. injection Hind as <-.
  destruct (Harr "codePatterns") as (a & Ha & _); [left; reflexivity |].
  vm_compute in Ha. discriminate.
Qed.

(** A score that is not an integer stays as it is, and a score that is a
    text converts to NaN on a host that converts it so: neither is an
    integer of [0, 100]. *)
Example interpret_fractional_score :
  interpret sample_host (Some (JObj {[ "vciScore" := JNum (Fin (145 # 2)) ]}))
  = Normal (JObj {[ "vciScore" := JNum (Fin (145 # 2)); "confidence" := JNum (num 50) ]}).
Proof. vm_compute. reflexivity. Qed.

Example interpret_text_score :
  interpret sample_host (Some (JObj {[ "vciScore" := JStr "high" ]}))
  = Normal (JObj {[ "vciScore" := JNum NaN; "confidence" := JNum (num 50) ]}).
Proof. vm_compute. reflexivity. Qed.

(** C1, amended: when the completion does not parse, or parses to an object
    whose [vciScore] and [confidence] are each absent, [null], a boolean or a
    number, the stage returns a result whose score and confidence are numbers
    in [0, 100], integers whenever the parsed numbers are; its [indicators]
    property is the parsed one, unchanged (the empty arrays of the fallback
    when the completion did not parse). *)
Theorem interpret_bounds (host : Host) (parsed : option JsValue) :
  match parsed with
  | None => True
  | Some (JObj m) =>
      numeric_or_missing (field m "vciScore") /\ numeric_or_missing (field m "confidence")
  | Some _ => False
  end ->
  exists r s c,
    interpret host parsed = Normal r
    /\ getProp r "vciScore" = Normal (JNum s) /\ in_range s
    /\ getProp r "confidence" = Normal (JNum c) /\ in_range c
    /\ ((forall k n, k = "vciScore" \/ k = "confidence" ->
           getProp (default fallbackResult parsed) k = Normal (JNum n) -> is_integer n) ->
        is_integer s /\ is_integer c)
    /\ getProp r "indicators" = getProp (default fallbackResult parsed) "indicators"
    /\ (parsed = None -> indicators_empty r).
Proof.
  destruct parsed as [v|].
  - destruct v as [| |b|n|t|l p|m]; try contradiction.
    intros [Hs Hc].
    destruct (clamp_or_50_number host _ Hs) as (s & Es & Rs & Is).
    destruct (clamp_or_50_number host _ Hc) as (c & Ec & Rc & Ic).
    exists (JObj (<["confidence" := JNum c]> (<["vciScore" := JNum s]> m))), s, c.
    rewrite interpret_object, Es, Ec. simpl.
    split; [reflexivity |].
    split; [rewrite lookup_insert_ne by discriminate; rewrite lookup_insert_eq; reflexivity |].
    split; [exact Rs |].
    split; [rewrite lookup_insert_eq; reflexivity |].
    split; [exact Rc |].
    split.
    + intros Hint. split.
      * apply Is. intros n E _. apply (Hint "vciScore" n); [left; reflexivity |].
        unfold field in E. rewrite E. reflexivity.
      * apply Ic. intros n E _. apply (Hint "confidence" n); [right; reflexivity |].
        unfold field in E. rewrite E. reflexivity.
    + split; [| discriminate].
      rewrite !lookup_insert_ne by discriminate. reflexivity.
  - intros _. exists fallbackResult, (num 50), (num 30).
    split; [apply interpret_fallback |].
    split; [vm_compute; reflexivity |].
    split; [exists 50; split; [reflexivity | split; discriminate] |].
    split; [vm_compute; reflexivity |].
    split; [exists 30; split; [reflexivity | split; discriminate] |].
    split.
    + intros _. split.
      * exists (inject_Z 50), 50%Z. split; reflexivity.
      * exists (inject_Z 30), 30%Z. split; reflexivity.
    + split; [reflexivity | intros _; apply fallback_indicators_empty].
Qed.

Lemma interpret_bounds_witness :
  exists r s c,
    interpret sample_host (Some (JObj {[ "vciScore" := JNum (num 250) ]})) = Normal r
    /\ getProp r "vciScore" = Normal (JNum s) /\ in_range s
    /\ getProp r "confidence" = Normal (JNum c) /\ in_range c.
Proof.
  destruct (interpret_bounds sample_host (Some (JObj {[ "vciScore" := JNum (num 250) ]})))
    as (r & s & c & H1 & H2 & H3 & H4 & H5 & _).
  - split; vm_compute; exact I.
  - exists r, s, c. repeat split; assumption.
Defined.

(** C2, as stated, fails on the completion [{}]: it parses, its two numeric
    properties are absent, and the stage returns a confidence of 50 and no
    analysis text, which is not the fallback. *)
Lemma interpret_missing_fields_not_fallback :
  JSON_parse sample_host "{}" = Some (JObj ∅)
  /\ getProp (JObj ∅) "vciScore" = Normal JUndefined
  /\ getProp (JObj ∅) "confidence" = Normal JUndefined
  /\ exists r,
       interpret sample_host (parse_completion sample_host (JStr "{}")) = Normal r
       /\ getProp r "confidence" = Normal (JNum (num 50))
       /\ getProp r "analysis" = Normal JUndefined
       /\ r <> fallbackResult.
Proof.
  split; [reflexivity |]. split; [reflexivity |]. split; [reflexivity |].
  eexists. split; [vm_compute; reflexivity |].
  split; [vm_compute; reflexivity |].
  split; [vm_compute; reflexivity |].
  intros H. apply (f_equal (fun v => getProp v "analysis")) in H.
  vm_compute in H. discriminate.
Qed.

(** The stage also throws on a completion that parses: [null] has no
    property to read. *)
Example interpret_null_throws :
  exists e, interpret sample_host (parse_completion sample_host (JStr "null")) = Throw e.
Proof. eexists. vm_compute. reflexivity. Qed.

(** C2, amended: for every completion that does not parse, the stage returns
    the fallback (score 50, confidence 30, a generic analysis text that is
    not empty, three empty indicator arrays) and does not throw. *)
Theorem interpret_unparsable (host : Host) (raw : string) :
  JSON_parse host raw = None ->
  interpret host (parse_completion host (JStr raw)) = Normal fallbackResult
  /\ getProp fallbackResult "vciScore" = Normal (JNum (num 50))
  /\ getProp fallbackResult "confidence" = Normal (JNum (num 30))
  /\ (exists text, getProp fallbackResult "analysis" = Normal (JStr text) /\ text <> EmptyString)
  /\ indicators_empty fallbackResult.
Proof.
  intros Hparse. unfold parse_completion, ToString. rewrite Hparse.
  split; [apply interpret_fallback |].
  split; [vm_compute; reflexivity |].
  split; [vm_compute; reflexivity |].
  split; [eexists; split; [vm_compute; reflexivity | discriminate] |].
  apply fallback_indicators_empty.
Qed.

Lemma interpret_unparsable_witness :
  interpret sample_host (parse_completion sample_host (JStr "I think the score is 70"))
  = Normal fallbackResult.
Proof.
  apply (interpret_unparsable sample_host "I think the score is 70").
  reflexivity.
Defined.

(** C3: in a completion that parsed, a [vciScore] or [confidence] that is
    zero or absent is replaced by 50 (so an absent confidence becomes 50, not
    the 30 of the fallback): the assignment on an object returns the object
    with 50 under that name; whenever the stage returns a result, the result
    has 50 under that name; and on an object whose two properties are each
    absent, [null], a boolean or a number the stage does return. *)
Theorem sanitize_zero_or_absent (host : Host) (parsed : JsValue) (k : string) (x : JsValue) :
  k = "vciScore" \/ k = "confidence" ->
  getProp parsed k = Normal x ->
  zero_or_absent x ->
  (forall m, parsed = JObj m ->
     sanitize_field host parsed k = Normal (JObj (<[k := JNum (num 50)]> m)))
  /\ (forall r, interpret host (Some parsed) = Normal r ->
        getProp r k = Normal (JNum (num 50)))
  /\ (forall m, parsed = JObj m ->
        numeric_or_missing (field m "vciScore") ->
        numeric_or_missing (field m "confidence") ->
        exists r, interpret host (Some parsed) = Normal r).
Proof.
  intros Hk Hget Hzero. split; [| split].
  - intros m ->. simpl in Hget. injection Hget as Hx.
    rewrite sanitize_field_object. unfold field. rewrite Hx.
    rewrite (clamp_or_50_zero_or_absent host x Hzero). reflexivity.
  - intros r Hr. pose proof (clamp_or_50_zero_or_absent host x Hzero) as Hclamp.
    unfold interpret, sanitize_field in Hr. simpl default in Hr.
    destruct parsed as [| |b|n|t|l p|m]; try discriminate.
    + (* a string takes no property *)
      destruct t; vm_compute in Hr; discriminate.
    + (* an array keeps the two properties beside its elements *)
      simpl in Hr, Hget.
      destruct (clamp_or_50 host (default JUndefined (p !! "vciScore"))) as [s|] eqn:Es;
        [| discriminate].
      simpl in Hr. rewrite lookup_insert_ne in Hr by discriminate.
      destruct (clamp_or_50 host (default JUndefined (p !! "confidence"))) as [c|] eqn:Ec;
        [| discriminate].
      simpl in Hr. injection Hr as <-.
      destruct Hk as [-> | ->]; simpl in Hget |- *; injection Hget as Hx.
      * rewrite lookup_insert_ne by discriminate. rewrite lookup_insert_eq.
        rewrite Hx, Hclamp in Es. injection Es as <-. reflexivity.
      * rewrite lookup_insert_eq.
        rewrite Hx, Hclamp in Ec. injection Ec as <-. reflexivity.
    + simpl in Hr, Hget. injection Hget as Hx.
      destruct (clamp_or_50 host (default JUndefined (m !! "vciScore"))) as [s|] eqn:Es;
        [| discriminate].
      simpl in Hr. rewrite lookup_insert_ne in Hr by discriminate.
      destruct (clamp_or_50 host (default JUndefined (m !! "confidence"))) as [c|] eqn:Ec;
        [| discriminate].
      simpl in Hr. injection Hr as <-.
      destruct Hk as [-> | ->]; simpl.
      * rewrite lookup_insert_ne by discriminate. rewrite lookup_insert_eq.
        rewrite Hx, Hclamp in Es. injection Es as <-. reflexivity.
      * rewrite lookup_insert_eq.
        rewrite Hx, Hclamp in Ec. injection Ec as <-. reflexivity.
  - intros m -> Hs Hc.
    destruct (clamp_or_50_number host _ Hs) as (s & Es & _).
    destruct (clamp_or_50_number host _ Hc) as (c & Ec & _).
    rewrite interpret_object, Es, Ec. eexists. reflexivity.
Qed.

Lemma sanitize_zero_or_absent_witness :
  sanitize_field sample_host (JObj {[ "vciScore" := JNum (num 0) ]}) "vciScore"
  = Normal (JObj (<["vciScore" := JNum (num 50)]> {[ "vciScore" := JNum (num 0) ]})).
Proof.
  destruct (sanitize_zero_or_absent sample_host (JObj {[ "vciScore" := JNum (num 0) ]})
              "vciScore" (JNum (num 0))) as [H _].
  - left. reflexivity.
  - reflexivity.
  - reflexivity.
  - apply H. reflexivity.
Defined.

(** ** The retrying fetcher *)

Section BackoffFacts.
Variable w : World.
Variable url : string.
Variable options : RequestInit.
Variable maxRetries : nat.
Variable initialDelay : Q.

#[local] Abbreviation loop := (backoff_loop w url options maxRetries initialDelay).
#[local] Abbreviation wait_after k := (totalDelay initialDelay k (random w url k)).

(** One iteration of the loop. *)
Lemma backoff_loop_step (remaining attempt : nat) (lastError : option JsError) :
  loop (S remaining) attempt lastError
  = if retryable (net w url attempt) && negb (attempt =? maxRetries)%nat
    then
      let rest := loop remaining (S attempt) (remember (net w url attempt) lastError) in
      MkM (EvFetch url options :: EvSleep (wait_after attempt) :: trace rest) (outcome rest)
    else MkM [EvFetch url options] (settle (net w url attempt)).
Proof.
  cbn [backoff_loop]. unfold fetch, try_catch, sleep, emit, mbind, mret, M_bind, M_ret.
  destruct (net w url attempt) as [r|e]; cbn [retryable settle remember outcome trace].
  - unfold retryable_status, ok.
    destruct (Nat.eqb_spec (status r) 429) as [E429|N429].
    + rewrite E429. cbn. destruct (attempt =? maxRetries)%nat; reflexivity.
    + destruct (Nat.leb_spec 500 (status r)) as [H500|L500].
      * replace (200 <=? status r)%nat with true by (symmetry; apply Nat.leb_le; lia).
        replace (status r <=? 299)%nat with false by (symmetry; apply Nat.leb_gt; lia).
        replace (400 <=? status r)%nat with true by (symmetry; apply Nat.leb_le; lia).
        replace (status r <? 500)%nat with false by (symmetry; apply Nat.ltb_ge; lia).
        cbn. destruct (attempt =? maxRetries)%nat; reflexivity.
      * cbn [orb andb].
        destruct ((200 <=? status r)%nat && (status r <=? 299)%nat
                  || (400 <=? status r)%nat && (status r <? 500)%nat && negb false);
          reflexivity.
  - destruct (attempt =? maxRetries)%nat; reflexivity.
Qed.
End BackoffFacts.

Section BackoffTrace.
Variable w : World.
Variable url : string.
Variable options : RequestInit.
Variable maxRetries : nat.
Variable initialDelay : Q.

#[local] Abbreviation loop' := (backoff_loop w url options maxRetries initialDelay).
#[local] Abbreviation wait_after' k := (totalDelay initialDelay k (random w url k)).

(** The shape of a run: the first call, then one retry per retryable
    failure, and the outcome of the last call made. *)
Lemma backoff_loop_run (budget attempt : nat) (lastError : option JsError) :
  (attempt + budget = maxRetries)%nat ->
  trace (loop' (S budget) attempt lastError)
  = EvFetch url options
    :: flat_map (retry_events w url options initialDelay)
         (seq attempt (retries_from w url budget attempt))
  /\ outcome (loop' (S budget) attempt lastError)
     = settle (net w url (attempt + retries_from w url budget attempt)).
Proof.
  revert attempt lastError.
  induction budget as [|budget IH]; intros attempt lastError Hsum.
  - rewrite backoff_loop_step.
    replace (attempt =? maxRetries)%nat with true by (symmetry; apply Nat.eqb_eq; lia).
    rewrite andb_false_r. cbn. rewrite Nat.add_0_r. split; reflexivity.
  - rewrite backoff_loop_step.
    replace (attempt =? maxRetries)%nat with false by (symmetry; apply Nat.eqb_neq; lia).
    cbn [negb]. rewrite andb_true_r. cbn [retries_from].
    destruct (retryable (net w url attempt)).
    + destruct (IH (S attempt) (remember (net w url attempt) lastError)) as [Ht Ho];
        [lia |].
      cbn [trace outcome]. rewrite Ht, Ho. cbn [seq flat_map retry_events app].
      split; [reflexivity |]. f_equal. f_equal. lia.
    + cbn. rewrite Nat.add_0_r. split; reflexivity.
Qed.

Lemma attempts_flat_map_retry (l : list nat) :
  attempts (flat_map (retry_events w url options initialDelay) l) = length l.
Proof. induction l as [|k l IH]; [reflexivity | cbn; rewrite IH; reflexivity]. Qed.

Lemma waits_flat_map_retry (l : list nat) :
  waits (flat_map (retry_events w url options initialDelay) l)
  = map (fun k => wait_after' k) l.
Proof. induction l as [|k l IH]; [reflexivity | cbn; rewrite IH; reflexivity]. Qed.

Lemma retries_from_le (budget attempt : nat) :
  (retries_from w url budget attempt <= budget)%nat.
Proof.
  revert attempt. induction budget as [|budget IH]; intros attempt; cbn; [lia |].
  destruct (retryable (net w url attempt)); [specialize (IH (S attempt)) |]; lia.
Qed.

(** When every attempt of the budget fails retryably, all of them are retries. *)
Lemma retries_from_all (budget attempt : nat) :
  (forall k, (attempt <= k < attempt + budget)%nat -> retryable (net w url k) = true) ->
  retries_from w url budget attempt = budget.
Proof.
  revert attempt. induction budget as [|budget IH]; intros attempt Hall; cbn; [reflexivity |].
  rewrite Hall by lia. f_equal. apply IH. intros k Hk. apply Hall. lia.
Qed.

Lemma run_trace :
  trace (run w url options maxRetries initialDelay)
  = EvFetch url options
    :: flat_map (retry_events w url options initialDelay) (seq 0 (retries w url maxRetries)).
Proof. apply (backoff_loop_run maxRetries 0 None). reflexivity. Qed.

Lemma run_outcome :
  outcome (run w url options maxRetries initialDelay)
  = settle (net w url (retries w url maxRetries)).
Proof. apply (backoff_loop_run maxRetries 0 None). reflexivity. Qed.

Lemma run_attempts :
  attempts (trace (run w url options maxRetries initialDelay)) = S (retries w url maxRetries).
Proof.
  rewrite run_trace. cbn. rewrite attempts_flat_map_retry, length_seq. reflexivity.
Qed.

Lemma run_waits :
  waits (trace (run w url options maxRetries initialDelay))
  = map (fun k => wait_after' k) (seq 0 (retries w url maxRetries)).
Proof. rewrite run_trace. cbn. apply waits_flat_map_retry. Qed.

Lemma run_wait_lookup (k : nat) (ms : Q) :
  waits (trace (run w url options maxRetries initialDelay)) !! k = Some ms ->
  (k < retries w url maxRetries)%nat /\ ms = wait_after' k.
Proof.
  rewrite run_waits, list_lookup_fmap. intros H.
  destruct (seq 0 (retries w url maxRetries) !! k) as [j|] eqn:E; [| discriminate].
  apply lookup_seq in E as [-> Hlt]. cbn in H. injection H as <-. split; [exact Hlt | reflexivity].
Qed.
End BackoffTrace.

(** *** The waits *)

Lemma pow2_pos (k : nat) : 0 < pow2 k.
Proof.
  unfold pow2. change 0 with (inject_Z 0). rewrite <- Zlt_Qlt.
  apply Z.pow_pos_nonneg; lia.
Qed.

Lemma pow2_succ (k : nat) : pow2 (S k) == 2 * pow2 k.
Proof.
  unfold pow2. rewrite Nat2Z.inj_succ, Z.pow_succ_r by lia.
  rewrite inject_Z_mult. reflexivity.
Qed.

Lemma delay_pos (initialDelay : Q) (k : nat) : 0 < initialDelay -> 0 < delay initialDelay k.
Proof.
  intros Hd. unfold delay. apply Qmult_lt_0_compat; [exact Hd | apply pow2_pos].
Qed.

Lemma delay_succ (initialDelay : Q) (k : nat) :
  delay initialDelay (S k) == 2 * delay initialDelay k.
Proof. unfold delay. rewrite pow2_succ. ring. Qed.

(** The jitter stays below a tenth of the delay. *)
Lemma jitter_bounds (initialDelay : Q) (k : nat) (rnd : Q) :
  0 <= initialDelay -> 0 <= rnd < 1 ->
  0 <= jitter initialDelay k rnd <= (1 # 10) * delay initialDelay k.
Proof.
  intros Hd [H0 H1]. unfold jitter.
  assert (0 <= delay initialDelay k) as HD.
  { unfold delay. apply Qmult_le_0_compat; [exact Hd | apply Qlt_le_weak, pow2_pos]. }
  split.
  - apply Qmult_le_0_compat; [| exact HD].
    apply Qmult_le_0_compat; [exact H0 | discriminate].
  - apply Qmult_le_compat_r; [| exact HD].
    rewrite <- (Qmult_1_l (1 # 10)) at 2.
    apply Qmult_le_compat_r; [apply Qlt_le_weak; exact H1 | discriminate].
Qed.

(** Each wait is longer than the one before. *)
Lemma totalDelay_increasing (initialDelay : Q) (k : nat) (r1 r2 : Q) :
  0 < initialDelay -> 0 <= r1 < 1 -> 0 <= r2 < 1 ->
  totalDelay initialDelay k r1 < totalDelay initialDelay (S k) r2.
Proof.
  intros Hd Hr1 Hr2. unfold totalDelay.
  pose proof (jitter_bounds initialDelay k r1 (Qlt_le_weak _ _ Hd) Hr1) as [_ Hj1].
  pose proof (jitter_bounds initialDelay (S k) r2 (Qlt_le_weak _ _ Hd) Hr2) as [Hj2 _].
  pose proof (delay_pos initialDelay k Hd) as HD.
  pose proof (delay_succ initialDelay k) as HS.
  lra.
Qed.

Lemma retries_from_retryable (w : World) (url : string) (budget attempt k : nat) :
  (k < retries_from w url budget attempt)%nat -> retryable (net w url (attempt + k)) = true.
Proof.
  revert attempt k. induction budget as [|budget IH]; intros attempt k; cbn; [lia |].
  destruct (retryable (net w url attempt)) eqn:E; [| lia].
  destruct k as [|k]; intros Hk.
  - rewrite Nat.add_0_r. exact E.
  - replace (attempt + S k)%nat with (S attempt + k)%nat by lia. apply IH. lia.
Qed.

(** The retries stop at the first attempt that does not fail retryably, or
    when the budget is spent. *)
Lemma retries_from_stop (w : World) (url : string) (budget attempt : nat) :
  (retries_from w url budget attempt < budget)%nat ->
  retryable (net w url (attempt + retries_from w url budget attempt)) = false.
Proof.
  revert attempt. induction budget as [|budget IH]; intros attempt; cbn; [lia |].
  destruct (retryable (net w url attempt)) eqn:E; intros Hlt.
  - replace (attempt + S (retries_from w url budget (S attempt)))%nat
      with (S attempt + retries_from w url budget (S attempt))%nat by lia.
    apply IH. lia.
  - rewrite Nat.add_0_r. exact E.
Qed.

(** C4: the fetcher calls [fetch] at most [maxRetries + 1] times; against an
    endpoint that answers 503 to every attempt it calls it exactly
    [maxRetries + 1] times (4 times for [maxRetries = 3]) and returns the
    last 503 response; and, the base delay being positive and the random
    numbers in [0, 1), each wait is longer than the one before. *)
Theorem retry_budget (w : World) (url : string) (options : RequestInit)
    (maxRetries : nat) (initialDelay : Q) :
  let result := fetchWithExponentialBackoff w url options maxRetries initialDelay in
  (attempts (trace result) <= maxRetries + 1)%nat
  /\ ((forall k, exists r, net w url k = Responded r /\ status r = 503%nat) ->
      attempts (trace result) = (maxRetries + 1)%nat
      /\ (maxRetries = 3%nat -> attempts (trace result) = 4%nat)
      /\ length (waits (trace result)) = maxRetries
      /\ exists r, net w url maxRetries = Responded r /\ status r = 503%nat
                   /\ outcome result = Normal r)
  /\ (0 < initialDelay -> (forall k, 0 <= random w url k < 1) ->
      forall i a b,
        waits (trace result) !! i = Some a ->
        waits (trace result) !! S i = Some b ->
        a < b).
Proof.
  cbv zeta. fold (run w url options maxRetries initialDelay).
  split; [| split].
  - rewrite run_attempts. unfold retries.
    pose proof (retries_from_le w url maxRetries 0). lia.
  - intros H503.
    assert (retries w url maxRetries = maxRetries) as Hall.
    { apply retries_from_all. intros k _. destruct (H503 k) as (r & -> & Hs).
      cbn. unfold retryable_status. rewrite Hs. reflexivity. }
    rewrite run_attempts, run_waits, run_outcome, Hall, length_map, length_seq.
    split; [lia |]. split; [lia |]. split; [reflexivity |].
    destruct (H503 maxRetries) as (r & Hr & Hs). exists r. rewrite Hr.
    split; [reflexivity | split; [exact Hs | reflexivity]].
  - intros Hd Hrnd i a b Ha Hb.
    apply run_wait_lookup in Ha as [_ ->]. apply run_wait_lookup in Hb as [_ ->].
    apply totalDelay_increasing; [exact Hd | apply Hrnd | apply Hrnd].
Qed.

Lemma retry_budget_witness :
  attempts (trace (fetchWithExponentialBackoff always_503 "https://api.example/x"
                     sample_options 3 1000)) = 4%nat
  /\ outcome (fetchWithExponentialBackoff always_503 "https://api.example/x"
                sample_options 3 1000) = Normal response_503
  /\ map Qred (waits (trace (fetchWithExponentialBackoff always_503
                               "https://api.example/x" sample_options 3 1000)))
     = [1050; 2100; 4200].
Proof.
  destruct (retry_budget always_503 "https://api.example/x" sample_options 3 1000)
    as (_ & H & _).
  destruct H as (_ & H4 & _ & _).
  - intros k. exists response_503. split; reflexivity.
  - split; [apply H4; reflexivity |].
    split; vm_compute; reflexivity.
Defined.

(** A first attempt that does not fail retryably ends the run. *)
Lemma run_first_final (w : World) (url : string) (options : RequestInit)
    (maxRetries : nat) (initialDelay : Q) :
  retryable (net w url 0) = false ->
  fetchWithExponentialBackoff w url options maxRetries initialDelay
  = MkM [EvFetch url options] (settle (net w url 0)).
Proof.
  intros H. unfold fetchWithExponentialBackoff. rewrite backoff_loop_step, H. reflexivity.
Qed.

Lemma ok_not_retryable (r : Response) : ok r = true -> retryable_status (status r) = false.
Proof.
  unfold ok, retryable_status. intros H. apply andb_true_iff in H as [H1 H2].
  apply Nat.leb_le in H1. apply Nat.leb_le in H2.
  apply orb_false_iff. split; [apply Nat.eqb_neq | apply Nat.leb_gt]; lia.
Qed.

Lemma client_error_not_retryable (s : nat) :
  (400 <= s < 500)%nat -> s <> 429%nat -> retryable_status s = false.
Proof.
  intros H N. unfold retryable_status.
  apply orb_false_iff. split; [apply Nat.eqb_neq | apply Nat.leb_gt]; lia.
Qed.

(** The two content fetchers on a response with status 404. *)
Lemma read_github_content_404 (host : Host) (r : Response) :
  status r = 404%nat -> read_github_content host r = MkM [] (Normal None).
Proof. intros H. unfold read_github_content. rewrite H. reflexivity. Qed.

(** C5: a first attempt answered 404 ends the run with that response after
    one call and no wait, and the README and file fetchers turn it into
    [null]; a first attempt answered 2xx, or 4xx other than 429, ends the run
    the same way; an attempt that is answered 429 or 5xx, or that rejects,
    before the budget is spent is followed by another attempt; and after an
    attempt that ends otherwise no other is made. *)
Theorem fetch_classification (host : Host) (w : World) (url : string)
    (options : RequestInit) (maxRetries : nat) (initialDelay : Q) :
  let result := fetchWithExponentialBackoff w url options maxRetries initialDelay in
  (forall r, net w url 0 = Responded r ->
     status r = 404%nat \/ ok r = true \/ ((400 <= status r < 500)%nat /\ status r <> 429%nat) ->
     result = MkM [EvFetch url options] (Normal r))
  /\ (forall k, (k < attempts (trace result))%nat -> (k < maxRetries)%nat ->
        (exists r, net w url k = Responded r /\ (status r = 429%nat \/ (500 <= status r)%nat))
        \/ (exists e, net w url k = Rejected e) ->
        (S k < attempts (trace result))%nat)
  /\ (forall k, (k < attempts (trace result))%nat ->
        retryable (net w url k) = false ->
        attempts (trace result) = S k /\ outcome result = settle (net w url k))
  /\ (forall owner repo path token r,
        url = file_url owner repo path -> options = github_options token ->
        maxRetries = 2%nat -> initialDelay = 500 ->
        net w url 0 = Responded r -> status r = 404%nat ->
        fetchGitHubFile host w owner repo path token = MkM [EvFetch url options] (Normal None))
  /\ (forall owner repo token r,
        url = readme_url owner repo -> options = github_options token ->
        maxRetries = 2%nat -> initialDelay = 500 ->
        net w url 0 = Responded r -> status r = 404%nat ->
        fetchGitHubReadme host w owner repo token = MkM [EvFetch url options] (Normal None)).
Proof.
  cbv zeta.
  assert (forall r, net w url 0 = Responded r ->
            status r = 404%nat \/ ok r = true
            \/ ((400 <= status r < 500)%nat /\ status r <> 429%nat) ->
            fetchWithExponentialBackoff w url options maxRetries initialDelay
            = MkM [EvFetch url options] (Normal r)) as Hfinal.
  { intros r Hr Hcase. rewrite run_first_final; rewrite Hr; [reflexivity |]. cbn.
    destruct Hcase as [H404 | [Hok | [H4 N429]]].
    - rewrite H404. reflexivity.
    - apply ok_not_retryable, Hok.
    - apply client_error_not_retryable; assumption. }
  split; [exact Hfinal |].
  fold (run w url options maxRetries initialDelay). rewrite run_attempts.
  split; [| split; [| split]].
  - intros k Hk Hbudget Hfail.
    assert (retryable (net w url k) = true) as Hretry.
    { destruct Hfail as [(r & -> & [H429 | H500]) | (e & ->)]; [| | reflexivity]; cbn.
      - rewrite H429. reflexivity.
      - unfold retryable_status. apply orb_true_iff. right. apply Nat.leb_le, H500. }
    destruct (Nat.lt_ge_cases k (retries w url maxRetries)) as [Hlt | Hge]; [lia |].
    assert (retries w url maxRetries = k) as Heq by lia.
    pose proof (retries_from_stop w url maxRetries 0) as Hstop.
    fold (retries w url maxRetries) in Hstop. rewrite Heq in Hstop.
    rewrite Nat.add_0_l in Hstop. rewrite Hstop in Hretry by exact Hbudget. discriminate.
  - intros k Hk Hfinalk.
    destruct (Nat.lt_ge_cases k (retries w url maxRetries)) as [Hlt | Hge].
    + pose proof (retries_from_retryable w url maxRetries 0 k Hlt) as Hr.
      rewrite Nat.add_0_l in Hr. congruence.
    + assert (retries w url maxRetries = k) as Heq by lia.
      rewrite run_outcome, Heq. split; reflexivity.
  - intros owner repo path token r -> -> -> -> Hr H404.
    unfold fetchGitHubFile. rewrite (Hfinal r Hr (or_introl H404)).
    unfold try_catch, mbind, M_bind. cbn [outcome trace].
    rewrite (read_github_content_404 host r H404). reflexivity.
  - intros owner repo token r -> -> -> -> Hr H404.
    unfold fetchGitHubReadme. rewrite (Hfinal r Hr (or_introl H404)).
    unfold try_catch, mbind, M_bind. cbn [outcome trace].
    rewrite (read_github_content_404 host r H404). reflexivity.
Qed.

Lemma fetch_classification_witness :
  fetchWithExponentialBackoff always_404 (readme_url "acme" "widgets")
    (github_options "secret") 2 500
  = MkM [EvFetch (readme_url "acme" "widgets") (github_options "secret")]
      (Normal response_404)
  /\ fetchGitHubReadme sample_host always_404 "acme" "widgets" "secret"
     = MkM [EvFetch (readme_url "acme" "widgets") (github_options "secret")] (Normal None).
Proof.
  destruct (fetch_classification sample_host always_404 (readme_url "acme" "widgets")
              (github_options "secret") 2 500) as (H1 & _ & _ & _ & H5).
  split.
  - apply H1; [reflexivity | left; reflexivity].
  - apply (H5 "acme" "widgets" "secret" response_404); reflexivity.
Defined.

Example backoff_delays_503 :
  map Qred (waits (trace (fetchWithExponentialBackoff always_503 openai_url
                            sample_options 3 1000)))
  = [1050; 2100; 4200].
Proof. vm_compute. reflexivity. Qed.

(** ** The locator parser *)

Example parse_plain :
  parseGitHubUrl (JStr "https://github.com/acme/widgets")
  = Some {| owner := "acme"; repo := "widgets" |}.
Proof. reflexivity. Qed.

Example parse_git_slash :
  parseGitHubUrl (JStr "https://github.com/acme/widgets.git/")
  = Some {| owner := "acme"; repo := "widgets" |}.
Proof. reflexivity. Qed.

Example parse_extra_segment :
  parseGitHubUrl (JStr "https://github.com/acme/widgets/tree/main") = None.
Proof. reflexivity. Qed.

Example parse_not_a_url : parseGitHubUrl (JStr "not-a-url") = None.
Proof. reflexivity. Qed.

Example parse_query :
  parseGitHubUrl (JStr "https://github.com/acme/widgets?tab=readme")
  = Some {| owner := "acme"; repo := "widgets?tab=readme" |}.
Proof. reflexivity. Qed.

Lemma string_app_cons (a : ascii) (p r : string) : String a p +:+ r = String a (p +:+ r).
Proof. reflexivity. Qed.

Lemma string_app_nil (r : string) : EmptyString +:+ r = r.
Proof. reflexivity. Qed.

Lemma strip_prefix_app (p s t : string) : strip_prefix p s = Some t <-> s = p +:+ t.
Proof.
  revert s. induction p as [|a p IH]; intros s; cbn.
  - split; [intros [= ->]; reflexivity | intros ->; reflexivity].
  - destruct s as [|b s]; [split; discriminate |].
    destruct (Ascii.eqb_spec b a) as [->|N].
    + rewrite IH. split; [intros ->; reflexivity | intros [= ->]; reflexivity].
    + split; [discriminate | intros [= E _]; contradiction].
Qed.

Lemma span_none_of_app (c : ascii) (s : string) :
  s = fst (span_none_of c s) +:+ snd (span_none_of c s)
  /\ free_of c (fst (span_none_of c s)) = true
  /\ stops_at c (snd (span_none_of c s)).
Proof.
  induction s as [|a s IH]; cbn; [repeat split |].
  destruct (Ascii.eqb_spec a c) as [->|N]; cbn; [repeat split |].
  destruct (span_none_of c s) as [p r]. cbn [fst snd] in *.
  destruct IH as (E & F & S).
  split; [rewrite string_app_cons; f_equal; exact E |]. split; [| exact S].
  cbn. rewrite F. destruct (Ascii.eqb_spec a c); [contradiction | reflexivity].
Qed.

Lemma span_none_of_unique (c : ascii) (p r : string) :
  free_of c p = true -> stops_at c r -> span_none_of c (p +:+ r) = (p, r).
Proof.
  intros F S. induction p as [|a p IH].
  - rewrite string_app_nil. destruct r as [|b r]; [reflexivity |]. cbn in S. subst b.
    cbn. rewrite Ascii.eqb_refl. reflexivity.
  - cbn in F. apply andb_true_iff in F as [Na F].
    rewrite string_app_cons. cbn [span_none_of].
    destruct (Ascii.eqb a c); [discriminate |].
    rewrite (IH F). reflexivity.
Qed.

Lemma string_length_app (p r : string) :
  String.length (p +:+ r) = (String.length p + String.length r)%nat.
Proof.
  induction p as [|a p IH]; [reflexivity |].
  rewrite string_app_cons. cbn [String.length]. rewrite IH. reflexivity.
Qed.

Lemma substring_prefix (p r : string) : String.substring 0 (String.length p) (p +:+ r) = p.
Proof.
  induction p as [|a p IH].
  - rewrite string_app_nil. destruct r; reflexivity.
  - rewrite string_app_cons. cbn [String.length String.substring]. f_equal. exact IH.
Qed.

Lemma consumed_app (p r : string) : Regex.consumed (p +:+ r) r = p.
Proof.
  unfold Regex.consumed. rewrite string_length_app.
  replace (String.length p + String.length r - String.length r)%nat
    with (String.length p) by lia.
  apply substring_prefix.
Qed.

Section Greedy.
Context {R : Type}.
Variable c : ascii.
Variable k : string -> option R.
Hypothesis k_stops : forall a t, a <> c -> k (String a t) = None.

(** When what follows the class cannot start inside it, the longest run is
    the only one that can match. *)
Lemma star_none_of_greedy (s : string) :
  Regex.star_none_of c s k = k (snd (span_none_of c s)).
Proof.
  induction s as [|a s IH]; cbn; [reflexivity |].
  destruct (Ascii.eqb_spec a c) as [->|N]; [reflexivity |].
  rewrite IH. destruct (span_none_of c s) as [p r]. cbn.
  destruct (k r) eqn:E; [reflexivity |].
  rewrite k_stops by exact N. reflexivity.
Qed.

Lemma plus_none_of_greedy (s : string) :
  Regex.plus_none_of c s k
  = match fst (span_none_of c s) with
    | EmptyString => None
    | String _ _ => k (snd (span_none_of c s))
    end.
Proof.
  destruct s as [|a s]; cbn; [reflexivity |].
  destruct (Ascii.eqb_spec a c) as [->|N]; [reflexivity |].
  rewrite star_none_of_greedy. destruct (span_none_of c s) as [p r]. reflexivity.
Qed.
End Greedy.

Lemma run_lit {R : Type} (p : string) (r : Regex.Regex) (s : string) (caps : list string)
    (k : string -> list string -> option R) :
  Regex.run (Regex.lit p r) s caps k
  = match strip_prefix p s with
    | Some t => Regex.run r t caps k
    | None => None
    end.
Proof.
  revert s. induction p as [|a p IH]; intros s; cbn; [reflexivity |].
  destruct s as [|b s]; [reflexivity |].
  destruct (Ascii.eqb b a); [apply IH | reflexivity].
Qed.

Lemma match_githubRegex (url : string) :
  Regex.match_anchored githubRegex url
  = match split_url url with
    | Some (o, n) => Some [o; n]
    | None => None
    end.
Proof.
  unfold Regex.match_anchored, githubRegex, split_url. rewrite run_lit.
  destruct (strip_prefix "https://github.com/" url) as [t|]; [| reflexivity].
  cbn [Regex.run].
  rewrite plus_none_of_greedy
    by (intros a t' Ha; destruct (Ascii.eqb_spec a "/"); [contradiction | reflexivity]).
  destruct (span_none_of_app "/" t) as (Et & _ & St).
  destruct (span_none_of "/" t) as [o r1]. cbn [fst snd] in *.
  destruct o as [|a o]; [reflexivity |].
  assert (Regex.consumed t r1 = String a o) as Hc1
    by (rewrite Et at 1; apply consumed_app).
  rewrite Hc1. clear Hc1 Et.
  destruct r1 as [|b t2]; [reflexivity |].
  cbn in St. subst b. rewrite Ascii.eqb_refl.
  rewrite plus_none_of_greedy.
  2:{ intros a' t' Ha. apply Ascii.eqb_neq in Ha. rewrite Ha. reflexivity. }
  destruct (span_none_of_app "/" t2) as (Et2 & _ & St2).
  destruct (span_none_of "/" t2) as [n r2]. cbn [fst snd] in *.
  destruct n as [|a2 n]; [reflexivity |].
  assert (Regex.consumed t2 r2 = String a2 n) as Hc2
    by (rewrite Et2 at 1; apply consumed_app).
  rewrite Hc2. clear Hc2 Et2.
  destruct r2 as [|b2 r2]; [reflexivity |].
  cbn in St2. subst b2. rewrite Ascii.eqb_refl.
  destruct r2; reflexivity.
Qed.

Lemma split_url_spec (url o n : string) :
  split_url url = Some (o, n)
  <-> exists tail,
        url = "https://github.com/" +:+ o +:+ "/" +:+ n +:+ tail
        /\ (tail = EmptyString \/ tail = "/")
        /\ o <> EmptyString /\ n <> EmptyString
        /\ free_of "/" o = true /\ free_of "/" n = true.
Proof.
  unfold split_url. split.
  - destruct (strip_prefix "https://github.com/" url) as [t|] eqn:Ep; [| discriminate].
    apply strip_prefix_app in Ep.
    destruct (span_none_of_app "/" t) as (Et & Fo & St).
    destruct (span_none_of "/" t) as [o' r1]. cbn [fst snd] in *.
    destruct o' as [|a o']; [discriminate |].
    destruct r1 as [|b t2]; [discriminate |]. cbn in St. subst b.
    destruct (span_none_of_app "/" t2) as (Et2 & Fn & St2).
    destruct (span_none_of "/" t2) as [n' r2]. cbn [fst snd] in *.
    destruct n' as [|a2 n']; [discriminate |].
    destruct r2 as [|b2 r2].
    + intros [= <- <-]. exists EmptyString.
      rewrite Ep, Et, Et2. repeat split; auto; discriminate.
    + cbn in St2. subst b2. destruct r2; [| discriminate].
      intros [= <- <-]. exists "/".
      rewrite Ep, Et, Et2. repeat split; auto; discriminate.
  - intros (tail & -> & Htail & Ho & Hn & Fo & Fn).
    assert (strip_prefix "https://github.com/"
              ("https://github.com/" +:+ o +:+ "/" +:+ n +:+ tail)
            = Some (o +:+ "/" +:+ n +:+ tail)) as -> by (apply strip_prefix_app; reflexivity).
    rewrite (span_none_of_unique "/" o ("/" +:+ n +:+ tail) Fo) by reflexivity.
    destruct o as [|a o]; [contradiction |].
    change ("/" +:+ n +:+ tail) with (String "/" (n +:+ tail)).
    assert (stops_at "/" tail) as Stail by (destruct Htail as [-> | ->]; reflexivity).
    cbv iota beta. rewrite (span_none_of_unique "/" n tail Fn Stail).
    destruct n as [|a2 n]; [contradiction |].
    destruct Htail as [-> | ->]; reflexivity.
Qed.

Lemma strip_prefix_whole (p s : string) :
  match strip_prefix p s with
  | Some EmptyString => true
  | _ => false
  end = String.eqb s p.
Proof.
  revert s. induction p as [|a p IH]; intros [|b s]; cbn; try reflexivity.
  destruct (Ascii.eqb b a); [apply IH | reflexivity].
Qed.

Lemma search_dotGit (s : string) :
  Regex.search dotGitRegex s
  = match strip_dot_git s with
    | Some b => Some (b, EmptyString)
    | None => None
    end.
Proof.
  induction s as [|a s IH].
  - reflexivity.
  - cbn [Regex.search strip_dot_git]. unfold dotGitRegex at 1. rewrite run_lit.
    rewrite <- (strip_prefix_whole ".git" (String a s)).
    destruct (strip_prefix ".git" (String a s)) as [[|c t]|]; cbn [Regex.run].
    + reflexivity.
    + rewrite IH. destruct (strip_dot_git s); reflexivity.
    + rewrite IH. destruct (strip_dot_git s); reflexivity.
Qed.

Lemma string_app_nil_r (s : string) : s +:+ EmptyString = s.
Proof. induction s as [|a s IH]; [reflexivity | rewrite string_app_cons, IH; reflexivity]. Qed.

Lemma strip_dot_git_spec (s b : string) : strip_dot_git s = Some b <-> s = b +:+ ".git".
Proof.
  revert b. induction s as [|a s IH]; intros b.
  - cbn. split; [discriminate |]. destruct b as [|c b]; discriminate.
  - cbn [strip_dot_git]. destruct (String.eqb_spec (String a s) ".git") as [E|N].
    + rewrite E. split.
      * intros [= <-]. reflexivity.
      * intros H. apply (f_equal String.length) in H.
        rewrite string_length_app in H.
        destruct b; [reflexivity | cbn in H; lia].
    + destruct (strip_dot_git s) as [b'|].
      * assert (s = b' +:+ ".git") as Hs by (apply IH; reflexivity).
        split.
        -- intros [= <-]. rewrite string_app_cons, <- Hs. reflexivity.
        -- destruct b as [|c b]; [rewrite string_app_nil; intros H; contradiction |].
           rewrite string_app_cons. intros [= -> H]. apply IH in H. congruence.
      * split; [discriminate |].
        destruct b as [|c b]; [rewrite string_app_nil; intros H; contradiction |].
        rewrite string_app_cons. intros [= -> H]. apply IH in H. discriminate.
Qed.

(** [name.replace(/\.git$/, '')] *)
Lemma replace_dotGit (s : string) :
  Regex.replace dotGitRegex EmptyString s = default s (strip_dot_git s).
Proof.
  unfold Regex.replace. rewrite search_dotGit.
  destruct (strip_dot_git s) as [b|]; [| reflexivity].
  cbn [default]. rewrite string_app_nil. apply string_app_nil_r.
Qed.

Lemma parseGitHubUrl_string (s o n : string) :
  parseGitHubUrl (JStr s) = Some {| owner := o; repo := n |}
  <-> exists name, split_url s = Some (o, name) /\ n = default name (strip_dot_git name).
Proof.
  unfold parseGitHubUrl. rewrite match_githubRegex.
  destruct (split_url s) as [[o' name]|].
  - rewrite replace_dotGit. split.
    + intros [= <- <-]. exists name. split; reflexivity.
    + intros (name' & [= <- <-] & ->). reflexivity.
  - split; [discriminate | intros (name & H & _); discriminate].
Qed.

(** A request whose URL the parser rejects is answered without any call to
    the network. *)
Lemma handler_rejected_url (host : Host) (w : World) (env : Env) (req : Request)
    (githubUrl : JsValue) :
  requested_url host req = Some githubUrl ->
  parseGitHubUrl githubUrl = None ->
  trace (handler host w env req) = []
  /\ (String.eqb (method req) "OPTIONS" = false ->
      unset (OPENAI_API_KEY env) = false -> unset (GITHUB_PAT env) = false ->
      outcome (handler host w env req)
      = Normal (error_400 (if truthy githubUrl then "Invalid GitHub URL format"
                           else "GitHub URL is required"))).
Proof.
  unfold requested_url, handler, handle. intros Hreq Hparse.
  destruct (JSON_parse host (request_body req)) as [json|]; [| discriminate].
  destruct (getProp json "githubUrl") as [g|] eqn:Eg; [| discriminate].
  injection Hreq as ->.
  destruct (String.eqb (method req) "OPTIONS"); [split; [reflexivity | discriminate] |].
  destruct (unset (OPENAI_API_KEY env)); [split; [reflexivity | discriminate] |].
  destruct (unset (GITHUB_PAT env)); [split; [reflexivity | discriminate] |].
  unfold try_catch, lift, mbind, M_bind. cbn [outcome trace]. rewrite Eg.
  cbn [outcome trace]. rewrite Hparse.
  destruct (truthy githubUrl); cbn; split; reflexivity.
Qed.

(** C6, as stated, fails on a URL with a query string: the class [[^\/]+]
    takes the question mark and what follows it as part of the name. *)
Lemma parseGitHubUrl_accepts_query :
  parseGitHubUrl (JStr "https://github.com/acme/widgets?tab=readme")
  = Some {| owner := "acme"; repo := "widgets?tab=readme" |}.
Proof. reflexivity. Qed.

(** C6, amended: the parser accepts exactly the strings
    [https://github.com/<owner>/<name>] with an optional final slash, where
    owner and name are not empty and contain no slash (so a URL with another
    path segment is rejected, and a query string without a slash is part of
    the name); the repository is the name without one final [.git]; and a
    request whose URL is rejected is answered 400 without any call to the
    network. *)
Theorem locator_parser :
  (forall (url : JsValue) (o n : string),
     parseGitHubUrl url = Some {| owner := o; repo := n |}
     <-> exists s name tail,
           url = JStr s
           /\ s = "https://github.com/" +:+ o +:+ "/" +:+ name +:+ tail
           /\ (tail = EmptyString \/ tail = "/")
           /\ o <> EmptyString /\ name <> EmptyString
           /\ free_of "/" o = true /\ free_of "/" name = true
           /\ (name = n +:+ ".git" \/ ((forall b, name <> b +:+ ".git") /\ n = name)))
  /\ parseGitHubUrl (JStr "not-a-url") = None
  /\ (forall (host : Host) (w : World) (env : Env) (req : Request) (githubUrl : JsValue),
        requested_url host req = Some githubUrl ->
        parseGitHubUrl githubUrl = None ->
        trace (handler host w env req) = []
        /\ (String.eqb (method req) "OPTIONS" = false ->
            unset (OPENAI_API_KEY env) = false -> unset (GITHUB_PAT env) = false ->
            exists msg, outcome (handler host w env req) = Normal (error_400 msg))).
Proof.
  split; [| split; [reflexivity |]].
  - intros url o n. split.
    + destruct url as [| |b|x|s|l p|m]; try discriminate.
      intros H. apply parseGitHubUrl_string in H as (name & Hsplit & ->).
      apply split_url_spec in Hsplit as (tail & Hs & Htail & Ho & Hn & Fo & Fn).
      exists s, name, tail. repeat (split; [assumption || reflexivity |]).
      destruct (strip_dot_git name) as [b|] eqn:Eg.
      * left. apply strip_dot_git_spec in Eg. exact Eg.
      * right. split; [| reflexivity]. intros b Hb.
        apply strip_dot_git_spec in Hb. congruence.
    + intros (s & name & tail & -> & Hs & Htail & Ho & Hn & Fo & Fn & Hgit).
      apply parseGitHubUrl_string. exists name. split.
      * apply split_url_spec. exists tail. repeat (split; [assumption |]). assumption.
      * destruct Hgit as [Hgit | [Hno ->]].
        -- apply strip_dot_git_spec in Hgit. rewrite Hgit. reflexivity.
        -- destruct (strip_dot_git name) as [b|] eqn:Eg; [| reflexivity].
           apply strip_dot_git_spec in Eg. destruct (Hno b Eg).
  - intros host w env req githubUrl Hreq Hparse.
    destruct (handler_rejected_url host w env req githubUrl Hreq Hparse) as [Ht Ho].
    split; [exact Ht |]. intros H1 H2 H3. eexists. apply Ho; assumption.
Qed.

Example handler_not_a_url :
  handler sample_host always_503
    {| OPENAI_API_KEY := Some "sk"; GITHUB_PAT := Some "pat" |}
    {| method := "POST"; request_body := sample_bad_request_body |}
  = MkM [] (Normal (error_400 "Invalid GitHub URL format")).
Proof. vm_compute. reflexivity. Qed.

(** ** The metadata gatherer *)

Lemma try_catch_returns {A : Type} (body : M A) (a : A) :
  exists x, outcome (try_catch body (fun _ => mret a)) = Normal x.
Proof.
  unfold try_catch. destruct (outcome body) as [x|e] eqn:E.
  - exists x. exact E.
  - exists a. reflexivity.
Qed.

Lemma read_github_content_not_ok (host : Host) (r : Response) :
  ok r = false -> read_github_content host r = MkM [] (Normal None).
Proof.
  intros H. unfold read_github_content.
  destruct (status r =? 404)%nat; [reflexivity |]. rewrite H. reflexivity.
Qed.

Lemma read_github_content_trace (host : Host) (r : Response) :
  trace (read_github_content host r) = [].
Proof.
  unfold read_github_content.
  destruct (status r =? 404)%nat; [reflexivity |].
  destruct (ok r); [| reflexivity]. cbn.
  unfold lift, mbind, M_bind. cbn.
  destruct (response_json host r) as [data|]; [| reflexivity]. cbn.
  destruct (getProp data "content") as [c|]; [| reflexivity]. cbn.
  destruct (truthy c); [| reflexivity]. cbn.
  destruct (getProp data "encoding") as [e|]; [| reflexivity]. cbn.
  destruct (strict_eq_str e "base64"); [| reflexivity]. cbn.
  destruct (decode_content host c); reflexivity.
Qed.

(** A content fetcher is its request followed by steps that use no network. *)
Lemma content_fetcher_trace (host : Host) (request : M Response) :
  trace (try_catch (response ← request; read_github_content host response)
                   (fun _ => mret None))
  = trace request.
Proof.
  unfold try_catch, mbind, M_bind.
  destruct (outcome request) as [r|e] eqn:E; cbn [outcome trace].
  - pose proof (read_github_content_trace host r) as Ht.
    destruct (outcome (read_github_content host r)); cbn [trace];
      rewrite Ht; cbn; rewrite ?List.app_nil_r; reflexivity.
  - cbn. apply List.app_nil_r.
Qed.

Lemma content_fetcher_degraded (host : Host) (request : M Response) :
  not_ok (outcome request) ->
  outcome (try_catch (response ← request; read_github_content host response)
                     (fun _ => mret None))
  = Normal None.
Proof.
  unfold not_ok, try_catch, mbind, M_bind. intros H.
  destruct (outcome request) as [r|e]; cbn [outcome trace].
  - rewrite (read_github_content_not_ok host r H). reflexivity.
  - reflexivity.
Qed.

Lemma fetchGitHubCommits_trace (host : Host) (w : World) (owner repo token : string) :
  trace (fetchGitHubCommits host w owner repo token)
  = trace (fetchWithExponentialBackoff w (commits_url owner repo)
             (github_options token) 2 500).
Proof.
  unfold fetchGitHubCommits, try_catch, mbind, M_bind.
  destruct (outcome (fetchWithExponentialBackoff _ _ _ _ _)) as [r|e];
    cbn [outcome trace]; [| cbn; apply List.app_nil_r].
  destruct (ok r); cbn; [| apply List.app_nil_r].
  unfold lift, mbind, M_bind. cbn.
  destruct (response_json host r) as [commits|]; cbn; [| rewrite !List.app_nil_r; reflexivity].
  destruct (map_commits commits); cbn; rewrite !List.app_nil_r; reflexivity.
Qed.

Lemma fetchGitHubCommits_degraded (host : Host) (w : World) (owner repo token : string) :
  not_ok (outcome (fetchWithExponentialBackoff w (commits_url owner repo)
                     (github_options token) 2 500)) ->
  outcome (fetchGitHubCommits host w owner repo token) = Normal [].
Proof.
  unfold not_ok, fetchGitHubCommits, try_catch, mbind, M_bind. intros H.
  destruct (outcome (fetchWithExponentialBackoff _ _ _ _ _)) as [r|e];
    cbn [outcome trace]; [| reflexivity].
  rewrite H. reflexivity.
Qed.

(** The three fetchers return whatever the network does. *)
Lemma gather_returns (host : Host) (w : World) (repoInfo : GitHubRepo) (githubPat : string) :
  exists readmeContent packageJsonContent commitsData,
    outcome (gather host w repoInfo githubPat)
    = Normal (readmeContent, packageJsonContent, commitsData)
    /\ outcome (fetchGitHubReadme host w (owner repoInfo) (repo repoInfo) githubPat)
       = Normal readmeContent
    /\ outcome (fetchGitHubFile host w (owner repoInfo) (repo repoInfo)
                  "package.json" githubPat)
       = Normal packageJsonContent
    /\ outcome (fetchGitHubCommits host w (owner repoInfo) (repo repoInfo) githubPat)
       = Normal commitsData.
Proof.
  unfold gather, mbind, M_bind.
  destruct (try_catch_returns
              (response ← fetchWithExponentialBackoff w
                            (readme_url (owner repoInfo) (repo repoInfo))
                            (github_options githubPat) 2 500;
               read_github_content host response) None) as (a & Ha).
  destruct (try_catch_returns
              (response ← fetchWithExponentialBackoff w
                            (file_url (owner repoInfo) (repo repoInfo) "package.json")
                            (github_options githubPat) 2 500;
               read_github_content host response) None) as (b & Hb).
  destruct (try_catch_returns
              (response ← fetchWithExponentialBackoff w
                            (commits_url (owner repoInfo) (repo repoInfo))
                            (github_options githubPat) 2 500;
               if negb (ok response) then mret []
               else commits ← lift (response_json host response);
                    lift (map_commits commits)) []) as (c & Hc).
  exists a, b, c.
  fold (fetchGitHubReadme host w (owner repoInfo) (repo repoInfo) githubPat) in Ha.
  fold (fetchGitHubFile host w (owner repoInfo) (repo repoInfo) "package.json" githubPat) in Hb.
  fold (fetchGitHubCommits host w (owner repoInfo) (repo repoInfo) githubPat) in Hc.
  rewrite Ha. cbn [outcome trace]. rewrite Hb. cbn [outcome trace].
  rewrite Hc. cbn [outcome trace]. auto.
Qed.

(** ** The pipeline *)

Lemma handler_accepted (host : Host) (w : World) (env : Env) (req : Request)
    (url : string) (repoInfo : GitHubRepo) :
  String.eqb (method req) "OPTIONS" = false ->
  unset (OPENAI_API_KEY env) = false ->
  unset (GITHUB_PAT env) = false ->
  requested_url host req = Some (JStr url) ->
  parseGitHubUrl (JStr url) = Some repoInfo ->
  handler host w env req
  = try_catch (analyse host w (default EmptyString (OPENAI_API_KEY env))
                 (default EmptyString (GITHUB_PAT env)) url repoInfo)
              (fun error => mret (error_500 error)).
Proof.
  unfold requested_url, handler, handle. intros -> -> -> Hreq Hparse.
  destruct (JSON_parse host (request_body req)) as [json|]; [| discriminate].
  destruct (getProp json "githubUrl") as [g|] eqn:Eg; [| discriminate].
  injection Hreq as ->.
  assert (truthy (JStr url) = true) as Ht.
  { destruct url; [discriminate Hparse | reflexivity]. }
  f_equal. unfold lift, mbind at 1 2, M_bind. cbn [outcome trace].
  rewrite Eg. cbn [outcome trace]. rewrite Ht, Hparse. cbn [negb].
  unfold analyse.
  destruct (_ ≫= _) as [tr o]. reflexivity.
Qed.

Lemma fetcher_outcome (w : World) (url : string) (options : RequestInit)
    (maxRetries : nat) (initialDelay : Q) :
  outcome (fetchWithExponentialBackoff w url options maxRetries initialDelay)
  = settle (net w url (retries w url maxRetries)).
Proof. apply run_outcome. Qed.

(** The retries end at the first attempt that is not a retryable failure. *)
Lemma retries_from_exact (w : World) (url : string) (budget attempt k : nat) :
  (forall j, (attempt <= j < attempt + k)%nat -> retryable (net w url j) = true) ->
  retryable (net w url (attempt + k)) = false ->
  (k <= budget)%nat ->
  retries_from w url budget attempt = k.
Proof.
  revert attempt k. induction budget as [|budget IH]; intros attempt k Hpre Hk Hle.
  - cbn. lia.
  - cbn. destruct k as [|k].
    + rewrite Nat.add_0_r in Hk. rewrite Hk. reflexivity.
    + rewrite Hpre by lia. f_equal. apply IH; [| | lia].
      * intros j Hj. apply Hpre. lia.
      * replace (S attempt + k)%nat with (attempt + S k)%nat by lia. exact Hk.
Qed.

(** When the attempt that ends the inference call failed, the rest of the
    handler throws. *)
Lemma infer_fails (host : Host) (w : World) (openaiApiKey analysisPrompt : string) :
  failed (net w openai_url (retries w openai_url 3)) ->
  exists e, outcome (infer_and_interpret host w openaiApiKey analysisPrompt) = Throw e.
Proof.
  intros Hfail. unfold infer_and_interpret, mbind, M_bind.
  rewrite fetcher_outcome.
  destruct (net w openai_url (retries w openai_url 3)) as [r|e]; cbn [settle].
  - cbn in Hfail. rewrite Hfail. cbn. eexists. reflexivity.
  - exists e. reflexivity.
Qed.

Lemma analyse_fails (host : Host) (w : World) (openaiApiKey githubPat url : string)
    (repoInfo : GitHubRepo) :
  failed (net w openai_url (retries w openai_url 3)) ->
  exists e, outcome (analyse host w openaiApiKey githubPat url repoInfo) = Throw e.
Proof.
  intros Hfail. unfold analyse.
  destruct (gather_returns host w repoInfo githubPat) as (a & b & c & Hg & _).
  unfold mbind at 1, M_bind. rewrite Hg. cbn [outcome].
  unfold lift, mbind, M_bind. cbn [outcome trace].
  destruct (createDetailedAnalysisPrompt host url (make_repoData a b c)) as [prompt|e].
  - destruct (infer_fails host w openaiApiKey prompt Hfail) as (e & He).
    exists e. cbn. exact He.
  - exists e. reflexivity.
Qed.

(** C8: on an accepted request, when every attempt of the budget of the
    inference call fails (a response that is not 2xx, or a rejection), or
    when an attempt is answered by a failure that is not retried, the handler
    answers 500 with the error body, never a 200 with a result. *)
Theorem inference_failure_is_fatal (host : Host) (w : World) (env : Env) (req : Request)
    (url : string) (repoInfo : GitHubRepo) :
  String.eqb (method req) "OPTIONS" = false ->
  unset (OPENAI_API_KEY env) = false ->
  unset (GITHUB_PAT env) = false ->
  requested_url host req = Some (JStr url) ->
  parseGitHubUrl (JStr url) = Some repoInfo ->
  (forall k, (k <= 3)%nat -> failed (net w openai_url k))
  \/ (exists k r, (k <= 3)%nat
        /\ (forall j, (j < k)%nat -> retryable (net w openai_url j) = true)
        /\ net w openai_url k = Responded r
        /\ ok r = false /\ retryable_status (status r) = false) ->
  exists e,
    outcome (handler host w env req) = Normal (error_500 e)
    /\ http_status (error_500 e) = 500%nat
    /\ http_body (error_500 e)
       = BodyJson (JObj {[ "error" := JStr "Internal server error";
                           "details" := JStr (err_message e) ]}).
Proof.
  intros Hm Hk1 Hk2 Hreq Hparse Hfail.
  assert (failed (net w openai_url (retries w openai_url 3))) as Hlast.
  { destruct Hfail as [Hall | (k & r & Hk & Hpre & Hr & Hok & Hterm)].
    - apply Hall. apply retries_from_le.
    - assert (retries w openai_url 3 = k) as ->.
      { apply retries_from_exact; [| | exact Hk].
        - intros j Hj. apply Hpre. lia.
        - rewrite Nat.add_0_l, Hr. exact Hterm. }
      rewrite Hr. exact Hok. }
  rewrite (handler_accepted host w env req url repoInfo Hm Hk1 Hk2 Hreq Hparse).
  destruct (analyse_fails host w (default EmptyString (OPENAI_API_KEY env))
              (default EmptyString (GITHUB_PAT env)) url repoInfo Hlast) as (e & He).
  exists e. unfold try_catch. rewrite He. cbn. repeat split.
Qed.

Lemma commit_entries_textual (host : Host) (commits : list Commit) (prompt : string) :
  Forall textual commits -> exists lines, commit_entries host prompt commits = Normal lines.
Proof.
  intros H. revert prompt. induction H as [|commit commits Hc _ IH]; intros prompt.
  - exists prompt. reflexivity.
  - destruct Hc as (m & a & d & Hm & Ha & Hd).
    cbn [commit_entries]. unfold commit_entry. rewrite Hm, Ha, Hd. cbn. apply IH.
Qed.

(** The prompt is built whenever the commits are textual, with or without a
    README and a manifest. *)
Lemma createDetailedAnalysisPrompt_textual (host : Host) (url : string) (repoData : RepoData) :
  Forall textual (commits repoData) ->
  exists prompt, createDetailedAnalysisPrompt host url repoData = Normal prompt.
Proof.
  intros H. unfold createDetailedAnalysisPrompt, commits_section.
  destruct (commits repoData) as [|commit rest] eqn:E.
  - cbn. eexists. reflexivity.
  - assert (Forall textual (take 15 (commit :: rest))) as Ht.
    { apply Forall_take. exact H. }
    destruct (commit_entries_textual host (take 15 (commit :: rest))
                ("Recent Commit Messages (last " +:+ pretty (length (commit :: rest))
                 +:+ " commits):" +:+ nl) Ht) as (lines & Hl).
    rewrite Hl. cbn. eexists. reflexivity.
Qed.

Lemma infer_returns (host : Host) (w : World) (openaiApiKey analysisPrompt : string)
    (r : Response) (aiResponse : JsValue) :
  net w openai_url 0 = Responded r -> ok r = true ->
  completion_of host r = Normal aiResponse -> truthy aiResponse = true ->
  outcome (infer_and_interpret host w openaiApiKey analysisPrompt)
  = (analysisResult ← interpret host (parse_completion host aiResponse);
     Normal {| http_status := 200; http_body := BodyJson analysisResult |}).
Proof.
  intros Hnet Hok Hcompl Htruthy. unfold infer_and_interpret.
  rewrite run_first_final by (rewrite Hnet; apply ok_not_retryable, Hok).
  rewrite Hnet. unfold mbind at 1, M_bind. cbn [outcome trace settle]. rewrite Hok. cbn [negb].
  unfold completion_of in Hcompl. unfold lift, mbind, M_bind. cbn [outcome trace].
  destruct (response_json host r) as [data|]; [| discriminate]. cbn in Hcompl |- *.
  destruct (getProp data "choices") as [choices|]; [| discriminate]. cbn in Hcompl |- *.
  destruct (getProp choices "0") as [choice|]; [| discriminate]. cbn in Hcompl |- *.
  destruct (getPropOpt choice "message") as [msg|]; [| discriminate]. cbn in Hcompl |- *.
  rewrite Hcompl. cbn. rewrite Htruthy. cbn.
  destruct (interpret host (parse_completion host aiResponse)); reflexivity.
Qed.

Example end_to_end_bare_repository :
  outcome (handler sample_host bare_repository sample_env sample_request)
  = Normal {| http_status := 200; http_body := BodyJson sample_analysis |}
  /\ attempts (trace (handler sample_host bare_repository sample_env sample_request)) = 4%nat
  /\ waits (trace (handler sample_host bare_repository sample_env sample_request)) = [].
Proof. split; [| split]; vm_compute; reflexivity. Qed.

Lemma inference_failure_is_fatal_witness :
  exists e, outcome (handler sample_host always_503 sample_env sample_request)
            = Normal (error_500 e).
Proof.
  destruct (inference_failure_is_fatal sample_host always_503 sample_env sample_request
              "https://github.com/acme/widgets" {| owner := "acme"; repo := "widgets" |})
    as (e & He & _).
  - reflexivity.
  - reflexivity.
  - reflexivity.
  - reflexivity.
  - reflexivity.
  - left. intros k _. reflexivity.
  - exists e. exact He.
Defined.

(** The inference stage when the attempt that ends the call is answered 2xx. *)
Lemma infer_returns_at (host : Host) (w : World) (openaiApiKey analysisPrompt : string)
    (r : Response) (aiResponse : JsValue) :
  net w openai_url (retries w openai_url 3) = Responded r -> ok r = true ->
  completion_of host r = Normal aiResponse -> truthy aiResponse = true ->
  outcome (infer_and_interpret host w openaiApiKey analysisPrompt)
  = (analysisResult ← interpret host (parse_completion host aiResponse);
     Normal {| http_status := 200; http_body := BodyJson analysisResult |}).
Proof.
  intros Hnet Hok Hcompl Htruthy. unfold infer_and_interpret, mbind at 1, M_bind.
  rewrite fetcher_outcome, Hnet. cbn [settle outcome]. rewrite Hok. cbn [negb].
  unfold completion_of in Hcompl. unfold lift, mbind, M_bind. cbn [outcome trace].
  destruct (response_json host r) as [data|]; [| discriminate]. cbn in Hcompl |- *.
  destruct (getProp data "choices") as [choices|]; [| discriminate]. cbn in Hcompl |- *.
  destruct (getProp choices "0") as [choice|]; [| discriminate]. cbn in Hcompl |- *.
  destruct (getPropOpt choice "message") as [msg|]; [| discriminate]. cbn in Hcompl |- *.
  rewrite Hcompl. cbn. rewrite Htruthy. cbn.
  destruct (interpret host (parse_completion host aiResponse)); reflexivity.
Qed.

(** C7, as stated, fails when the README and the manifest are both answered
    404 and the completion is [{}]: the handler answers 200 with an object
    that has a score and a confidence of 50 and nothing else, neither an
    analysis nor indicators. *)
Lemma absent_metadata_partial_result :
  net terse_inference (readme_url "acme" "widgets") 0 = Responded response_404
  /\ net terse_inference (file_url "acme" "widgets" "package.json") 0
     = Responded response_404
  /\ outcome (handler terse_host terse_inference sample_env sample_request)
     = Normal {| http_status := 200;
                 http_body := BodyJson (JObj {[ "vciScore" := JNum (num 50);
                                                "confidence" := JNum (num 50) ]}) |}
  /\ getProp (JObj {[ "vciScore" := JNum (num 50); "confidence" := JNum (num 50) ]})
       "analysis" = Normal JUndefined
  /\ ~ indicators_present
        (JObj {[ "vciScore" := JNum (num 50); "confidence" := JNum (num 50) ]}).
Proof.
  split; [reflexivity |]. split; [reflexivity |].
  split; [vm_compute; reflexivity |].
  split; [vm_compute; reflexivity |].
  intros (ind & Hind & Harr).
  vm_compute in Hind. injection Hind as <-.
  destruct (Harr "codePatterns") as (a & Ha & _); [left; reflexivity |].
  vm_compute in Ha. discriminate.
Qed.

(** C7, amended: the gatherer returns a snapshot whatever the three fetches
    meet, and a fetch that ends otherwise than by a 2xx response (a 404, a
    response the fetcher gave up on, a rejection) leaves its field [null] or
    empty; and when the fetches of the README and of the manifest both end
    with a 404, the commits are textual, and the inference call ends, at
    whichever attempt, with a 2xx response whose completion parses to an
    object with numeric scores, the handler answers 200 with the sanitized
    result: the two scores in [0, 100], the analysis and the indicators as
    the completion gave them, absent when it gave none. *)
Theorem gatherer_total :
  (forall (host : Host) (w : World) (repoInfo : GitHubRepo) (githubPat : string),
     exists readmeContent packageJsonContent commitsData,
       outcome (gather host w repoInfo githubPat)
       = Normal (readmeContent, packageJsonContent, commitsData)
       /\ (not_ok (outcome (fetchWithExponentialBackoff w
                              (readme_url (owner repoInfo) (repo repoInfo))
                              (github_options githubPat) 2 500)) ->
           readmeContent = None)
       /\ (not_ok (outcome (fetchWithExponentialBackoff w
                              (file_url (owner repoInfo) (repo repoInfo) "package.json")
                              (github_options githubPat) 2 500)) ->
           packageJsonContent = None)
       /\ (not_ok (outcome (fetchWithExponentialBackoff w
                              (commits_url (owner repoInfo) (repo repoInfo))
                              (github_options githubPat) 2 500)) ->
           commitsData = []))
  /\ (forall (host : Host) (w : World) (env : Env) (req : Request) (url : string)
        (repoInfo : GitHubRepo) (r1 r2 r : Response) (commitsData : list Commit)
        (aiResponse : JsValue) (m : gmap string JsValue),
        String.eqb (method req) "OPTIONS" = false ->
        unset (OPENAI_API_KEY env) = false ->
        unset (GITHUB_PAT env) = false ->
        requested_url host req = Some (JStr url) ->
        parseGitHubUrl (JStr url) = Some repoInfo ->
        outcome (fetchWithExponentialBackoff w
                   (readme_url (owner repoInfo) (repo repoInfo))
                   (github_options (default EmptyString (GITHUB_PAT env))) 2 500)
        = Normal r1 ->
        status r1 = 404%nat ->
        outcome (fetchWithExponentialBackoff w
                   (file_url (owner repoInfo) (repo repoInfo) "package.json")
                   (github_options (default EmptyString (GITHUB_PAT env))) 2 500)
        = Normal r2 ->
        status r2 = 404%nat ->
        outcome (fetchGitHubCommits host w (owner repoInfo) (repo repoInfo)
                   (default EmptyString (GITHUB_PAT env))) = Normal commitsData ->
        Forall textual commitsData ->
        net w openai_url (retries w openai_url 3) = Responded r -> ok r = true ->
        completion_of host r = Normal aiResponse -> truthy aiResponse = true ->
        parse_completion host aiResponse = Some (JObj m) ->
        numeric_or_missing (field m "vciScore") ->
        numeric_or_missing (field m "confidence") ->
        exists result s c,
          outcome (handler host w env req)
          = Normal {| http_status := 200; http_body := BodyJson result |}
          /\ getProp result "vciScore" = Normal (JNum s) /\ in_range s
          /\ getProp result "confidence" = Normal (JNum c) /\ in_range c
          /\ getProp result "analysis" = Normal (field m "analysis")
          /\ getProp result "indicators" = Normal (field m "indicators")).
Proof.
  split.
  - intros host w repoInfo githubPat.
    destruct (gather_returns host w repoInfo githubPat) as (a & b & c & Hg & Ha & Hb & Hc).
    exists a, b, c. split; [exact Hg |]. split; [| split].
    + intros H. unfold fetchGitHubReadme in Ha.
      rewrite (content_fetcher_degraded host _ H) in Ha. congruence.
    + intros H. unfold fetchGitHubFile in Hb.
      rewrite (content_fetcher_degraded host _ H) in Hb. congruence.
    + intros H. rewrite (fetchGitHubCommits_degraded host w _ _ _ H) in Hc. congruence.
  - intros host w env req url repoInfo r1 r2 r commitsData aiResponse m
      Hm Hk1 Hk2 Hreq Hparse Hn1 H1 Hn2 H2 Hcommits Htext Hnet Hok Hcompl Htruthy
      Hparsed Hs Hc.
    rewrite (handler_accepted host w env req url repoInfo Hm Hk1 Hk2 Hreq Hparse).
    set (pat := default EmptyString (GITHUB_PAT env)) in *.
    set (key := default EmptyString (OPENAI_API_KEY env)).
    destruct (gather_returns host w repoInfo pat) as (a & b & c & Hg & Ha & Hb & Hcm).
    assert (a = None) as ->.
    { unfold fetchGitHubReadme in Ha. rewrite content_fetcher_degraded in Ha; [congruence |].
      rewrite Hn1. cbn. unfold ok. rewrite H1. reflexivity. }
    assert (b = None) as ->.
    { unfold fetchGitHubFile in Hb. rewrite content_fetcher_degraded in Hb; [congruence |].
      rewrite Hn2. cbn. unfold ok. rewrite H2. reflexivity. }
    assert (c = commitsData) as -> by congruence.
    destruct (createDetailedAnalysisPrompt_textual host url
                (make_repoData None None commitsData) Htext) as (prompt & Hprompt).
    destruct (clamp_or_50_number host _ Hs) as (s & Es & Rs & _).
    destruct (clamp_or_50_number host _ Hc) as (c & Ec & Rc & _).
    exists (JObj (<["confidence" := JNum c]> (<["vciScore" := JNum s]> m))), s, c.
    split.
    + unfold try_catch, analyse. unfold mbind at 1 3, M_bind. rewrite Hg. cbn [outcome trace].
      unfold lift, mbind at 1 3, M_bind. cbn [outcome trace]. rewrite Hprompt.
      cbn [outcome trace].
      rewrite (infer_returns_at host w key prompt r aiResponse Hnet Hok Hcompl Htruthy).
      rewrite Hparsed, interpret_object, Es, Ec. reflexivity.
    + cbn. rewrite lookup_insert_ne by discriminate. rewrite !lookup_insert_eq.
      rewrite !lookup_insert_ne by discriminate.
      repeat split; assumption.
Qed.

Lemma gatherer_total_witness :
  exists result,
    outcome (handler sample_host flaky_repository sample_env sample_request)
    = Normal {| http_status := 200; http_body := BodyJson result |}
    /\ getProp result "indicators" = Normal (field
         {[ "vciScore" := JNum (num 72);
            "analysis" := JStr "...";
            "confidence" := JNum (num 65);
            "indicators" := JObj {[ "codePatterns" := JArr [JStr "consistent formatting"] ∅;
                                     "commitPatterns" := JArr [] ∅;
                                     "documentationPatterns" := JArr [] ∅ ]} ]}
         "indicators").
Proof.
  destruct gatherer_total as [_ H].
  destruct (H sample_host flaky_repository sample_env sample_request
              "https://github.com/acme/widgets" {| owner := "acme"; repo := "widgets" |}
              {| status := 404; body := "Not Found" |}
              {| status := 404; body := "Not Found" |}
              {| status := 200; body := sample_openai_body |}
              (@nil Commit) (JStr sample_completion)
              {[ "vciScore" := JNum (num 72);
                 "analysis" := JStr "...";
                 "confidence" := JNum (num 65);
                 "indicators" := JObj {[ "codePatterns" := JArr [JStr "consistent formatting"] ∅;
                                          "commitPatterns" := JArr [] ∅;
                                          "documentationPatterns" := JArr [] ∅ ]} ]})
    as (result & s & c & Hout & _ & _ & _ & _ & _ & Hind);
    try (vm_compute; reflexivity).
  - constructor.
  - exists result. split; [exact Hout | exact Hind].
Defined.

(** ** The prompt *)

Lemma prompts_sent_app (tr1 tr2 : list Event) :
  prompts_sent (tr1 ++ tr2) = (prompts_sent tr1 ++ prompts_sent tr2)%list.
Proof.
  induction tr1 as [|[url init|ms] tr1 IH]; cbn; [reflexivity | | exact IH].
  destruct (user_content init); cbn; rewrite IH; reflexivity.
Qed.

(** Every call of a run of the fetcher carries the same options. *)
Lemma prompts_sent_fetcher (w : World) (url : string) (options : RequestInit)
    (maxRetries : nat) (initialDelay : Q) (p : string) :
  In p (prompts_sent (trace (fetchWithExponentialBackoff w url options
                               maxRetries initialDelay))) ->
  user_content options = Some p.
Proof.
  fold (run w url options maxRetries initialDelay). rewrite run_trace.
  generalize (seq 0 (retries w url maxRetries)). intros l. cbn.
  assert (forall l, In p (prompts_sent (flat_map (retry_events w url options initialDelay) l)) ->
                    user_content options = Some p) as Hretry.
  { clear l. induction l as [|k l IH]; cbn; [contradiction |].
    destruct (user_content options) as [q|]; cbn; [| exact IH].
    intros [-> | H]; [reflexivity | apply IH, H]. }
  destruct (user_content options) as [q|]; cbn.
  - intros [-> | H]; [reflexivity | apply (Hretry l H)].
  - apply (Hretry l).
Qed.

Lemma fetcher_github_silent (w : World) (url token : string)
    (maxRetries : nat) (initialDelay : Q) :
  prompts_sent (trace (fetchWithExponentialBackoff w url (github_options token)
                         maxRetries initialDelay)) = [].
Proof.
  destruct (prompts_sent _) as [|p l] eqn:E; [reflexivity |].
  assert (user_content (github_options token) = Some p) as H.
  { apply (prompts_sent_fetcher w url (github_options token) maxRetries initialDelay).
    rewrite E. left. reflexivity. }
  discriminate.
Qed.

(** The gatherer sends no prompt. *)
Lemma gather_silent (host : Host) (w : World) (repoInfo : GitHubRepo) (githubPat : string) :
  prompts_sent (trace (gather host w repoInfo githubPat)) = [].
Proof.
  destruct (gather_returns host w repoInfo githubPat) as (a & b & c & _ & Ha & Hb & Hc).
  unfold gather, mbind, M_bind. rewrite Ha. cbn [outcome trace].
  rewrite Hb. cbn [outcome trace]. rewrite Hc. cbn [outcome trace].
  rewrite !prompts_sent_app.
  unfold fetchGitHubReadme, fetchGitHubFile.
  rewrite !content_fetcher_trace, fetchGitHubCommits_trace, !fetcher_github_silent.
  reflexivity.
Qed.

(** After its request the inference stage uses no network. *)
Lemma infer_and_interpret_trace (host : Host) (w : World)
    (openaiApiKey analysisPrompt : string) :
  trace (infer_and_interpret host w openaiApiKey analysisPrompt)
  = trace (fetchWithExponentialBackoff w openai_url
             (openai_options openaiApiKey analysisPrompt) 3 1000).
Proof.
  unfold infer_and_interpret, mbind, M_bind.
  destruct (outcome (fetchWithExponentialBackoff _ _ _ _ _)) as [r|e]; [| reflexivity].
  cbn [outcome trace].
  destruct (ok r); cbn [negb]; [| cbn; apply List.app_nil_r].
  unfold lift, throw. cbn [outcome trace].
  destruct (response_json host r) as [data|]; cbn; [| apply List.app_nil_r].
  destruct (getProp data "choices") as [choices|]; cbn; [| apply List.app_nil_r].
  destruct (getProp choices "0") as [choice|]; cbn; [| apply List.app_nil_r].
  destruct (getPropOpt choice "message") as [msg|]; cbn; [| apply List.app_nil_r].
  destruct (getPropOpt msg "content") as [aiResponse|]; cbn; [| apply List.app_nil_r].
  destruct (truthy aiResponse); cbn; [| apply List.app_nil_r].
  destruct (interpret host (parse_completion host aiResponse)); cbn; apply List.app_nil_r.
Qed.

(** Every prompt a run of the pipeline sends is the prompt built from the
    URL of the request and the snapshot gathered. *)
Lemma analyse_prompt (host : Host) (w : World) (openaiApiKey githubPat url : string)
    (repoInfo : GitHubRepo) (p : string) :
  In p (prompts_sent (trace (analyse host w openaiApiKey githubPat url repoInfo))) ->
  exists readmeContent packageJsonContent commitsData,
    outcome (gather host w repoInfo githubPat)
    = Normal (readmeContent, packageJsonContent, commitsData)
    /\ createDetailedAnalysisPrompt host url
         (make_repoData readmeContent packageJsonContent commitsData) = Normal p.
Proof.
  destruct (gather_returns host w repoInfo githubPat) as (a & b & c & Hg & _).
  pose proof (gather_silent host w repoInfo githubPat) as Hsilent.
  unfold analyse. unfold mbind at 1, M_bind. rewrite Hg. cbn [outcome trace].
  rewrite prompts_sent_app, Hsilent. cbn [app].
  unfold lift, mbind, M_bind. cbn [outcome trace].
  destruct (createDetailedAnalysisPrompt host url (make_repoData a b c)) as [prompt|e] eqn:Ep;
    cbn [trace app prompts_sent]; [| contradiction].
  rewrite infer_and_interpret_trace. intros Hin.
  apply prompts_sent_fetcher in Hin. cbn in Hin. injection Hin as ->.
  exists a, b, c. split; [reflexivity | exact Ep].
Qed.

Lemma try_catch_silent {A : Type} (body : M A) (f : JsError -> A) :
  trace (try_catch body (fun e => mret (f e))) = trace body.
Proof.
  unfold try_catch. destruct (outcome body); [reflexivity |]. cbn. apply List.app_nil_r.
Qed.

(** A run of the handler uses the network only through [analyse]. *)
Lemma handler_trace (host : Host) (w : World) (env : Env) (req : Request) :
  trace (handler host w env req) = []
  \/ exists url repoInfo,
       requested_url host req = Some (JStr url)
       /\ parseGitHubUrl (JStr url) = Some repoInfo
       /\ trace (handler host w env req)
          = trace (analyse host w (default EmptyString (OPENAI_API_KEY env))
                     (default EmptyString (GITHUB_PAT env)) url repoInfo).
Proof.
  destruct (String.eqb (method req) "OPTIONS") eqn:Em.
  { left. unfold handler. rewrite Em. reflexivity. }
  destruct (unset (OPENAI_API_KEY env)) eqn:Ek1.
  { left. unfold handler, handle. rewrite Em, Ek1. reflexivity. }
  destruct (unset (GITHUB_PAT env)) eqn:Ek2.
  { left. unfold handler, handle. rewrite Em, Ek1, Ek2. reflexivity. }
  destruct (requested_url host req) as [g|] eqn:Ereq.
  - destruct (parseGitHubUrl g) as [repoInfo|] eqn:Eparse.
    + destruct g as [| |b|x|url|l p|m]; try discriminate.
      right. exists url, repoInfo. split; [reflexivity |]. split; [exact Eparse |].
      rewrite (handler_accepted host w env req url repoInfo Em Ek1 Ek2 Ereq Eparse).
      apply try_catch_silent.
    + left. apply (handler_rejected_url host w env req g Ereq Eparse).
  - left. unfold handler, handle, requested_url in *. rewrite Em, Ek1, Ek2.
    destruct (JSON_parse host (request_body req)) as [json|]; [| reflexivity].
    destruct (getProp json "githubUrl") eqn:Eg; [discriminate |].
    unfold try_catch, lift, mbind, M_bind. cbn [outcome trace]. rewrite Eg. reflexivity.
Qed.

(** C9: the prompt is a function of the URL and of the snapshot and of
    nothing else.  Two runs of the handler on the same request, in two
    worlds (other answers on the way, other retries, other random numbers)
    that gather the same snapshot, send the same prompt to the inference
    endpoint, and so do the retries of one run; that prompt is
    [createDetailedAnalysisPrompt] of the URL and the snapshot. *)
Theorem prompt_deterministic (host : Host) (w1 w2 : World) (env : Env) (req : Request)
    (url : string) (repoInfo : GitHubRepo) (p1 p2 : string) :
  requested_url host req = Some (JStr url) ->
  parseGitHubUrl (JStr url) = Some repoInfo ->
  outcome (gather host w1 repoInfo (default EmptyString (GITHUB_PAT env)))
  = outcome (gather host w2 repoInfo (default EmptyString (GITHUB_PAT env))) ->
  In p1 (prompts_sent (trace (handler host w1 env req))) ->
  In p2 (prompts_sent (trace (handler host w2 env req))) ->
  p1 = p2
  /\ exists readmeContent packageJsonContent commitsData,
       outcome (gather host w1 repoInfo (default EmptyString (GITHUB_PAT env)))
       = Normal (readmeContent, packageJsonContent, commitsData)
       /\ createDetailedAnalysisPrompt host url
            (make_repoData readmeContent packageJsonContent commitsData) = Normal p1.
Proof.
  intros Hreq Hparse Hsame H1 H2.
  destruct (handler_trace host w1 env req) as [E1 | (u1 & i1 & Hu1 & Hi1 & E1)];
    [rewrite E1 in H1; contradiction |].
  destruct (handler_trace host w2 env req) as [E2 | (u2 & i2 & Hu2 & Hi2 & E2)];
    [rewrite E2 in H2; contradiction |].
  rewrite Hreq in Hu1, Hu2. injection Hu1 as <-. injection Hu2 as <-.
  rewrite Hparse in Hi1, Hi2. injection Hi1 as <-. injection Hi2 as <-.
  rewrite E1 in H1. rewrite E2 in H2.
  apply analyse_prompt in H1 as (a1 & b1 & c1 & Hg1 & Hp1).
  apply analyse_prompt in H2 as (a2 & b2 & c2 & Hg2 & Hp2).
  rewrite Hsame, Hg2 in Hg1. injection Hg1 as <- <- <-.
  split; [congruence |].
  exists a2, b2, c2. split; [rewrite Hsame; exact Hg2 | exact Hp1].
Qed.

Lemma prompt_deterministic_witness :
  default EmptyString
    (head (prompts_sent (trace (handler sample_host bare_repository sample_env sample_request))))
  = default EmptyString
      (head (prompts_sent (trace (handler sample_host flaky_repository sample_env sample_request)))).
Proof.
  destruct (prompt_deterministic sample_host bare_repository flaky_repository
              sample_env sample_request "https://github.com/acme/widgets"
              {| owner := "acme"; repo := "widgets" |}
              (default EmptyString
                 (head (prompts_sent (trace (handler sample_host bare_repository
                                               sample_env sample_request)))))
              (default EmptyString
                 (head (prompts_sent (trace (handler sample_host flaky_repository
                                               sample_env sample_request))))))
    as [H _].
  - reflexivity.
  - reflexivity.
  - vm_compute. reflexivity.
  - vm_compute. left. reflexivity.
  - vm_compute. left. reflexivity.
  - exact H.
Defined.

Example prompt_of_bare_repository :
  prompts_sent (trace (handler sample_host bare_repository sample_env sample_request))
  = [ "Analyze this GitHub repository for AI development patterns: "
      +:+ "https://github.com/acme/widgets" +:+ nl +:+ nl
      +:+ "No README file found." +:+ nl +:+ nl
      +:+ "No package.json or key files found." +:+ nl +:+ nl
      +:+ "No commit history available." +:+ nl +:+ nl
      +:+ rubric ].
Proof. vm_compute. reflexivity. Qed.

Example flaky_run_waits :
  attempts (trace (handler sample_host flaky_repository sample_env sample_request)) = 6%nat
  /\ map Qred (waits (trace (handler sample_host flaky_repository sample_env sample_request)))
     = [525; 1050]
  /\ length (prompts_sent (trace (handler sample_host flaky_repository
                                    sample_env sample_request))) = 2%nat.
Proof. repeat split; vm_compute; reflexivity. Qed.

(** * Further properties of the edge function *)

(** ** Outcome and waiting time of the retrying fetcher *)

(** X1: the fetcher throws only when the last attempt of the budget is
    rejected, and then it throws the error of that rejection after
    [maxRetries + 1] calls; the error it would make up itself is never the
    outcome unless [fetch] rejected with it.  When every attempt is rejected
    it throws the error of the last one. *)
Theorem fetcher_throws_last_rejection (w : World) (url : string) (options : RequestInit)
    (maxRetries : nat) (initialDelay : Q) :
  let result := fetchWithExponentialBackoff w url options maxRetries initialDelay in
  (forall e, outcome result = Throw e ->
     net w url maxRetries = Rejected e
     /\ attempts (trace result) = S maxRetries
     /\ forall k, (k < maxRetries)%nat -> retryable (net w url k) = true)
  /\ (forall r, outcome result = Normal r ->
        exists k, (k <= maxRetries)%nat /\ net w url k = Responded r
                  /\ attempts (trace result) = S k
                  /\ (retryable_status (status r) = true -> k = maxRetries))
  /\ ((forall k, (k <= maxRetries)%nat -> exists e, net w url k = Rejected e) ->
      exists e, net w url maxRetries = Rejected e /\ outcome result = Throw e).
Proof.
  cbv zeta. fold (run w url options maxRetries initialDelay).
  rewrite run_outcome, run_attempts.
  pose proof (retries_from_le w url maxRetries 0) as Hle.
  fold (retries w url maxRetries) in Hle.
  assert ((retries w url maxRetries < maxRetries)%nat ->
          retryable (net w url (retries w url maxRetries)) = false) as Hstop.
  { intros Hlt. apply (retries_from_stop w url maxRetries 0 Hlt). }
  assert (forall k, (k < retries w url maxRetries)%nat -> retryable (net w url k) = true)
    as Hpre.
  { intros k Hk. apply (retries_from_retryable w url maxRetries 0 k Hk). }
  split; [| split].
  - intros e He.
    destruct (net w url (retries w url maxRetries)) as [r|e'] eqn:En; [discriminate |].
    injection He as ->.
    assert (retries w url maxRetries = maxRetries) as Heq.
    { destruct (Nat.lt_ge_cases (retries w url maxRetries) maxRetries) as [Hlt | Hge];
        [| lia].
      specialize (Hstop Hlt). discriminate. }
    rewrite Heq in *. split; [exact En |]. split; [reflexivity | exact Hpre].
  - intros r Hr.
    destruct (net w url (retries w url maxRetries)) as [r'|e'] eqn:En; [| discriminate].
    injection Hr as ->. exists (retries w url maxRetries).
    split; [exact Hle |]. split; [exact En |]. split; [reflexivity |].
    intros Hretry.
    destruct (Nat.lt_ge_cases (retries w url maxRetries) maxRetries) as [Hlt | Hge];
      [| lia].
    specialize (Hstop Hlt). cbn in Hstop. congruence.
  - intros Hall.
    assert (retries w url maxRetries = maxRetries) as Heq.
    { apply retries_from_all. intros k Hk. destruct (Hall k) as (e & ->); [lia |].
      reflexivity. }
    rewrite Heq. destruct (Hall maxRetries) as (e & He); [lia |].
    exists e. rewrite He. split; reflexivity.
Qed.

Lemma fold_right_Qplus_app (l1 l2 : list Q) :
  fold_right Qplus 0 (l1 ++ l2) == fold_right Qplus 0 l1 + fold_right Qplus 0 l2.
Proof.
  induction l1 as [|x l1 IH]; cbn.
  - ring.
  - rewrite IH. ring.
Qed.

(** The waits of [n] retries add up to between the plain delays, which sum
    to [initialDelay * (2^n - 1)], and eleven tenths of them. *)
Lemma sum_waits_bounds (w : World) (url : string) (initialDelay : Q) (n : nat) :
  0 <= initialDelay -> (forall k, 0 <= random w url k < 1) ->
  initialDelay * (pow2 n - 1)
  <= fold_right Qplus 0
       (map (fun k => totalDelay initialDelay k (random w url k)) (seq 0 n))
  <= (11 # 10) * initialDelay * (pow2 n - 1).
Proof.
  intros Hd Hrnd. induction n as [|n IH].
  - assert (pow2 0 == 1) as H0 by reflexivity.
    cbn [seq map fold_right]. rewrite H0. split; lra.
  - rewrite seq_S, map_app, fold_right_Qplus_app. cbn [map fold_right Nat.add].
    pose proof (jitter_bounds initialDelay n (random w url n) Hd (Hrnd n)) as [Hj0 Hj1].
    pose proof (pow2_succ n) as HS.
    destruct IH as [IH1 IH2].
    set (total := fold_right Qplus 0 (map _ (seq 0 n))) in *.
    unfold totalDelay.
    assert (delay initialDelay n == initialDelay * pow2 n) as HD by reflexivity.
    assert (0 <= initialDelay * pow2 n) as Hpos.
    { apply Qmult_le_0_compat; [exact Hd | apply Qlt_le_weak, pow2_pos]. }
    rewrite HS. rewrite HD in Hj1. split.
    + rewrite HD. nra.
    + rewrite HD. nra.
Qed.

Lemma pow2_le (n m : nat) : (n <= m)%nat -> pow2 n <= pow2 m.
Proof.
  intros H. unfold pow2. rewrite <- Zle_Qle.
  apply Z.pow_le_mono_r; lia.
Qed.

Lemma fetcher_total_wait (w : World) (url : string) (options : RequestInit)
    (maxRetries : nat) (initialDelay : Q) :
  0 <= initialDelay -> (forall k, 0 <= random w url k < 1) ->
  0 <= total_wait (trace (fetchWithExponentialBackoff w url options maxRetries initialDelay))
    <= (11 # 10) * initialDelay * (pow2 maxRetries - 1).
Proof.
  intros Hd Hrnd. unfold total_wait.
  fold (run w url options maxRetries initialDelay). rewrite run_waits.
  pose proof (sum_waits_bounds w url initialDelay (retries w url maxRetries) Hd Hrnd)
    as [Hlo Hhi].
  pose proof (pow2_le _ _ (retries_from_le w url maxRetries 0)) as Hmono.
  fold (retries w url maxRetries) in Hmono.
  pose proof (pow2_le 0 (retries w url maxRetries) (Nat.le_0_l _)) as H1.
  assert (pow2 0 == 1) as H0 by reflexivity. rewrite H0 in H1.
  set (total := fold_right Qplus 0 _) in *.
  set (P := pow2 (retries w url maxRetries)) in *.
  set (Pm := pow2 maxRetries) in *.
  split; nra.
Qed.



(** ** What the handler answers, calls and waits for *)

Lemma attempts_app (tr1 tr2 : list Event) :
  attempts (tr1 ++ tr2) = (attempts tr1 + attempts tr2)%nat.
Proof.
  induction tr1 as [|[u i|ms] tr1 IH]; cbn; [reflexivity | rewrite IH; reflexivity | exact IH].
Qed.

Lemma waits_app (tr1 tr2 : list Event) : waits (tr1 ++ tr2) = (waits tr1 ++ waits tr2)%list.
Proof.
  induction tr1 as [|[u i|ms] tr1 IH]; cbn; [reflexivity | exact IH | rewrite IH; reflexivity].
Qed.

Lemma total_wait_app (tr1 tr2 : list Event) :
  total_wait (tr1 ++ tr2) == total_wait tr1 + total_wait tr2.
Proof. unfold total_wait. rewrite waits_app. apply fold_right_Qplus_app. Qed.

(** The gatherer is its three fetchers one after the other. *)
Lemma gather_trace (host : Host) (w : World) (repoInfo : GitHubRepo) (githubPat : string) :
  trace (gather host w repoInfo githubPat)
  = (trace (fetchWithExponentialBackoff w (readme_url (owner repoInfo) (repo repoInfo))
              (github_options githubPat) 2 500)
     ++ trace (fetchWithExponentialBackoff w
                 (file_url (owner repoInfo) (repo repoInfo) "package.json")
                 (github_options githubPat) 2 500)
     ++ trace (fetchWithExponentialBackoff w (commits_url (owner repoInfo) (repo repoInfo))
                 (github_options githubPat) 2 500))%list.
Proof.
  destruct (gather_returns host w repoInfo githubPat) as (a & b & c & _ & Ha & Hb & Hc).
  unfold gather, mbind, M_bind. rewrite Ha. cbn [outcome trace].
  rewrite Hb. cbn [outcome trace]. rewrite Hc. cbn [outcome trace].
  unfold fetchGitHubReadme, fetchGitHubFile.
  rewrite !content_fetcher_trace, fetchGitHubCommits_trace, List.app_nil_r. reflexivity.
Qed.

(** After the gatherer, [analyse] makes the inference call or no call. *)
Lemma analyse_trace (host : Host) (w : World) (openaiApiKey githubPat url : string)
    (repoInfo : GitHubRepo) :
  exists rest,
    trace (analyse host w openaiApiKey githubPat url repoInfo)
    = (trace (gather host w repoInfo githubPat) ++ rest)%list
    /\ (rest = []
        \/ exists prompt,
             rest = trace (fetchWithExponentialBackoff w openai_url
                             (openai_options openaiApiKey prompt) 3 1000)).
Proof.
  destruct (gather_returns host w repoInfo githubPat) as (a & b & c & Hg & _).
  unfold analyse. unfold mbind at 1, M_bind. rewrite Hg. cbn [outcome trace].
  unfold lift, mbind, M_bind. cbn [outcome trace].
  destruct (createDetailedAnalysisPrompt host url (make_repoData a b c)) as [prompt|e].
  - eexists. split; [reflexivity |]. right. exists prompt. cbn [app].
    apply infer_and_interpret_trace.
  - exists []. split; [reflexivity | left; reflexivity].
Qed.

Lemma fetcher_attempts_le (w : World) (url : string) (options : RequestInit)
    (maxRetries : nat) (initialDelay : Q) :
  (attempts (trace (fetchWithExponentialBackoff w url options maxRetries initialDelay))
   <= S maxRetries)%nat.
Proof.
  fold (run w url options maxRetries initialDelay). rewrite run_attempts.
  pose proof (retries_from_le w url maxRetries 0). unfold retries. lia.
Qed.

(** X3: the handler makes at most 13 calls to [fetch] for one request (three
    for each of the three metadata resources and four for the inference
    endpoint), and, [Math.random()] being in [0, 1), its timers add up to at
    most 12650 milliseconds. *)
Theorem handler_call_budget (host : Host) (w : World) (env : Env) (req : Request) :
  (attempts (trace (handler host w env req)) <= 13)%nat
  /\ ((forall url k, 0 <= random w url k < 1) ->
      total_wait (trace (handler host w env req)) <= 12650).
Proof.
  destruct (handler_trace host w env req) as [E | (url & repoInfo & _ & _ & E)];
    rewrite E.
  - split; [cbn; lia | intros _; discriminate].
  - set (key := default EmptyString (OPENAI_API_KEY env)).
    set (pat := default EmptyString (GITHUB_PAT env)).
    destruct (analyse_trace host w key pat url repoInfo) as (rest & -> & Hrest).
    rewrite gather_trace. split.
    + rewrite !attempts_app.
      pose proof (fetcher_attempts_le w (readme_url (owner repoInfo) (repo repoInfo))
                    (github_options pat) 2 500).
      pose proof (fetcher_attempts_le w
                    (file_url (owner repoInfo) (repo repoInfo) "package.json")
                    (github_options pat) 2 500).
      pose proof (fetcher_attempts_le w (commits_url (owner repoInfo) (repo repoInfo))
                    (github_options pat) 2 500).
      destruct Hrest as [-> | (prompt & ->)].
      * cbn [attempts]. lia.
      * pose proof (fetcher_attempts_le w openai_url (openai_options key prompt) 3 1000).
        lia.
    + intros Hrnd. rewrite !total_wait_app.
      assert (forall u o, total_wait (trace (fetchWithExponentialBackoff w u o 2 500)) <= 1650)
        as Hgit.
      { intros u o.
        pose proof (fetcher_total_wait w u o 2 500) as H.
        destruct H as [_ H]; [discriminate | apply Hrnd |].
        assert (pow2 2 == 4) as H4 by reflexivity. rewrite H4 in H. lra. }
      pose proof (Hgit (readme_url (owner repoInfo) (repo repoInfo)) (github_options pat)).
      pose proof (Hgit (file_url (owner repoInfo) (repo repoInfo) "package.json")
                    (github_options pat)).
      pose proof (Hgit (commits_url (owner repoInfo) (repo repoInfo)) (github_options pat)).
      destruct Hrest as [-> | (prompt & ->)].
      * assert (total_wait [] == 0) as Hnil by reflexivity. rewrite Hnil. lra.
      * pose proof (fetcher_total_wait w openai_url (openai_options key prompt) 3 1000)
          as Hai.
        destruct Hai as [_ Hai]; [discriminate | apply Hrnd |].
        assert (pow2 3 == 8) as Hp by reflexivity. rewrite Hp in Hai. lra.
Qed.

Example flaky_run_within_budget :
  attempts (trace (handler sample_host flaky_repository sample_env sample_request)) = 6%nat
  /\ Qred (total_wait (trace (handler sample_host flaky_repository sample_env sample_request)))
     = 1575.
Proof. split; vm_compute; reflexivity. Qed.

Lemma calls_satisfy_app (P : string -> RequestInit -> Prop) (tr1 tr2 : list Event) :
  calls_satisfy P tr1 -> calls_satisfy P tr2 -> calls_satisfy P (tr1 ++ tr2).
Proof. unfold calls_satisfy. intros H1 H2. apply Forall_app. split; assumption. Qed.

(** Every call of a run of the fetcher goes to its URL with its options. *)
Lemma fetcher_calls (P : string -> RequestInit -> Prop) (w : World) (url : string)
    (options : RequestInit) (maxRetries : nat) (initialDelay : Q) :
  P url options ->
  calls_satisfy P (trace (fetchWithExponentialBackoff w url options maxRetries initialDelay)).
Proof.
  intros HP. fold (run w url options maxRetries initialDelay). rewrite run_trace.
  unfold calls_satisfy. constructor; [exact HP |].
  induction (seq 0 (retries w url maxRetries)) as [|k l IH]; cbn; [constructor |].
  constructor; [exact I |]. constructor; [exact HP | exact IH].
Qed.

(** X4: whatever the request and the network, every call the handler makes
    is either the inference call, to the OpenAI endpoint with the OpenAI key
    as bearer and a prompt, or a metadata call, to one of the three GitHub
    URLs of the repository parsed from the request, with the GitHub token and
    no prompt: no credential is sent to the other service. *)
Theorem handler_calls_segregated (host : Host) (w : World) (env : Env) (req : Request) :
  calls_satisfy
    (fun url init =>
       (url = openai_url
        /\ authorization init = "Bearer " +:+ default EmptyString (OPENAI_API_KEY env)
        /\ exists prompt, user_content init = Some prompt)
       \/ (exists githubUrl repoInfo,
             requested_url host req = Some githubUrl
             /\ parseGitHubUrl githubUrl = Some repoInfo
             /\ (url = readme_url (owner repoInfo) (repo repoInfo)
                 \/ url = file_url (owner repoInfo) (repo repoInfo) "package.json"
                 \/ url = commits_url (owner repoInfo) (repo repoInfo))
             /\ authorization init = "token " +:+ default EmptyString (GITHUB_PAT env)
             /\ user_content init = None))
    (trace (handler host w env req)).
Proof.
  destruct (handler_trace host w env req) as [E | (url & repoInfo & Hreq & Hparse & E)];
    rewrite E; [constructor |].
  set (key := default EmptyString (OPENAI_API_KEY env)).
  set (pat := default EmptyString (GITHUB_PAT env)).
  destruct (analyse_trace host w key pat url repoInfo) as (rest & -> & Hrest).
  rewrite gather_trace.
  repeat apply calls_satisfy_app.
  - apply fetcher_calls. right. exists (JStr url), repoInfo. cbn. auto 10.
  - apply fetcher_calls. right. exists (JStr url), repoInfo. cbn. auto 10.
  - apply fetcher_calls. right. exists (JStr url), repoInfo. cbn. auto 10.
  - destruct Hrest as [-> | (prompt & ->)]; [constructor |].
    apply fetcher_calls. left. cbn. split; [reflexivity |]. split; [reflexivity |].
    exists prompt. reflexivity.
Qed.

(** What [infer_and_interpret] returns, it returns after a 2xx response. *)
Lemma infer_returns_after_ok (host : Host) (w : World) (openaiApiKey analysisPrompt : string)
    (resp : HttpResponse) :
  outcome (infer_and_interpret host w openaiApiKey analysisPrompt) = Normal resp ->
  exists r result,
    net w openai_url (retries w openai_url 3) = Responded r /\ ok r = true
    /\ resp = {| http_status := 200; http_body := BodyJson result |}.
Proof.
  unfold infer_and_interpret, mbind, M_bind. rewrite fetcher_outcome.
  destruct (net w openai_url (retries w openai_url 3)) as [r|e]; cbn [settle];
    [| discriminate].
  destruct (ok r) eqn:Hok; cbn [negb]; [| discriminate].
  unfold lift, throw. cbn [outcome trace].
  destruct (response_json host r) as [data|]; cbn; [| discriminate].
  destruct (getProp data "choices") as [choices|]; cbn; [| discriminate].
  destruct (getProp choices "0") as [choice|]; cbn; [| discriminate].
  destruct (getPropOpt choice "message") as [msg|]; cbn; [| discriminate].
  destruct (getPropOpt msg "content") as [aiResponse|]; cbn; [| discriminate].
  destruct (truthy aiResponse); cbn; [| discriminate].
  destruct (interpret host (parse_completion host aiResponse)) as [result|]; cbn;
    [| discriminate].
  intros [= <-]. exists r, result. auto.
Qed.

Lemma analyse_returns_after_ok (host : Host) (w : World) (openaiApiKey githubPat url : string)
    (repoInfo : GitHubRepo) (resp : HttpResponse) :
  outcome (analyse host w openaiApiKey githubPat url repoInfo) = Normal resp ->
  exists r result,
    net w openai_url (retries w openai_url 3) = Responded r /\ ok r = true
    /\ resp = {| http_status := 200; http_body := BodyJson result |}.
Proof.
  destruct (gather_returns host w repoInfo githubPat) as (a & b & c & Hg & _).
  unfold analyse. unfold mbind at 1, M_bind. rewrite Hg. cbn [outcome].
  unfold lift, mbind, M_bind. cbn [outcome trace].
  destruct (createDetailedAnalysisPrompt host url (make_repoData a b c)) as [prompt|e];
    [| discriminate].
  cbn [outcome]. apply infer_returns_after_ok.
Qed.

(** X5: the handler answers every request, whatever the host, the network
    and the environment: it never rejects.  The status is 200, 400 or 500;
    400 only for a request whose [githubUrl] is missing or not accepted by
    the parser, when both credentials are set; and 200 with a JSON body only
    after an attempt at the inference endpoint was answered 2xx. *)
Theorem handler_always_answers (host : Host) (w : World) (env : Env) (req : Request) :
  exists resp,
    outcome (handler host w env req) = Normal resp
    /\ (http_status resp = 200%nat \/ http_status resp = 400%nat \/ http_status resp = 500%nat)
    /\ (http_status resp = 400%nat ->
        unset (OPENAI_API_KEY env) = false /\ unset (GITHUB_PAT env) = false
        /\ exists githubUrl, requested_url host req = Some githubUrl
                             /\ parseGitHubUrl githubUrl = None)
    /\ (http_status resp = 200%nat ->
        (String.eqb (method req) "OPTIONS" = true /\ http_body resp = BodyText "ok")
        \/ exists result r k,
             http_body resp = BodyJson result
             /\ (k <= 3)%nat /\ net w openai_url k = Responded r /\ ok r = true).
Proof.
  destruct (String.eqb (method req) "OPTIONS") eqn:Em.
  { unfold handler. rewrite Em. eexists. split; [reflexivity |]. cbn.
    split; [auto |]. split; [discriminate | auto]. }
  destruct (unset (OPENAI_API_KEY env)) eqn:Ek1.
  { unfold handler, handle. rewrite Em, Ek1. eexists. split; [reflexivity |]. cbn.
    split; [auto |]. split; discriminate. }
  destruct (unset (GITHUB_PAT env)) eqn:Ek2.
  { unfold handler, handle. rewrite Em, Ek1, Ek2. eexists. split; [reflexivity |]. cbn.
    split; [auto |]. split; discriminate. }
  destruct (requested_url host req) as [g|] eqn:Ereq.
  - destruct (parseGitHubUrl g) as [repoInfo|] eqn:Eparse.
    + destruct g as [| |b|x|url|l p|m]; try discriminate.
      rewrite (handler_accepted host w env req url repoInfo Em Ek1 Ek2 Ereq Eparse).
      unfold try_catch.
      destruct (outcome (analyse host w _ _ url repoInfo)) as [resp|e] eqn:Ea.
      * destruct (analyse_returns_after_ok _ _ _ _ _ _ _ Ea) as (r & result & Hr & Hok & ->).
        eexists. split; [exact Ea |]. cbn. split; [auto |]. split; [discriminate |].
        intros _. right. exists result, r, (retries w openai_url 3).
        split; [reflexivity |]. split; [apply retries_from_le |]. auto.
      * eexists. split; [reflexivity |]. cbn. split; [auto |]. split; discriminate.
    + destruct (handler_rejected_url host w env req g Ereq Eparse) as [_ Ho].
      rewrite (Ho Em Ek1 Ek2). eexists. split; [reflexivity |]. cbn.
      split; [auto |]. split; [| discriminate].
      intros _. split; [reflexivity |]. split; [reflexivity |]. exists g. auto.
  - unfold handler, handle, requested_url in *. rewrite Em, Ek1, Ek2.
    unfold try_catch, lift, mbind, M_bind.
    destruct (JSON_parse host (request_body req)) as [json|]; cbn [outcome trace].
    + destruct (getProp json "githubUrl") eqn:Eg; [discriminate |].
      cbn [outcome trace]. eexists. split; [reflexivity |]. cbn.
      split; [auto |]. split; discriminate.
    + eexists. split; [reflexivity |]. cbn. split; [auto |]. split; discriminate.
Qed.

(** ** Sanitizing twice *)

Lemma clamp_number_cases (host : Host) (q : Q) :
  clamp_or_50 host (JNum (Fin q))
  = Normal (if Qeq_bool q 0 then num 50
            else if Qle_bool (inject_Z 100) q then num 100
            else if Qle_bool (inject_Z 0) q then Fin q
            else num 0).
Proof.
  unfold clamp_or_50, or_else, truthy.
  destruct (Qeq_bool q 0); [reflexivity |]. cbn.
  unfold Math_min, Math_max, num, num_leb.
  destruct (Qle_bool (inject_Z 100) q); [reflexivity |].
  destruct (Qle_bool (inject_Z 0) q); reflexivity.
Qed.

(** X6: the sanitizing expression [Math.max(0, Math.min(100, x || 50))] is
    not idempotent.  Applied to its own result it changes nothing, except
    that a result of zero becomes 50; and the result is zero exactly when
    the score is a negative number.  So a negative score, clamped to 0 by
    the edge function, becomes 50 when the expression is applied again. *)
Theorem sanitize_twice (host : Host) (x : JsValue) (n : JsNum) :
  numeric_or_missing x ->
  clamp_or_50 host x = Normal n ->
  clamp_or_50 host (JNum n) = Normal (if truthy (JNum n) then n else num 50)
  /\ (truthy (JNum n) = false <-> exists y, x = JNum y /\ negative y).
Proof.
  intros Hx. destruct x as [| |b|y|s|l p|m]; simpl in Hx; try contradiction.
  - intros [= <-]. split; [reflexivity |].
    split; [discriminate | intros (y & H & _); discriminate].
  - intros [= <-]. split; [reflexivity |].
    split; [discriminate | intros (y & H & _); discriminate].
  - destruct b; intros [= <-]; (split; [reflexivity |]);
      (split; [discriminate | intros (y & H & _); discriminate]).
  - destruct y as [| | |q].
    + intros [= <-]. split; [reflexivity |].
      split; [discriminate | intros (y & [= <-] & H); contradiction].
    + intros [= <-]. split; [reflexivity |].
      split; [discriminate | intros (y & [= <-] & H); contradiction].
    + intros [= <-]. split; [reflexivity |].
      split; [intros _; exists NegInf; split; [reflexivity | exact I] | reflexivity].
    + rewrite clamp_number_cases.
      destruct (Qeq_bool q 0) eqn:E0.
      * intros [= <-]. split; [reflexivity |].
        split; [discriminate |]. intros (y & [= <-] & H). cbn in H.
        apply Qeq_bool_iff in E0. rewrite E0 in H. discriminate.
      * destruct (Qle_bool (inject_Z 100) q) eqn:E100.
        -- intros [= <-]. split; [reflexivity |].
           split; [discriminate |]. intros (y & [= <-] & H). cbn in H.
           apply Qle_bool_iff in E100. unfold inject_Z in E100. lra.
        -- destruct (Qle_bool (inject_Z 0) q) eqn:Epos.
           ++ intros [= <-]. rewrite clamp_number_cases, E0, E100, Epos.
              unfold truthy. rewrite E0. cbn [negb]. split; [reflexivity |].
              split; [discriminate |]. intros (y & [= <-] & H). cbn in H.
              apply Qle_bool_iff in Epos. unfold inject_Z in Epos. lra.
           ++ intros [= <-]. split; [reflexivity |].
              split; [| reflexivity]. intros _. exists (Fin q). split; [reflexivity |].
              cbn. apply Qle_bool_false in Epos. exact Epos.
Qed.

Lemma sanitize_twice_witness :
  clamp_or_50 sample_host (JNum (num (-5))) = Normal (num 0)
  /\ clamp_or_50 sample_host (JNum (num 0)) = Normal (num 50).
Proof.
  destruct (sanitize_twice sample_host (JNum (num (-5))) (num 0)) as [H _].
  - exact I.
  - reflexivity.
  - split; [reflexivity | exact H].
Defined.

(** ** What the prompt reads *)

(** The cut counts code units: it keeps at most [n] of them, keeps a text
    that has no more whole, and on ASCII text is the cut after [n]
    characters. *)
Lemma code_units_take (n pending : nat) (s : string) :
  (code_units pending (take_units n pending s) <= n)%nat.
Proof.
  revert n pending. induction s as [|c s IH]; intros n pending; [cbn; lia |].
  destruct pending as [|p]; [| cbn [take_units code_units]; apply IH].
  cbn [take_units]. destruct (utf8_sequence c) as [bytes units] eqn:E.
  destruct (Nat.leb_spec units n) as [Hle | Hgt].
  - cbn [code_units]. rewrite E. specialize (IH (n - units)%nat (bytes - 1)%nat). lia.
  - destruct n as [|[|n]]; [cbn; lia | | cbn; lia].
    destruct s as [|b1 [|b2 s]]; [cbn; lia | cbn; lia |].
    unfold high_surrogate. cbn [code_units].
    change (utf8_sequence (ascii_of_nat 237)) with (3, 1)%nat. cbn. lia.
Qed.

Lemma take_units_all (n pending : nat) (s : string) :
  (code_units pending s <= n)%nat -> take_units n pending s = s.
Proof.
  revert n pending. induction s as [|c s IH]; intros n pending H; [reflexivity |].
  destruct pending as [|p]; cbn [take_units code_units] in *.
  - destruct (utf8_sequence c) as [bytes units].
    assert ((units <=? n)%nat = true) as -> by (apply Nat.leb_le; lia).
    f_equal. apply IH. lia.
  - f_equal. apply IH. exact H.
Qed.

Lemma substring_to_ascii (n : nat) (s : string) :
  ascii_only s = true -> substring_to n s = String.substring 0 n s.
Proof.
  unfold substring_to, ascii_only. revert n.
  induction s as [|c s IH]; intros n H; [destruct n; reflexivity |].
  cbn [all_in] in H. apply andb_true_iff in H as [Hc Hs].
  cbn [take_units]. unfold utf8_sequence.
  apply Nat.ltb_lt in Hc.
  assert ((nat_of_ascii c <? 192)%nat = true) as -> by (apply Nat.ltb_lt; lia).
  destruct n as [|n]; [reflexivity |].
  cbn [Nat.leb Nat.sub String.substring]. rewrite Nat.sub_0_r. f_equal. apply IH. exact Hs.
Qed.

Example substring_counts_code_units :
  substring_to 2 ("a" +:+ e_acute +:+ "b") = "a" +:+ e_acute
  /\ substring_to 1 grinning_face
     = String (ascii_of_nat 237) (String (ascii_of_nat 160)
         (String (ascii_of_nat 189) EmptyString))
  /\ substring_to 1 beaming_face = substring_to 1 grinning_face
  /\ substring_to 2 (grinning_face +:+ "a") = grinning_face
  /\ code_units 0 (e_acute +:+ grinning_face) = 3%nat.
Proof. repeat split; vm_compute; reflexivity. Qed.











(** ** The commits and the contents fetched *)

Lemma mapM_completion_Forall2 {A B : Type} (f : A -> Completion B) (l : list A) (k : list B) :
  Forall2 (fun a b => f a = Normal b) l k -> mapM f l = Normal k.
Proof.
  induction 1 as [|a b l k Hab _ IH]; [reflexivity |].
  cbn. rewrite Hab. cbn. rewrite IH. reflexivity.
Qed.

Lemma mapM_completion_Exists {A B : Type} (f : A -> Completion B) (l : list A) :
  Exists (fun a => exists e, f a = Throw e) l -> exists e, mapM f l = Throw e.
Proof.
  induction 1 as [a l (e & He) | a l _ (e & IH)].
  - exists e. cbn. rewrite He. reflexivity.
  - cbn. destruct (f a) as [b|e']; cbn.
    + exists e. rewrite IH. reflexivity.
    + exists e'. reflexivity.
Qed.

(** X8: the commits are taken all or none.  When the commits request ends
    with a 2xx response whose body is a JSON array, the fetcher returns one
    commit per element, in order, each made of [commit.message],
    [commit.author.name] and [commit.author.date], provided every element
    has a [commit] with an [author]; if a single element lacks them the
    fetcher returns the empty list, as it does for a body that is not an
    array. *)
Theorem commits_all_or_none (host : Host) (w : World) (owner repo token : string)
    (r : Response) (commits : JsValue) :
  outcome (fetchWithExponentialBackoff w (commits_url owner repo)
             (github_options token) 2 500) = Normal r ->
  ok r = true ->
  response_json host r = Normal commits ->
  (forall elems expando commitsData,
     commits = JArr elems expando ->
     Forall2 (fun elem commit => commit_of_json elem = Normal commit) elems commitsData ->
     outcome (fetchGitHubCommits host w owner repo token) = Normal commitsData
     /\ length commitsData = length elems)
  /\ (forall elems expando,
        commits = JArr elems expando ->
        Exists (fun elem => exists e, commit_of_json elem = Throw e) elems ->
        outcome (fetchGitHubCommits host w owner repo token) = Normal [])
  /\ ((forall elems expando, commits <> JArr elems expando) ->
      outcome (fetchGitHubCommits host w owner repo token) = Normal [])
  /\ (forall c a, c !! "author" = Some (JObj a) ->
        commit_of_json (JObj {[ "commit" := JObj c ]})
        = Normal {| message := field c "message";
                    author := field a "name";
                    date := field a "date" |})
  /\ (forall m, m !! "commit" = None -> exists e, commit_of_json (JObj m) = Throw e)
  /\ (forall c, c !! "author" = None ->
        exists e, commit_of_json (JObj {[ "commit" := JObj c ]}) = Throw e).
Proof.
  intros Hout Hok Hjson.
  assert (outcome (fetchGitHubCommits host w owner repo token)
          = match map_commits commits with
            | Normal commitsData => Normal commitsData
            | Throw _ => Normal []
            end) as Hfetch.
  { unfold fetchGitHubCommits, try_catch, mbind, M_bind.
    rewrite Hout. cbn [outcome trace]. rewrite Hok. cbn [negb].
    unfold lift. cbn [outcome trace]. rewrite Hjson. cbn [outcome trace].
    destruct (map_commits commits); reflexivity. }
  rewrite Hfetch. split; [| split; [| split; [| split; [| split]]]].
  - intros elems expando commitsData -> HF. cbn [map_commits].
    rewrite (mapM_completion_Forall2 _ _ _ HF).
    split; [reflexivity | symmetry; apply (Forall2_length _ _ _ HF)].
  - intros elems expando -> HE. cbn [map_commits].
    destruct (mapM_completion_Exists _ _ HE) as (e & ->). reflexivity.
  - intros Hnot. destruct commits as [| |b|n|s|elems expando|m]; try reflexivity.
    destruct (Hnot elems expando eq_refl).
  - intros c a Ha. unfold commit_of_json, field. cbn. rewrite !lookup_singleton_eq. cbn.
    rewrite Ha. reflexivity.
  - intros m Hm. unfold commit_of_json. cbn. rewrite Hm. cbn. eexists. reflexivity.
  - intros c Hc. unfold commit_of_json. cbn. rewrite !lookup_singleton_eq. cbn.
    rewrite Hc. cbn. eexists. reflexivity.
Qed.

Lemma commits_all_or_none_witness :
  outcome (fetchGitHubCommits commits_host committed_repository "acme" "widgets" "ghp-sample")
  = Normal [ {| message := JStr "Initial commit"; author := JStr "Ada";
                date := JStr "2025-06-08T12:00:00Z" |} ].
Proof.
  destruct (commits_all_or_none commits_host committed_repository "acme" "widgets"
              "ghp-sample" {| status := 200; body := sample_commits_body |}
              (JArr [sample_commit_json] ∅)) as (H & _).
  - vm_compute. reflexivity.
  - reflexivity.
  - vm_compute. reflexivity.
  - apply (H [sample_commit_json] ∅); [reflexivity |].
    constructor; [vm_compute; reflexivity | constructor].
Defined.

Lemma remove_newlines_free (s : string) : free_of newline (remove_newlines s) = true.
Proof.
  induction s as [|a s IH]; [reflexivity |]. cbn [remove_newlines].
  fold newline. destruct (Ascii.eqb a newline) eqn:E; [exact IH |].
  cbn [free_of]. rewrite E, IH. reflexivity.
Qed.

Lemma remove_newlines_id (s : string) : free_of newline s = true -> remove_newlines s = s.
Proof.
  induction s as [|a s IH]; [reflexivity |]. cbn [free_of remove_newlines]. fold newline.
  intros H. apply andb_true_iff in H as [Ha Hs].
  destruct (Ascii.eqb a newline); [discriminate |]. rewrite (IH Hs). reflexivity.
Qed.

Lemma remove_newlines_app (s t : string) :
  remove_newlines (s +:+ t) = remove_newlines s +:+ remove_newlines t.
Proof.
  induction s as [|a s IH]; [reflexivity |].
  rewrite string_app_cons. cbn [remove_newlines].
  destruct (Ascii.eqb a (ascii_of_nat 10)); [exact IH |].
  rewrite string_app_cons, IH. reflexivity.
Qed.

(** What a content fetcher makes of a 2xx response carrying an object with
    a non-empty [content] string. *)
Lemma content_fetcher_decoding (host : Host) (request : M Response)
    (r : Response) (m : gmap string JsValue) (s : string) :
  outcome request = Normal r ->
  ok r = true ->
  response_json host r = Normal (JObj m) ->
  m !! "content" = Some (JStr s) -> s <> EmptyString ->
  outcome (try_catch (response ← request; read_github_content host response)
                     (fun _ => mret None))
  = if strict_eq_str (field m "encoding") "base64"
    then Normal match decode_base64_text host (remove_newlines s) with
                | Normal text => Some text
                | Throw _ => None
                end
    else Normal None.
Proof.
  intros Hout Hok Hjson Hcontent Hs.
  assert ((status r =? 404)%nat = false) as H404.
  { unfold ok in Hok. apply andb_true_iff in Hok as [_ H]. apply Nat.leb_le in H.
    apply Nat.eqb_neq. lia. }
  assert (truthy (JStr s) = true) as Ht.
  { destruct s; [contradiction | reflexivity]. }
  unfold try_catch, mbind, M_bind. rewrite Hout. cbn [outcome trace].
  unfold read_github_content. rewrite H404, Hok. cbn [negb].
  unfold lift, mbind, M_bind. cbn [outcome trace]. rewrite Hjson. cbn [outcome trace getProp].
  rewrite Hcontent. cbn [default outcome trace id]. rewrite Ht. cbn [outcome trace].
  fold (field m "encoding").
  destruct (strict_eq_str (field m "encoding") "base64"); cbn [outcome trace];
    [| reflexivity].
  cbn [decode_content].
  destruct (decode_base64_text host (remove_newlines s)); reflexivity.
Qed.

(** X9: when the request of the README or of a file ends with a 2xx
    response carrying a JSON object with a non-empty [content] string, the
    fetcher decodes that content with its line feeds removed if [encoding]
    is [base64], so that where the line feeds are makes no difference; a
    content that does not decode gives [null], not an exception; and any
    other [encoding], or none, gives [null]. *)
Theorem content_decoding (host : Host) (w : World) (owner repo path token : string)
    (url : string) (fetched : M (option string))
    (r : Response) (m : gmap string JsValue) (s : string) :
  (url, fetched) = (file_url owner repo path, fetchGitHubFile host w owner repo path token)
  \/ (url, fetched) = (readme_url owner repo, fetchGitHubReadme host w owner repo token) ->
  outcome (fetchWithExponentialBackoff w url (github_options token) 2 500) = Normal r ->
  ok r = true ->
  response_json host r = Normal (JObj m) ->
  m !! "content" = Some (JStr s) -> s <> EmptyString ->
  (m !! "encoding" = Some (JStr "base64") ->
     outcome fetched
     = Normal match decode_base64_text host (remove_newlines s) with
              | Normal text => Some text
              | Throw _ => None
              end)
  /\ (m !! "encoding" <> Some (JStr "base64") -> outcome fetched = Normal None)
  /\ free_of newline (remove_newlines s) = true
  /\ (forall a b, s = a +:+ String newline b ->
        remove_newlines s = remove_newlines (a +:+ b)).
Proof.
  intros Hwhich Hout Hok Hjson Hcontent Hs.
  assert (outcome fetched
          = if strict_eq_str (field m "encoding") "base64"
            then Normal match decode_base64_text host (remove_newlines s) with
                        | Normal text => Some text
                        | Throw _ => None
                        end
            else Normal None) as Hfetch.
  { destruct Hwhich as [E | E]; inversion E; subst url fetched;
      [unfold fetchGitHubFile | unfold fetchGitHubReadme];
      exact (content_fetcher_decoding host _ r m s Hout Hok Hjson Hcontent Hs). }
  rewrite Hfetch. split; [| split; [| split]].
  - intros He. unfold field. rewrite He. reflexivity.
  - intros He. unfold field.
    destruct (m !! "encoding") as [[| |b|n|t|l p|o]|]; try reflexivity.
    cbn. destruct (String.eqb_spec t "base64") as [-> | N]; [contradiction | reflexivity].
  - apply remove_newlines_free.
  - intros a b ->. rewrite !remove_newlines_app. cbn [remove_newlines].
    unfold newline. rewrite Ascii.eqb_refl. reflexivity.
Qed.

Lemma content_decoding_witness :
  outcome (fetchGitHubFile commits_host committed_repository "acme" "widgets"
             "package.json" "ghp-sample") = Normal (Some "{}")
  /\ remove_newlines ("e30" +:+ String newline "=") = "e30=".
Proof.
  destruct (content_decoding commits_host committed_repository "acme" "widgets"
              "package.json" "ghp-sample" _ _
              {| status := 200; body := sample_file_body |}
              {[ "content" := JStr ("e30" +:+ String newline "=");
                 "encoding" := JStr "base64" ]}
              ("e30" +:+ String newline "=") (or_introl eq_refl))
    as (H & _ & _ & Hn).
  - vm_compute. reflexivity.
  - reflexivity.
  - vm_compute. reflexivity.
  - vm_compute. reflexivity.
  - discriminate.
  - split.
    + rewrite H; [vm_compute; reflexivity | vm_compute; reflexivity].
    + apply (Hn "e30" "="). reflexivity.
Defined.

(** * Properties of the submission page *)

(** ** The URLs the form lets through *)

Lemma accepts_lit (p : string) (r : SubmitPage.Pattern) (s : string) (k : string -> bool) :
  SubmitPage.accepts (SubmitPage.lit p r) s k
  = match strip_prefix p s with
    | Some t => SubmitPage.accepts r t k
    | None => false
    end.
Proof.
  revert s. induction p as [|a p IH]; intros s; cbn; [reflexivity |].
  destruct s as [|b s]; [reflexivity |].
  destruct (Ascii.eqb b a); [apply IH | reflexivity].
Qed.

Lemma span_class_app (cls : ascii -> bool) (s : string) :
  s = fst (span_class cls s) +:+ snd (span_class cls s)
  /\ all_in cls (fst (span_class cls s)) = true
  /\ leaves cls (snd (span_class cls s)).
Proof.
  induction s as [|a s IH]; cbn; [repeat split |].
  destruct (cls a) eqn:Ea; cbn; [| repeat split; exact Ea].
  destruct (span_class cls s) as [p r]. cbn [fst snd] in *.
  destruct IH as (E & F & S).
  split; [rewrite string_app_cons; f_equal; exact E |]. split; [| exact S].
  cbn. rewrite Ea, F. reflexivity.
Qed.

Lemma span_class_unique (cls : ascii -> bool) (p r : string) :
  all_in cls p = true -> leaves cls r -> span_class cls (p +:+ r) = (p, r).
Proof.
  intros F S. induction p as [|a p IH].
  - rewrite string_app_nil. destruct r as [|b r]; [reflexivity |]. cbn in S.
    cbn. rewrite S. reflexivity.
  - cbn in F. apply andb_true_iff in F as [Na F].
    rewrite string_app_cons. cbn [span_class]. rewrite Na, (IH F). reflexivity.
Qed.

Section GreedyClass.
Variable cls : ascii -> bool.
Variable k : string -> bool.
Hypothesis k_stops : forall a t, cls a = true -> k (String a t) = false.

(** A continuation that fails inside the class makes the repetition take
    the longest run. *)
Lemma star_class_greedy (s : string) :
  SubmitPage.star_class cls s k = k (snd (span_class cls s)).
Proof.
  induction s as [|a s IH]; cbn; [reflexivity |].
  destruct (cls a) eqn:Ea; [| reflexivity].
  rewrite IH. destruct (span_class cls s) as [p r]. cbn.
  rewrite (k_stops a s Ea). apply orb_false_r.
Qed.

Lemma plus_class_greedy (s : string) :
  SubmitPage.plus_class cls s k
  = match fst (span_class cls s) with
    | EmptyString => false
    | String _ _ => k (snd (span_class cls s))
    end.
Proof.
  destruct s as [|a s]; cbn; [reflexivity |].
  destruct (cls a) eqn:Ea; [| reflexivity].
  rewrite star_class_greedy. destruct (span_class cls s) as [p r]. reflexivity.
Qed.
End GreedyClass.

Lemma name_char_not_slash (a : ascii) : SubmitPage.name_char a = true -> a <> "/"%char.
Proof. intros H ->. vm_compute in H. discriminate. Qed.

Lemma name_chars_free_of_slash (s : string) :
  all_in SubmitPage.name_char s = true -> free_of "/" s = true.
Proof.
  induction s as [|a s IH]; [reflexivity |]. cbn. intros H.
  apply andb_true_iff in H as [Ha Hs]. rewrite (IH Hs).
  destruct (Ascii.eqb_spec a "/") as [E|N]; [| reflexivity].
  exfalso. exact (name_char_not_slash a Ha E).
Qed.

Lemma isValidGitHubUrl_spec (url : string) :
  SubmitPage.isValidGitHubUrl url = true <-> exists o n tail, form_url url o n tail.
Proof.
  unfold SubmitPage.isValidGitHubUrl, SubmitPage.test, SubmitPage.githubRegex, form_url.
  rewrite accepts_lit.
  assert (forall a t,
            SubmitPage.name_char a = true ->
            SubmitPage.accepts
              (SubmitPage.Seq (SubmitPage.Opt (SubmitPage.Chr "/")) SubmitPage.Eos)
              (String a t) (fun _ => true) = false) as Hk2.
  { intros a t Ha. cbn.
    destruct (Ascii.eqb_spec a "/") as [E|N];
      [exfalso; exact (name_char_not_slash a Ha E) | reflexivity]. }
  split.
  - destruct (strip_prefix "https://github.com/" url) as [t|] eqn:Ep; [| discriminate].
    apply strip_prefix_app in Ep. cbn [SubmitPage.accepts].
    rewrite plus_class_greedy
      by (intros a t' Ha; cbn; destruct (Ascii.eqb_spec a "/") as [E|N];
          [exfalso; exact (name_char_not_slash a Ha E) | reflexivity]).
    destruct (span_class_app SubmitPage.name_char t) as (Et & Fo & _).
    destruct (span_class SubmitPage.name_char t) as [o r1]. cbn [fst snd] in *.
    destruct o as [|c o]; [discriminate |].
    destruct r1 as [|b t2]; [discriminate |].
    destruct (Ascii.eqb_spec b "/") as [->|N]; [| discriminate]. cbn [andb].
    rewrite plus_class_greedy by exact Hk2.
    destruct (span_class_app SubmitPage.name_char t2) as (Et2 & Fn & _).
    destruct (span_class SubmitPage.name_char t2) as [n r2]. cbn [fst snd] in *.
    destruct n as [|d n]; [discriminate |].
    intros H. exists (String c o), (String d n), r2.
    split.
    { rewrite Ep, Et, Et2. reflexivity. }
    split.
    { destruct r2 as [|e r3]; [left; reflexivity |]. right.
      cbn in H. destruct (Ascii.eqb_spec e "/") as [->|]; [| discriminate].
      destruct r3; [reflexivity | discriminate]. }
    repeat split; [discriminate | discriminate | exact Fo | exact Fn].
  - intros (o & n & tail & -> & Ht & Ho & Hn & Fo & Fn).
    rewrite (proj2 (strip_prefix_app "https://github.com/" _ _) eq_refl).
    cbn [SubmitPage.accepts].
    rewrite plus_class_greedy
      by (intros a t' Ha; cbn; destruct (Ascii.eqb_spec a "/") as [E|N];
          [exfalso; exact (name_char_not_slash a Ha E) | reflexivity]).
    rewrite (span_class_unique SubmitPage.name_char o ("/" +:+ n +:+ tail) Fo)
      by reflexivity.
    cbn [fst snd]. destruct o as [|c o]; [contradiction |].
    change ("/" +:+ n +:+ tail) with (String "/" (n +:+ tail)).
    cbn [SubmitPage.accepts]. rewrite Ascii.eqb_refl. cbn [andb].
    rewrite plus_class_greedy by exact Hk2.
    rewrite (span_class_unique SubmitPage.name_char n tail Fn)
      by (destruct Ht as [-> | ->]; [exact I | reflexivity]).
    cbn [fst snd]. destruct n as [|d n]; [contradiction |].
    destruct Ht as [-> | ->]; reflexivity.
Qed.

(** ** The repository name the page stores *)

Lemma match_first_hit (r : Regex.Regex) (s : string) (caps : list string) :
  Regex.match_anchored r s = Some caps -> SubmitPage.match_first r s = Some caps.
Proof. intros H. destruct s; cbn [SubmitPage.match_first]; rewrite H; reflexivity. Qed.

Lemma match_first_skip (c a : ascii) (p : string) (r : Regex.Regex) (s : string) :
  a <> c ->
  SubmitPage.match_first (Regex.lit (String c p) r) (String a s)
  = SubmitPage.match_first (Regex.lit (String c p) r) s.
Proof.
  intros N. cbn [SubmitPage.match_first]. unfold Regex.match_anchored at 1.
  rewrite run_lit. cbn [strip_prefix].
  destruct (Ascii.eqb_spec a c); [contradiction | reflexivity].
Qed.

(** A continuation that succeeds makes the repetition take the longest run. *)
Lemma star_none_of_first {R : Type} (c : ascii) (k : string -> option R) (s : string) (x : R) :
  k (snd (span_none_of c s)) = Some x -> Regex.star_none_of c s k = Some x.
Proof.
  induction s as [|a s IH]; cbn; [auto |].
  destruct (Ascii.eqb_spec a c) as [->|N]; [auto |].
  destruct (span_none_of c s) as [p r]. cbn [snd] in *.
  intros H. rewrite (IH H). reflexivity.
Qed.

Lemma extractRepoName_form (url o n tail : string) :
  form_url url o n tail ->
  SubmitPage.extractRepoName url = default n (strip_dot_git n).
Proof.
  intros (-> & Ht & Ho & Hn & Fo & Fn).
  apply name_chars_free_of_slash in Fo, Fn.
  unfold SubmitPage.extractRepoName.
  assert (SubmitPage.match_first SubmitPage.repoNameRegex
            ("https://github.com/" +:+ o +:+ "/" +:+ n +:+ tail) = Some [n]) as ->.
  { change ("https://github.com/" +:+ o +:+ "/" +:+ n +:+ tail)
      with (String "h" (String "t" (String "t" (String "p" (String "s" (String ":"
             (String "/" (String "/"
                ("github.com/" +:+ o +:+ "/" +:+ n +:+ tail))))))))).
    unfold SubmitPage.repoNameRegex.
    rewrite !match_first_skip by discriminate.
    apply match_first_hit. unfold Regex.match_anchored. rewrite run_lit.
    rewrite (proj2 (strip_prefix_app "github.com/" _ _) eq_refl).
    cbn [Regex.run].
    rewrite plus_none_of_greedy
      by (intros a t' Ha; destruct (Ascii.eqb_spec a "/"); [contradiction | reflexivity]).
    rewrite (span_none_of_unique "/" o ("/" +:+ n +:+ tail) Fo) by reflexivity.
    cbn [fst snd]. destruct o as [|c o]; [contradiction |].
    change ("/" +:+ n +:+ tail) with (String "/" (n +:+ tail)).
    cbn [Regex.run]. rewrite Ascii.eqb_refl.
    destruct n as [|d n]; [contradiction |].
    rewrite string_app_cons. cbn [Regex.plus_none_of].
    cbn [free_of] in Fn. apply andb_true_iff in Fn as [Nd Fn].
    destruct (Ascii.eqb d "/"); [discriminate |].
    apply star_none_of_first.
    rewrite (span_none_of_unique "/" n tail Fn)
      by (destruct Ht as [-> | ->]; [exact I | reflexivity]).
    cbn [snd app]. f_equal. f_equal.
    rewrite <- string_app_cons. apply consumed_app. }
  apply replace_dotGit.
Qed.

(** X10: the form accepts exactly the URLs [https://github.com/o/n], with
    or without a final slash, whose owner [o] and name [n] are non-empty
    and made of letters, digits, [_], [.] and [-].  The parser of the edge
    function accepts every one of them, and the repository name the page
    stores with the project is the name the edge function analyses, a final
    [.git] removed in both. *)
Theorem validated_url_is_parsed (url : string) :
  (SubmitPage.isValidGitHubUrl url = true <-> exists o n tail, form_url url o n tail)
  /\ (SubmitPage.isValidGitHubUrl url = true ->
      exists g, parseGitHubUrl (JStr url) = Some g
                /\ SubmitPage.extractRepoName url = repo g
                /\ all_in SubmitPage.name_char (owner g) = true).
Proof.
  split; [apply isValidGitHubUrl_spec |].
  intros H. apply isValidGitHubUrl_spec in H as (o & n & tail & Hform).
  exists {| owner := o; repo := default n (strip_dot_git n) |}.
  split; [| split].
  - apply parseGitHubUrl_string. exists n. split; [| reflexivity].
    destruct Hform as (E & Ht & Ho & Hn & Fo & Fn).
    apply split_url_spec. exists tail.
    repeat split; auto using name_chars_free_of_slash.
  - exact (extractRepoName_form url o n tail Hform).
  - destruct Hform as (_ & _ & _ & _ & Fo & _). exact Fo.
Qed.

(** ** The analysis the page fetches *)

Lemma clamp_or_50_sanitized (host : Host) (x : JsValue) (n : JsNum) :
  clamp_or_50 host x = Normal n -> sanitized n.
Proof.
  unfold clamp_or_50, mbind, completion_bind.
  destruct (ToNumber host (or_else x (JNum (num 50)))) as [m|e]; [| discriminate].
  intros [= <-]. destruct m as [| | |q].
  - left. reflexivity.
  - right. apply (clamp_in_range PosInf). discriminate.
  - right. apply (clamp_in_range NegInf). discriminate.
  - right. apply (clamp_in_range (Fin q)). discriminate.
Qed.

Lemma or_else_truthy (a b : JsValue) : truthy b = true -> truthy (or_else a b) = true.
Proof. intros Hb. unfold or_else. destruct (truthy a) eqn:Ea; [exact Ea | exact Hb]. Qed.

Lemma indicator_truthy (data : JsValue) (k : string) (v : JsValue) :
  SubmitPage.indicator data k = Normal v -> truthy v = true.
Proof.
  unfold SubmitPage.indicator, mbind, completion_bind.
  destruct (getProp data "indicators") as [i|]; [| discriminate].
  destruct (getPropOpt i k) as [p|]; [| discriminate].
  intros [= <-]. apply or_else_truthy. reflexivity.
Qed.

(** What a validated analysis is made of. *)
Lemma validate_returns (host : Host) (data : JsValue) (a : SubmitPage.AIAnalysisResult) :
  SubmitPage.validate host data = Normal a ->
  (exists v, getProp data "vciScore" = Normal v /\ clamp_or_50 host v = Normal (SubmitPage.vciScore a))
  /\ (exists c, getProp data "confidence" = Normal c
                /\ clamp_or_50 host c = Normal (SubmitPage.confidence a))
  /\ truthy (SubmitPage.analysis a) = true
  /\ truthy (SubmitPage.codePatterns (SubmitPage.indicators a)) = true
  /\ truthy (SubmitPage.commitPatterns (SubmitPage.indicators a)) = true
  /\ truthy (SubmitPage.documentationPatterns (SubmitPage.indicators a)) = true.
Proof.
  unfold SubmitPage.validate, mbind, completion_bind.
  destruct (getProp data "vciScore") as [v|]; [| discriminate].
  destruct (clamp_or_50 host v) as [score|] eqn:Es; [| discriminate].
  destruct (getProp data "analysis") as [an|]; [| discriminate].
  destruct (getProp data "confidence") as [c|]; [| discriminate].
  destruct (clamp_or_50 host c) as [conf|] eqn:Ec; [| discriminate].
  destruct (SubmitPage.indicator data "codePatterns") as [p1|] eqn:E1; [| discriminate].
  destruct (SubmitPage.indicator data "commitPatterns") as [p2|] eqn:E2; [| discriminate].
  destruct (SubmitPage.indicator data "documentationPatterns") as [p3|] eqn:E3;
    [| discriminate].
  intros [= <-]. cbn.
  split; [exists v; split; [reflexivity | exact Es] |].
  split; [exists c; split; [reflexivity | exact Ec] |].
  split; [apply or_else_truthy; reflexivity |].
  split; [exact (indicator_truthy _ _ _ E1) |].
  split; [exact (indicator_truthy _ _ _ E2) | exact (indicator_truthy _ _ _ E3)].
Qed.

(** The fetch of the analysis, run from any state of the page. *)
Lemma fetchAiAnalysis_run (host : Host) (backend : string -> string -> SubmitPage.Invoked)
    (url : string) (s : SubmitPage.PageState) :
  SubmitPage.fetchAiAnalysis host backend url s
  = SubmitPage.MkRan
      {| SubmitPage.analyzingRepo := false; SubmitPage.error := None |}
      [("analyze-repo", url)]
      match backend "analyze-repo" url with
      | SubmitPage.RejectedWith reason =>
          inr (SubmitPage.ThrownError (Error (SubmitPage.message_of reason)))
      | SubmitPage.Resolved data err =>
          if truthy err then
            match (m ← getProp err "message";
                   ToString host (or_else m (JStr "Failed to analyze repository"))) with
            | Normal msg => inr (SubmitPage.ThrownError (Error msg))
            | Throw e => inr (SubmitPage.ThrownError (Error (err_message e)))
            end
          else if negb (truthy data) then
            inr (SubmitPage.ThrownError (Error "No analysis data received"))
          else
            match SubmitPage.validate host data with
            | Normal a => inl a
            | Throw e => inr (SubmitPage.ThrownError (Error (err_message e)))
            end
      end.
Proof.
  unfold SubmitPage.fetchAiAnalysis, SubmitPage.try_finally, SubmitPage.try_catch,
    SubmitPage.bind, SubmitPage.functions_invoke, SubmitPage.setAnalyzingRepo,
    SubmitPage.setError, SubmitPage.throw.
  cbn [SubmitPage.result SubmitPage.page SubmitPage.invoked SubmitPage.analyzingRepo
       SubmitPage.error].
  destruct (backend "analyze-repo" url) as [data err | reason];
    cbn [SubmitPage.result SubmitPage.page SubmitPage.invoked SubmitPage.analyzingRepo
         SubmitPage.error app]; [| reflexivity].
  destruct (truthy err).
  - destruct (m ← getProp err "message";
              ToString host (or_else m (JStr "Failed to analyze repository"))) as [msg|e];
      reflexivity.
  - destruct (truthy data); cbn [negb]; [| reflexivity].
    destruct (SubmitPage.validate host data) as [a|e]; reflexivity.
Qed.

(** X11: however the invocation of the edge function ends, the fetch of
    the analysis makes that one invocation, clears the error of the page and
    leaves its progress flag off.  What it throws is always an [Error]: the
    message of the error the invocation reported (an error wins over data),
    [No analysis data received] when there is neither error nor data, the
    message of a rejection, or a fixed one for a rejection that carries no
    [Error].  What it returns comes from data the invocation reported
    without error: both scores NaN or within 0 to 100 (within, when the
    field is a number, a boolean, [null] or missing), the analysis and the
    three indicator lists truthy. *)
Theorem fetchAiAnalysis_protocol (host : Host)
    (backend : string -> string -> SubmitPage.Invoked) (url : string)
    (s : SubmitPage.PageState) :
  let r := SubmitPage.fetchAiAnalysis host backend url s in
  SubmitPage.page r = {| SubmitPage.analyzingRepo := false; SubmitPage.error := None |}
  /\ SubmitPage.invoked r = [("analyze-repo", url)]
  /\ (forall e, SubmitPage.result r = inr e ->
        exists msg, e = SubmitPage.ThrownError (Error msg))
  /\ (forall data m msg,
        backend "analyze-repo" url = SubmitPage.Resolved data (JObj m) ->
        m !! "message" = Some (JStr msg) -> msg <> EmptyString ->
        SubmitPage.result r = inr (SubmitPage.ThrownError (Error msg)))
  /\ (forall data err,
        backend "analyze-repo" url = SubmitPage.Resolved data err ->
        truthy err = false -> truthy data = false ->
        SubmitPage.result r
        = inr (SubmitPage.ThrownError (Error "No analysis data received")))
  /\ (forall reason,
        backend "analyze-repo" url = SubmitPage.RejectedWith reason ->
        SubmitPage.result r
        = inr (SubmitPage.ThrownError
                 (Error match reason with
                        | SubmitPage.ThrownError e => err_message e
                        | SubmitPage.ThrownValue _ => "Failed to analyze repository"
                        end)))
  /\ (forall a, SubmitPage.result r = inl a ->
        exists data err,
          backend "analyze-repo" url = SubmitPage.Resolved data err
          /\ truthy err = false /\ truthy data = true
          /\ sanitized (SubmitPage.vciScore a) /\ sanitized (SubmitPage.confidence a)
          /\ (forall v, getProp data "vciScore" = Normal v -> numeric_or_missing v ->
                in_range (SubmitPage.vciScore a))
          /\ (forall c, getProp data "confidence" = Normal c -> numeric_or_missing c ->
                in_range (SubmitPage.confidence a))
          /\ truthy (SubmitPage.analysis a) = true
          /\ truthy (SubmitPage.codePatterns (SubmitPage.indicators a)) = true
          /\ truthy (SubmitPage.commitPatterns (SubmitPage.indicators a)) = true
          /\ truthy (SubmitPage.documentationPatterns (SubmitPage.indicators a)) = true).
Proof.
  intros r. subst r. rewrite fetchAiAnalysis_run.
  cbn [SubmitPage.result SubmitPage.page SubmitPage.invoked].
  split; [reflexivity |]. split; [reflexivity |].
  split; [| split; [| split; [| split]]].
  - intros e.
    destruct (backend "analyze-repo" url) as [data err | reason]; [| intros [= <-]; eauto].
    destruct (truthy err).
    + destruct (m ← getProp err "message";
                ToString host (or_else m (JStr "Failed to analyze repository")));
        intros [= <-]; eauto.
    + destruct (truthy data); cbn [negb]; [| intros [= <-]; eauto].
      destruct (SubmitPage.validate host data); [discriminate | intros [= <-]; eauto].
  - intros data m msg -> Hm Hmsg. destruct msg as [|c msg]; [contradiction |].
    cbn [truthy getProp mbind completion_bind]. rewrite Hm. reflexivity.
  - intros data err -> -> ->. reflexivity.
  - intros reason ->. reflexivity.
  - intros a.
    destruct (backend "analyze-repo" url) as [data err | reason]; [| discriminate].
    destruct (truthy err) eqn:Eerr.
    { destruct (m ← getProp err "message";
                ToString host (or_else m (JStr "Failed to analyze repository")));
        discriminate. }
    destruct (truthy data) eqn:Edata; cbn [negb]; [| discriminate].
    destruct (SubmitPage.validate host data) as [a'|] eqn:Ev; [| discriminate].
    intros [= <-]. exists data, err.
    destruct (validate_returns host data a' Ev)
      as ((v & Hv & Hscore) & (c & Hc & Hconf) & Han & H1 & H2 & H3).
    split; [reflexivity |]. split; [exact Eerr |]. split; [exact Edata |].
    split; [exact (clamp_or_50_sanitized host v _ Hscore) |].
    split; [exact (clamp_or_50_sanitized host c _ Hconf) |].
    split.
    { intros v' Hv' Hnum. rewrite Hv in Hv'. injection Hv' as <-.
      destruct (clamp_or_50_number host v Hnum) as (n & Hn & Hr & _).
      rewrite Hscore in Hn. injection Hn as <-. exact Hr. }
    split.
    { intros c' Hc' Hnum. rewrite Hc in Hc'. injection Hc' as <-.
      destruct (clamp_or_50_number host c Hnum) as (n & Hn & Hr & _).
      rewrite Hconf in Hn. injection Hn as <-. exact Hr. }
    auto.
Qed.

(** ** The breakdown derived from the score *)

Lemma floor_half (z : Z) : Qfloor (inject_Z z + (1 # 2)) = z.
Proof.
  unfold Qfloor, Qplus, inject_Z. cbn [Qnum Qden].
  replace (z * 2 + 1 * 1)%Z with (z * 2 + 1)%Z by lia.
  change (Z.pos (1 * 2)) with 2%Z.
  rewrite Z.div_add_l by lia. rewrite (Z.div_small 1 2) by lia. lia.
Qed.

Lemma round_between (lo hi : Z) (q : Q) :
  inject_Z lo <= q <= inject_Z hi -> (lo <= Qfloor (q + (1 # 2)) <= hi)%Z.
Proof.
  intros [H1 H2]. split.
  - rewrite <- (Qfloor_Z lo). apply Qfloor_resp_le. lra.
  - rewrite <- (floor_half hi). apply Qfloor_resp_le. lra.
Qed.

Lemma inject_Z_minus (x y : Z) : inject_Z x - inject_Z y == inject_Z (x - y).
Proof. unfold Qminus. rewrite <- inject_Z_opp, <- inject_Z_plus. reflexivity. Qed.

Section Breakdown.
Variable fl : Q -> Q.
Hypothesis fl_monotone : forall p q, p <= q -> fl p <= fl q.
Hypothesis fl_integer : forall z, (0 <= z <= 100)%Z -> fl (inject_Z z) == inject_Z z.

Lemma fl_proper (p q : Q) : p == q -> fl p == fl q.
Proof.
  intros E. apply Qle_antisym; apply fl_monotone; rewrite E; apply Qle_refl.
Qed.

Lemma fl_between (lo hi : Z) (q : Q) :
  (0 <= lo <= 100)%Z -> (0 <= hi <= 100)%Z ->
  inject_Z lo <= q <= inject_Z hi -> inject_Z lo <= fl q <= inject_Z hi.
Proof.
  intros Hlo Hhi [H1 H2]. split.
  - rewrite <- (fl_integer lo Hlo). apply fl_monotone. exact H1.
  - rewrite <- (fl_integer hi Hhi). apply fl_monotone. exact H2.
Qed.

Lemma fl_difference (x : Q) (a b : Z) :
  x == inject_Z a -> (0 <= a - b <= 100)%Z ->
  fl (x - inject_Z b) == inject_Z (a - b).
Proof.
  intros Hx Hab. rewrite <- (fl_integer (a - b) Hab). apply fl_proper.
  rewrite Hx. apply inject_Z_minus.
Qed.

(** A score between 0 and 100 is broken down into three percentages. *)
Lemma breakdown_shares (v : JsNum) :
  in_range v -> shares (SubmitPage.calculateCodeBreakdown fl v).
Proof.
  intros (q & -> & Hq).
  unfold SubmitPage.calculateCodeBreakdown, SubmitPage.times, SubmitPage.Math_round.
  set (a := Qfloor (fl (q * SubmitPage.double_0_6) + (1 # 2))).
  set (b := Qfloor (fl (q * SubmitPage.double_0_3) + (1 # 2))).
  assert (0 <= a <= 60)%Z as Ha.
  { apply round_between. apply fl_between; [lia | lia |].
    unfold SubmitPage.double_0_6, inject_Z. split; lra. }
  assert (0 <= b <= 30)%Z as Hb.
  { apply round_between. apply fl_between; [lia | lia |].
    unfold SubmitPage.double_0_3, inject_Z. split; lra. }
  exists a, b, (100 - a - b)%Z.
  split; [| repeat split; lia].
  split; [reflexivity |]. split; [reflexivity |].
  cbn [SubmitPage.humanWritten]. unfold num. cbn [SubmitPage.minus].
  set (h := fl (fl (inject_Z 100 - inject_Z a) - inject_Z b)).
  assert (h == inject_Z (100 - a - b)) as Hh.
  { apply fl_difference; [| lia]. apply fl_difference; [reflexivity | lia]. }
  exists h. split; [| exact Hh].
  unfold Math_max, num_leb.
  assert (Qle_bool (inject_Z 0) h = true) as ->; [| reflexivity].
  apply Qle_bool_iff. rewrite Hh. rewrite <- Zle_Qle. lia.
Qed.
End Breakdown.

Lemma fallback_in_range (aiTools : list string) :
  in_range (SubmitPage.calculateFallbackVCIScore aiTools).
Proof.
  unfold SubmitPage.calculateFallbackVCIScore.
  destruct (length aiTools) as [|[|[|[|n]]]];
    (eexists; split; [reflexivity | split; discriminate]).
Qed.

(** X12: with the arithmetic of any doubles whose rounding is monotone and
    exact on the integers up to 100, a score between 0 and 100 is broken
    down into whole percentages that add up to 100: at most 60 generated, at
    most 30 modified, at least 10 written by hand.  That holds for the score
    of every analysis the page fetched, unless it is NaN, and for every
    fallback score, which is within 0 to 100 and does not decrease with the
    number of tools declared.  A NaN score gives three NaN. *)
Theorem breakdown_adds_up (fl : Q -> Q) :
  (forall p q, p <= q -> fl p <= fl q) ->
  (forall z, (0 <= z <= 100)%Z -> fl (inject_Z z) == inject_Z z) ->
  (forall v, in_range v -> shares (SubmitPage.calculateCodeBreakdown fl v))
  /\ (forall host backend url s a,
        SubmitPage.result (SubmitPage.fetchAiAnalysis host backend url s) = inl a ->
        SubmitPage.vciScore a <> NaN ->
        shares (SubmitPage.calculateCodeBreakdown fl (SubmitPage.vciScore a)))
  /\ (forall aiTools,
        in_range (SubmitPage.calculateFallbackVCIScore aiTools)
        /\ shares (SubmitPage.calculateCodeBreakdown fl
                     (SubmitPage.calculateFallbackVCIScore aiTools)))
  /\ (forall fewer more : list string,
        (length fewer <= length more)%nat ->
        num_leb (SubmitPage.calculateFallbackVCIScore fewer)
                (SubmitPage.calculateFallbackVCIScore more) = true)
  /\ SubmitPage.calculateCodeBreakdown fl NaN
     = {| SubmitPage.aiGenerated := NaN; SubmitPage.aiModified := NaN;
          SubmitPage.humanWritten := NaN |}.
Proof.
  intros Hmono Hint.
  split; [exact (breakdown_shares fl Hmono Hint) |].
  split; [| split; [| split]].
  - intros host backend url s a Hr Hnan.
    apply (breakdown_shares fl Hmono Hint).
    rewrite fetchAiAnalysis_run in Hr. cbn [SubmitPage.result] in Hr.
    destruct (backend "analyze-repo" url) as [data err | reason]; [| discriminate].
    destruct (truthy err).
    { destruct (m ← getProp err "message";
                ToString host (or_else m (JStr "Failed to analyze repository")));
        discriminate. }
    destruct (truthy data); cbn [negb] in Hr; [| discriminate].
    destruct (SubmitPage.validate host data) as [a'|] eqn:Ev; [| discriminate].
    injection Hr as <-.
    destruct (validate_returns host data a' Ev) as ((v & _ & Hscore) & _).
    destruct (clamp_or_50_sanitized host v _ Hscore) as [E | R];
      [contradiction | exact R].
  - intros aiTools. split; [apply fallback_in_range |].
    apply (breakdown_shares fl Hmono Hint), fallback_in_range.
  - intros fewer more. unfold SubmitPage.calculateFallbackVCIScore.
    destruct (length fewer) as [|[|[|[|n]]]]; destruct (length more) as [|[|[|[|m]]]];
      intros H; try reflexivity; lia.
  - reflexivity.
Qed.

Lemma breakdown_adds_up_witness :
  shares (SubmitPage.calculateCodeBreakdown (fun q => q) (num 72))
  /\ breakdown_is (SubmitPage.calculateCodeBreakdown (fun q => q) (num 72)) 43 22 35.
Proof.
  destruct (breakdown_adds_up (fun q => q)) as (H & _).
  - intros p q Hpq. exact Hpq.
  - intros z _. reflexivity.
  - split.
    + apply H. exists (inject_Z 72). split; [reflexivity | split; discriminate].
    + split; [reflexivity |]. split; [reflexivity |].
      eexists. split; [reflexivity |]. reflexivity.
Defined.
